(** * libwacom: tablet descriptor database

    A shallow embedding of the parse-and-lookup engine of libwacom
    (the database loader and [libwacom/libwacom.c]) together with the
    properties of its specification.

    C [int] and [uint32_t] values are integers of [Z] with the wrap-around
    written out, C strings are [string], a pointer that may be [NULL] is an
    [option], the two GLib hash tables are finite maps. *)

From Stdlib Require Import ZArith String Ascii List Lia Bool.
From stdpp Require Import base option gmap strings list sorting.

Local Open Scope string_scope.
Local Open Scope Z_scope.

(** ** Outcomes

    A call either returns, or stops the process: [g_assert] and
    [g_assert_not_reached] abort, and reading through a [NULL] pointer
    faults. *)

Inductive outcome (A : Type) : Type :=
| Ok (a : A)
| Abort
| Fault.

Arguments Ok {A} a.
Arguments Abort {A}.
Arguments Fault {A}.

(** ** Machine integers *)

Definition to_uint32 (n : Z) : Z := n mod 2 ^ 32.

Definition to_int32 (n : Z) : Z := (n + 2 ^ 31) mod 2 ^ 32 - 2 ^ 31.

Definition LONG_MAX : Z := 2 ^ 63 - 1.
Definition LONG_MIN : Z := - 2 ^ 63.
Definition ULONG_MAX : Z := 2 ^ 64 - 1.

(** ** The C library: character classes, [strtol], [sscanf], [printf] *)

Module Libc.

(** [isspace] in the C locale. *)
Definition isspace (c : ascii) : bool :=
  let n := Z.of_N (N_of_ascii c) in
  (n =? 32) || ((9 <=? n) && (n <=? 13)).

(** The value of a digit, letters standing for 10 to 35 as in [strtol]. *)
Definition digit_val (c : ascii) : option Z :=
  let n := Z.of_N (N_of_ascii c) in
  if (48 <=? n) && (n <=? 57) then Some (n - 48)
  else if (97 <=? n) && (n <=? 122) then Some (n - 87)
  else if (65 <=? n) && (n <=? 90) then Some (n - 55)
  else None.

Definition is_digit (base : Z) (c : ascii) : bool :=
  match digit_val c with
  | Some d => d <? base
  | None => false
  end.

Fixpoint skip_space (s : string) : string :=
  match s with
  | String c s' => if isspace c then skip_space s' else s
  | EmptyString => s
  end.

(** An optional sign: [true] for a minus. *)
Definition scan_sign (s : string) : bool * string :=
  match s with
  | String "-" s' => (true, s')
  | String "+" s' => (false, s')
  | _ => (false, s)
  end.

(** The longest run of digits of the base, and what follows it. *)
Fixpoint take_digits (base : Z) (s : string) : list Z * string :=
  match s with
  | String c s' =>
      match digit_val c with
      | Some d =>
          if d <? base
          then let '(ds, r) := take_digits base s' in (d :: ds, r)
          else ([], s)
      | None => ([], s)
      end
  | EmptyString => ([], s)
  end.

Definition digits_value (base : Z) (ds : list Z) : Z :=
  fold_left (fun a d => a * base + d) ds 0.

(** A leading [0x] or [0X]. *)
Definition strip_0x (s : string) : option string :=
  match s with
  | String "0" (String "x" s') => Some s'
  | String "0" (String "X" s') => Some s'
  | _ => None
  end.

(** [strtoul]'s result for a sign and a magnitude: a magnitude beyond
    [ULONG_MAX] gives [ULONG_MAX], a minus negates in [unsigned long]. *)
Definition strtoul_value (neg : bool) (v : Z) : Z :=
  if ULONG_MAX <? v then ULONG_MAX
  else if neg then (- v) mod 2 ^ 64 else v.

(** [strtol]'s result: clamped to the range of [long]. *)
Definition strtol_value (neg : bool) (v : Z) : Z :=
  let n := if neg then - v else v in
  if n <? LONG_MIN then LONG_MIN
  else if LONG_MAX <? n then LONG_MAX else n.

(** What [strtol (s, &end, base)] reads, for base 0, 8, 10 or 16: the
    sign, the digits, the base they are in and what follows them. White
    space and a sign are skipped; base 0 detects [0x] and a leading [0];
    a [0x] prefix counts only when a hexadecimal digit follows it. *)
Definition strtol_parts (s : string) (base : Z)
  : bool * Z * list Z * string :=
  let '(neg, s2) := scan_sign (skip_space s) in
  let hex_prefixed :=
    match strip_0x s2 with
    | Some (String c r) =>
        if is_digit 16 c then Some (String c r) else None
    | _ => None
    end in
  let '(b, s3) :=
    match hex_prefixed with
    | Some r =>
        if (base =? 0) || (base =? 16) then (16, r) else (base, s2)
    | None =>
        if base =? 0
        then match s2 with
             | String "0" _ => (8, s2)
             | _ => (10, s2)
             end
        else (base, s2)
    end in
  let '(ds, rest) := take_digits b s3 in
  (neg, b, ds, rest).

(** The value [strtol] returns: 0 when there is no digit. *)
Definition strtol (s : string) (base : Z) : Z :=
  let '(neg, b, ds, _) := strtol_parts s base in
  strtol_value neg (digits_value b ds).

(** Where [strtol] leaves its end pointer: at the start of [s] when
    there is no digit. *)
Definition strtol_end (s : string) (base : Z) : string :=
  let '(_, _, ds, rest) := strtol_parts s base in
  match ds with
  | [] => s
  | _ => rest
  end.

(** Whether [strtol] sets [errno] to [ERANGE]. *)
Definition strtol_erange (s : string) (base : Z) : bool :=
  let '(neg, b, ds, _) := strtol_parts s base in
  let n := if neg then - digits_value b ds else digits_value b ds in
  (n <? LONG_MIN) || (LONG_MAX <? n).

(** The conversion [%x] of [sscanf] into an [unsigned int], as the C
    library of GNU reads it: white space is skipped, then an optional
    sign; a [0] followed by [x] or [X] is read as a prefix, and the
    hexadecimal digits after it, if any, are the number, 0 when there is
    none (the [0] was a digit); without the prefix the conversion fails
    when no hexadecimal digit follows. Gives the value stored and the rest
    of the input. *)
Definition scan_x (s : string) : option (Z * string) :=
  let '(neg, s2) := scan_sign (skip_space s) in
  match strip_0x s2 with
  | Some s3 =>
      let '(ds, rest) := take_digits 16 s3 in
      Some (to_uint32 (strtoul_value neg (digits_value 16 ds)), rest)
  | None =>
      match take_digits 16 s2 with
      | ([], _) => None
      | (ds, rest) =>
          Some (to_uint32 (strtoul_value neg (digits_value 16 ds)), rest)
      end
  end.

(** The conversion [%63[^:]]: at most [width] characters other than a
    colon. *)
Fixpoint scan_not_colon (width : nat) (s : string) : string * string :=
  match width, s with
  | S w, String c s' =>
      if Ascii.eqb c ":" then ("", s)
      else let '(b, r) := scan_not_colon w s' in (String c b, r)
  | _, _ => ("", s)
  end.

(** What [sscanf (s, "%63[^:]:%x:%x", busstr, &v, &p)] assigned. *)
Inductive scanned : Type :=
| ScanEOF
| Scan0
| Scan1 (busstr : string)
| Scan2 (busstr : string) (v : Z)
| Scan3 (busstr : string) (v p : Z).

(** The value [sscanf] returns. *)
Definition rc_of (r : scanned) : Z :=
  match r with
  | ScanEOF => -1
  | Scan0 => 0
  | Scan1 _ => 1
  | Scan2 _ _ => 2
  | Scan3 _ _ _ => 3
  end.

(** A colon of the format: the next character has to be one. *)
Definition expect_colon (s : string) : option string :=
  match s with
  | String c r => if Ascii.eqb c ":" then Some r else None
  | EmptyString => None
  end.

Definition sscanf_bus_x_x (s : string) : scanned :=
  match s with
  | EmptyString => ScanEOF
  | _ =>
      let '(busstr, r1) := scan_not_colon 63 s in
      match busstr with
      | EmptyString => Scan0
      | _ =>
          match expect_colon r1 with
          | None => Scan1 busstr
          | Some r2 =>
              match scan_x r2 with
              | None => Scan1 busstr
              | Some (v, r3) =>
                  match expect_colon r3 with
                  | None => Scan2 busstr v
                  | Some r4 =>
                      match scan_x r4 with
                      | None => Scan2 busstr v
                      | Some (p, _) => Scan3 busstr v p
                      end
                  end
              end
          end
      end
  end.

Definition hex_char (d : Z) : ascii :=
  if d <? 10 then ascii_of_N (Z.to_N (48 + d))
  else ascii_of_N (Z.to_N (87 + d)).

Fixpoint hex_digits (fuel : nat) (n : Z) (acc : string) : string :=
  match fuel with
  | O => acc
  | S f =>
      let acc' := String (hex_char (n mod 16)) acc in
      if n / 16 =? 0 then acc' else hex_digits f (n / 16) acc'
  end.

(** [printf]'s [%x] of an [int] or [unsigned int] argument: the 32-bit
    pattern in lower-case hexadecimal, at most 8 digits. *)
Definition fmt_x (n : Z) : string := hex_digits 8 (to_uint32 n) "".

End Libc.

(** ** Enumerations of [libwacom.h] *)

(** Modelled from the spec: the enumerations of [libwacom.h], which is
    not among the sources, with the constants the sources name. The bus
    type starts with [WBUSTYPE_UNKNOWN], the value of a zeroed device. *)
Inductive WacomBusType : Type :=
| WBUSTYPE_UNKNOWN
| WBUSTYPE_USB
| WBUSTYPE_SERIAL
| WBUSTYPE_BLUETOOTH.

Inductive WacomClass : Type :=
| WCLASS_UNKNOWN
| WCLASS_INTUOS3
| WCLASS_INTUOS4
| WCLASS_CINTIQ
| WCLASS_BAMBOO
| WCLASS_GRAPHIRE.

Inductive WacomStylusType : Type :=
| WSTYLUS_UNKNOWN
| WSTYLUS_GENERAL
| WSTYLUS_INKING
| WSTYLUS_AIRBRUSH
| WSTYLUS_CLASSIC
| WSTYLUS_MARKER.

Inductive WacomErrorCode : Type :=
| WERROR_INVALID_PATH
| WERROR_INVALID_DB
| WERROR_UNKNOWN_MODEL.

(** ** Enum/string mappers *)

Definition libwacom_model_string_to_enum (model : option string) : WacomClass :=
  match model with
  | None => WCLASS_UNKNOWN
  | Some "" => WCLASS_UNKNOWN
  | Some m =>
      if String.eqb m "Intuos3" then WCLASS_INTUOS3
      else if String.eqb m "Intuos4" then WCLASS_INTUOS4
      else if String.eqb m "Cintiq" then WCLASS_CINTIQ
      else if String.eqb m "Bamboo" then WCLASS_BAMBOO
      else if String.eqb m "Graphire" then WCLASS_GRAPHIRE
      else WCLASS_UNKNOWN
  end.

Definition type_from_str (type : option string) : WacomStylusType :=
  match type with
  | None => WSTYLUS_UNKNOWN
  | Some t =>
      if String.eqb t "General" then WSTYLUS_GENERAL
      else if String.eqb t "Inking" then WSTYLUS_INKING
      else if String.eqb t "Airbrush" then WSTYLUS_AIRBRUSH
      else if String.eqb t "Classic" then WSTYLUS_CLASSIC
      else if String.eqb t "Marker" then WSTYLUS_MARKER
      else WSTYLUS_UNKNOWN
  end.

(** [strcmp] reads through its argument: a [NULL] faults. *)
Definition bus_from_str (str : option string) : outcome WacomBusType :=
  match str with
  | None => Fault
  | Some s =>
      Ok (if String.eqb s "usb" then WBUSTYPE_USB
          else if String.eqb s "serial" then WBUSTYPE_SERIAL
          else if String.eqb s "bluetooth" then WBUSTYPE_BLUETOOTH
          else WBUSTYPE_UNKNOWN)
  end.

Definition bus_to_str (bus : WacomBusType) : outcome string :=
  match bus with
  | WBUSTYPE_UNKNOWN => Abort
  | WBUSTYPE_USB => Ok "usb"
  | WBUSTYPE_SERIAL => Ok "bluetooth"
  | WBUSTYPE_BLUETOOTH => Ok "bluetooth"
  end.

(** ** The key file reader of GLib

    A loaded [GKeyFile]: the groups in the order of the file, each with
    the value of its keys. *)

Module GKeyFile.

Definition t : Type := list (string * list (string * string)).

Fixpoint assoc {A : Type} (k : string) (l : list (string * A)) : option A :=
  match l with
  | [] => None
  | (k', v) :: l' => if String.eqb k k' then Some v else assoc k l'
  end.

(** [g_key_file_get_groups]: the names of the groups, in file order. *)
Definition g_key_file_get_groups (kf : t) : list string := map fst kf.

(** [g_key_file_get_string]: [NULL] when the group or the key is
    missing. *)
Definition g_key_file_get_string (kf : t) (group key : string)
  : option string :=
  match assoc group kf with
  | Some kvs => assoc key kvs
  | None => None
  end.

(** [g_key_file_get_boolean]: the value, and whether a [GError] is set
    (key not found, or a value that is none of [true], [1], [false],
    [0]); the value is [FALSE] with an error. *)
Definition g_key_file_get_boolean_err (kf : t) (group key : string)
  : bool * bool :=
  match g_key_file_get_string kf group key with
  | Some v =>
      if String.eqb v "true" || String.eqb v "1" then (true, false)
      else if String.eqb v "false" || String.eqb v "0" then (false, false)
      else (false, true)
  | None => (false, true)
  end.

Definition g_key_file_get_boolean (kf : t) (group key : string) : bool :=
  fst (g_key_file_get_boolean_err kf group key).

(** [g_key_file_get_integer]: the value, and whether a [GError] is set
    (key not found, an empty value, characters after the decimal
    number, or a number out of the range of [int]); the value is 0 with
    an error. *)
Definition g_key_file_get_integer_err (kf : t) (group key : string)
  : Z * bool :=
  match g_key_file_get_string kf group key with
  | Some v =>
      let long_value := Libc.strtol v 10 in
      if String.eqb v "" || negb (String.eqb (Libc.strtol_end v 10) "")
      then (0, true)
      else
        let int_value := to_int32 long_value in
        if negb (int_value =? long_value) || Libc.strtol_erange v 10
        then (0, true)
        else (int_value, false)
  | None => (0, true)
  end.

Definition g_key_file_get_integer (kf : t) (group key : string) : Z :=
  fst (g_key_file_get_integer_err kf group key).

(** The pieces of a list value: separated by [;], a last empty piece
    dropped. *)
Fixpoint split_list (cur : string) (s : string) : list string :=
  match s with
  | EmptyString =>
      match cur with
      | EmptyString => []
      | _ => [cur]
      end
  | String c s' =>
      if Ascii.eqb c ";" then cur :: split_list "" s'
      else split_list (cur +:+ String c "") s'
  end.

(** [g_key_file_get_string_list]: [NULL] when the key is missing. *)
Definition g_key_file_get_string_list (kf : t) (group key : string)
  : option (list string) :=
  match g_key_file_get_string kf group key with
  | Some v => Some (split_list "" v)
  | None => None
  end.

End GKeyFile.

Import GKeyFile.

(** [g_strcmp0]: [strcmp] that takes [NULL], which sorts before any
    string. *)
Definition g_strcmp0 (a b : option string) : Z :=
  match a, b with
  | None, None => 0
  | None, Some _ => -1
  | Some _, None => 1
  | Some x, Some y =>
      match String.compare x y with
      | Eq => 0
      | Lt => -1
      | Gt => 1
      end
  end.

(** [g_strdup]: [NULL] for [NULL]. *)
Definition g_strdup (s : option string) : option string := s.

(** [g_memdup (mem, sizeof (int) * n)]: [NULL] when [mem] is [NULL] or the
    size is 0. *)
Definition g_memdup (mem : option (list Z)) (n : Z) : option (list Z) :=
  match mem with
  | Some l => if n =? 0 then None else Some (take (Z.to_nat n) l)
  | None => None
  end.

(** [g_array_free (array, FALSE)] on an array of [g_array_new (FALSE,
    FALSE, sizeof (int))]: the elements appended, and [NULL] when nothing
    was appended, the data being allocated by the first append. *)
Definition g_array_free (elements : list Z) : option (list Z) :=
  match elements with
  | [] => None
  | _ => Some elements
  end.

(** ** Records of [libwacomint.h] *)

(** Modelled from the spec: the structures of [libwacomint.h], which is
    not among the sources, with the fields the sources read and write. *)
Record WacomDevice : Type := mkWacomDevice {
  vendor : option string;
  product : option string;
  width : Z;
  height : Z;
  match_ : option string;
  vendor_id : Z;
  product_id : Z;
  cls : WacomClass;
  bus : WacomBusType;
  num_buttons : Z;
  supported_styli : option (list Z);
  num_styli : Z;
  features : Z
}.

Record WacomStylus : Type := mkWacomStylus {
  stylus_id : Z;
  stylus_name : option string;
  stylus_num_buttons : Z;
  stylus_has_eraser : bool;
  stylus_is_eraser : bool;
  stylus_type : WacomStylusType
}.

Record WacomDeviceDatabase : Type := mkWacomDeviceDatabase {
  device_ht : gmap string WacomDevice;
  stylus_ht : option (gmap Z WacomStylus)
}.

Record WacomError : Type := mkWacomError {
  code : WacomErrorCode;
  msg : option string
}.

(** Modelled from the spec: the macros of [libwacomint.h], which is not
    among the sources: the literal sentinel of the fallback entry and the
    eight feature flags, one bit each in the order the spec lists them. *)
Definition GENERIC_DEVICE_MATCH : string := "generic".

Definition FEATURE_STYLUS : Z := Z.shiftl 1 0.
Definition FEATURE_TOUCH : Z := Z.shiftl 1 1.
Definition FEATURE_RING : Z := Z.shiftl 1 2.
Definition FEATURE_RING2 : Z := Z.shiftl 1 3.
Definition FEATURE_VSTRIP : Z := Z.shiftl 1 4.
Definition FEATURE_HSTRIP : Z := Z.shiftl 1 5.
Definition FEATURE_BUILTIN : Z := Z.shiftl 1 6.
Definition FEATURE_REVERSIBLE : Z := Z.shiftl 1 7.

Definition SUFFIX : string := ".tablet".
Definition FEATURE_GROUP : string := "Features".
Definition DEVICE_GROUP : string := "Device".

(** ** Diagnostics and the monad of the loader

    [DBG] and [g_warning] write a line each; the loader threads the lines
    written so far. *)

(** The lines: the two [DBG] of the descriptor parser (a file that does
    not load, a [DeviceMatch] that does not scan) and the four
    [g_warning]. *)
Inductive diag : Type :=
| DBG_load_failed (path : string)
| DBG_match_failed (path : string)
| WARN_stylus_id (group : string)
| WARN_stylus_duplicate (id : Z)
| WARN_no_buttons (id : Z)
| WARN_no_type (id : Z).

Definition is_warning (d : diag) : bool :=
  match d with
  | DBG_load_failed _ | DBG_match_failed _ => false
  | _ => true
  end.

#[global] Instance outcome_ret : MRet outcome := fun _ a => Ok a.
#[global] Instance outcome_bind : MBind outcome := fun _ _ f c =>
  match c with
  | Ok a => f a
  | Abort => Abort
  | Fault => Fault
  end.

Definition M (A : Type) : Type := list diag -> outcome (A * list diag).

#[global] Instance M_ret : MRet M := fun _ a log => Ok (a, log).
#[global] Instance M_bind : MBind M := fun _ _ f c log =>
  match c log with
  | Ok (a, log') => f a log'
  | Abort => Abort
  | Fault => Fault
  end.

Definition lift {A : Type} (c : outcome A) : M A := fun log =>
  match c with
  | Ok a => Ok (a, log)
  | Abort => Abort
  | Fault => Fault
  end.

Definition say (d : diag) : M unit := fun log => Ok (tt, (log ++ [d])%list).

(** ** Descriptor parser *)

(** The out-parameters a [sscanf] result has written, given their old
    values; [busstr] is read only after three conversions. *)
Definition stored_busstr (r : Libc.scanned) : option string :=
  match r with
  | Libc.Scan1 b | Libc.Scan2 b _ | Libc.Scan3 b _ _ => Some b
  | _ => None
  end.

Definition stored_vendor (r : Libc.scanned) (old : Z) : Z :=
  match r with
  | Libc.Scan2 _ v | Libc.Scan3 _ v _ => v
  | _ => old
  end.

Definition stored_product (r : Libc.scanned) (old : Z) : Z :=
  match r with
  | Libc.Scan3 _ _ p => p
  | _ => old
  end.

(** Returns [rc] and the contents of [*vendor_id], [*product_id] and
    [*bus] after the call. [sscanf] reads through [match]: a [NULL]
    faults. *)
Definition libwacom_matchstr_to_ints (match_ : option string)
    (vendor_id product_id : Z) (bus : WacomBusType)
  : outcome (Z * (Z * Z * WacomBusType)) :=
  match match_ with
  | None => Fault
  | Some m =>
      let r := Libc.sscanf_bus_x_x m in
      let rc := Libc.rc_of r in
      let vendor_id := stored_vendor r vendor_id in
      let product_id := stored_product r product_id in
      if negb (rc =? 3) then Ok (0, (vendor_id, product_id, bus))
      else
        bus ← bus_from_str (stored_busstr r);
        Ok (1, (vendor_id, product_id, bus))
  end.

(** [g_strdup_printf ("%s:0x%x:0x%x", busname, vendor_id, product_id)]. *)
Definition printf_match (busname : string) (vendor_id product_id : Z)
  : string :=
  busname +:+ ":0x" +:+ Libc.fmt_x vendor_id
          +:+ ":0x" +:+ Libc.fmt_x product_id.

Definition feature_flag (kf : GKeyFile.t) (key : string) (bit : Z)
    (features : Z) : Z :=
  if g_key_file_get_boolean kf FEATURE_GROUP key
  then Z.lor features bit else features.

(** [file] is what [g_key_file_load_from_file] finds at [path]: [None]
    when the load fails. The fields of the [g_new0] device start at zero,
    which for the bus is [WBUSTYPE_UNKNOWN]. *)
Definition libwacom_parse_tablet_keyfile (path : string)
    (file : option GKeyFile.t) : M (option WacomDevice) :=
  match file with
  | None => say (DBG_load_failed path);; mret None
  | Some keyfile =>
      let vendor := g_key_file_get_string keyfile DEVICE_GROUP "Vendor" in
      let product := g_key_file_get_string keyfile DEVICE_GROUP "Product" in
      let width := g_key_file_get_integer keyfile DEVICE_GROUP "Width" in
      let height := g_key_file_get_integer keyfile DEVICE_GROUP "Height" in
      let class := g_key_file_get_string keyfile DEVICE_GROUP "Class" in
      let cls := libwacom_model_string_to_enum class in
      let match_ := g_key_file_get_string keyfile DEVICE_GROUP "DeviceMatch" in
      '(device_match, (vendor_id, product_id, bus)) ←
        (if g_strcmp0 match_ (Some GENERIC_DEVICE_MATCH) =? 0
         then mret (match_, (0, 0, WBUSTYPE_UNKNOWN))
         else
           '(rc, (vendor_id, product_id, bus)) ←
             lift (libwacom_matchstr_to_ints match_ 0 0 WBUSTYPE_UNKNOWN);
           if rc =? 0
           then say (DBG_match_failed path);;
                mret (None, (vendor_id, product_id, bus))
           else
             busname ← lift (bus_to_str bus);
             mret (Some (printf_match busname vendor_id product_id),
                   (vendor_id, product_id, bus)));
      let styli_list := g_key_file_get_string_list keyfile DEVICE_GROUP "Styli" in
      let '(supported_styli, num_styli) :=
        match styli_list with
        | Some l =>
            (g_array_free (map (fun s => to_int32 (Libc.strtol s 0)) l),
             Z.of_nat (length l))
        | None => (None, 0)
        end in
      let features :=
        feature_flag keyfile "Reversible" FEATURE_REVERSIBLE
          (feature_flag keyfile "BuiltIn" FEATURE_BUILTIN
            (feature_flag keyfile "HStrip" FEATURE_HSTRIP
              (feature_flag keyfile "VStrip" FEATURE_VSTRIP
                (feature_flag keyfile "Ring2" FEATURE_RING2
                  (feature_flag keyfile "Ring" FEATURE_RING
                    (feature_flag keyfile "Touch" FEATURE_TOUCH
                      (feature_flag keyfile "Stylus" FEATURE_STYLUS 0))))))) in
      let num_buttons := g_key_file_get_integer keyfile FEATURE_GROUP "Buttons" in
      mret (Some {| vendor := vendor; product := product;
                    width := width; height := height;
                    match_ := device_match;
                    vendor_id := vendor_id; product_id := product_id;
                    cls := cls; bus := bus; num_buttons := num_buttons;
                    supported_styli := supported_styli;
                    num_styli := num_styli; features := features |})
  end.

(** One turn of the loop over the groups of the stylus file. *)
Definition parse_stylus_group (keyfile : GKeyFile.t) (group : string)
    (ht : gmap Z WacomStylus) : M (gmap Z WacomStylus) :=
  let id := to_int32 (Libc.strtol group 16) in
  if id =? 0 then say (WARN_stylus_id group);; mret ht
  else
    let name := g_key_file_get_string keyfile group "Name" in
    let is_eraser := g_key_file_get_boolean keyfile group "IsEraser" in
    let '(has_eraser, num_buttons) :=
      if negb is_eraser
      then
        let has_eraser := g_key_file_get_boolean keyfile group "HasEraser" in
        let '(num_buttons, error) :=
          g_key_file_get_integer_err keyfile group "Buttons" in
        (has_eraser, if (num_buttons =? 0) && error then -1 else num_buttons)
      else (false, 0) in
    let type := g_key_file_get_string keyfile group "Type" in
    let stylus :=
      {| stylus_id := id; stylus_name := name;
         stylus_num_buttons := num_buttons;
         stylus_has_eraser := has_eraser;
         stylus_is_eraser := is_eraser;
         stylus_type := type_from_str type |} in
    (if bool_decide (is_Some (ht !! id))
     then say (WARN_stylus_duplicate id) else mret tt);;
    mret (<[id := stylus]> ht).

Fixpoint parse_stylus_groups (keyfile : GKeyFile.t) (groups : list string)
    (ht : gmap Z WacomStylus) : M (gmap Z WacomStylus) :=
  match groups with
  | [] => mret ht
  | group :: groups' =>
      ht' ← parse_stylus_group keyfile group ht;
      parse_stylus_groups keyfile groups' ht'
  end.

(** Fills the stylus table [ht] of the database; [g_assert (rc)] aborts
    when the file does not load. *)
Definition libwacom_parse_stylus_keyfile (ht : gmap Z WacomStylus)
    (file : option GKeyFile.t) : M (gmap Z WacomStylus) :=
  match file with
  | None => lift Abort
  | Some keyfile =>
      parse_stylus_groups keyfile (g_key_file_get_groups keyfile) ht
  end.

(** ** Database builder *)

(** What the loader reads: the macros [DATADIR] and [STYLUS_DATA_FILE],
    the names [scandir] finds in [DATADIR] ([None] when it cannot be
    read) and the file system as [g_key_file_load_from_file] sees it. *)
Record environment : Type := mkEnvironment {
  DATADIR : string;
  STYLUS_DATA_FILE : string;
  readdir : option (list string);
  g_key_file_load_from_file : string -> option GKeyFile.t
}.

Definition g_build_filename (dir name : string) : string :=
  dir +:+ "/" +:+ name.

Definition scandir_filter (name : string) : bool :=
  match name with
  | String "." _ => false
  | _ =>
      let len := String.length name in
      let suffix_len := String.length SUFFIX in
      if (len <=? suffix_len)%nat then false
      else String.eqb (String.substring (len - suffix_len) suffix_len name) SUFFIX
  end.

(** [alphasort] in the C locale: the order of [strcmp]. *)
Definition alphasort (a b : string) : Prop := Is_true (String.leb a b).

#[global] Instance alphasort_dec a b : Decision (alphasort a b).
Proof. unfold alphasort. apply _. Defined.

(** [scandir (DATADIR, &files, scandir_filter, alphasort)]: the count it
    returns, -1 on failure, and the names selected, sorted. *)
Definition scandir (E : environment) : Z * list string :=
  match readdir E with
  | None => (-1, [])
  | Some names =>
      let files := merge_sort alphasort (filter (fun n => Is_true (scandir_filter n)) names) in
      (Z.of_nat (length files), files)
  end.

(** [g_hash_table_insert] into the device table, whose hash function
    [g_str_hash] reads through the key: a [NULL] key faults. An equal
    key already in the table has its value replaced. *)
Definition g_hash_table_insert_str (ht : gmap string WacomDevice)
    (key : option string) (value : WacomDevice)
  : outcome (gmap string WacomDevice) :=
  match key with
  | None => Fault
  | Some k => Ok (<[k := value]> ht)
  end.

(** The body of the loop, for the entry [d_name] of [files]. *)
Definition load_tablet (E : environment) (d_name : string)
    (ht : gmap string WacomDevice) : M (gmap string WacomDevice) :=
  let path := g_build_filename (DATADIR E) d_name in
  d ← libwacom_parse_tablet_keyfile path (g_key_file_load_from_file E path);
  match d with
  | Some d => lift (g_hash_table_insert_str ht (g_strdup (match_ d)) d)
  | None => mret ht
  end.

(** The loop [while (n--)] over [files]. *)
Fixpoint load_tablets (E : environment) (files : list string) (n : nat)
    (ht : gmap string WacomDevice) : M (gmap string WacomDevice) :=
  match n with
  | O => mret ht
  | S n' =>
      match files !! n' with
      | None => lift Fault
      | Some d_name =>
          ht' ← load_tablet E d_name ht;
          load_tablets E files n' ht'
      end
  end.

Definition libwacom_database_new (E : environment) : M WacomDeviceDatabase :=
  let device_ht : gmap string WacomDevice := ∅ in
  let '(n, files) := scandir E in
  if n <=? 0 then mret {| device_ht := device_ht; stylus_ht := None |}
  else
    device_ht ← load_tablets E files (Z.to_nat n) device_ht;
    let path := g_build_filename (DATADIR E) (STYLUS_DATA_FILE E) in
    stylus_ht ← libwacom_parse_stylus_keyfile ∅ (g_key_file_load_from_file E path);
    mret {| device_ht := device_ht; stylus_ht := Some stylus_ht |}.

(** ** Hardware resolver *)

(** Modelled from the spec: [libwacom_error_set] of the error module,
    which is not among the sources: a resolution failure is surfaced as a
    typed error with an optional message. Nothing is recorded through a
    [NULL] error pointer; otherwise the code is stored, and the message
    when one is given. *)
Definition libwacom_error_set (error : option WacomError)
    (c : WacomErrorCode) (m : option string) : option WacomError :=
  match error with
  | None => None
  | Some e =>
      Some {| code := c;
              msg := match m with Some _ => m | None => msg e end |}
  end.

Definition libwacom_get_device (db : WacomDeviceDatabase) (match_ : string)
  : option WacomDevice :=
  device_ht db !! match_.

Definition libwacom_copy (device : WacomDevice) : WacomDevice :=
  {| vendor := g_strdup (vendor device);
     product := g_strdup (product device);
     width := width device;
     height := height device;
     match_ := g_strdup (match_ device);
     vendor_id := vendor_id device;
     product_id := product_id device;
     cls := cls device;
     bus := bus device;
     num_buttons := num_buttons device;
     supported_styli := g_memdup (supported_styli device) (num_styli device);
     num_styli := num_styli device;
     features := features device |}.

(** The device found, borrowed from the table, and the caller's error
    record after the call. *)
Definition libwacom_new (db : option WacomDeviceDatabase)
    (vendor_id product_id : Z) (bus : WacomBusType)
    (error : option WacomError)
  : outcome (option WacomDevice * option WacomError) :=
  match db with
  | None =>
      Ok (None, libwacom_error_set error WERROR_INVALID_DB (Some "db is NULL"))
  | Some db =>
      busname ← bus_to_str bus;
      let match_ := printf_match busname vendor_id product_id in
      Ok (libwacom_get_device db match_, error)
  end.

Definition libwacom_new_from_usbid (db : option WacomDeviceDatabase)
    (vendor_id product_id : Z) (error : option WacomError)
  : outcome (option WacomDevice * option WacomError) :=
  '(device, error) ← libwacom_new db vendor_id product_id WBUSTYPE_USB error;
  match device with
  | Some device => Ok (Some (libwacom_copy device), error)
  | None => Ok (None, libwacom_error_set error WERROR_UNKNOWN_MODEL None)
  end.

Section ByName.

(** [g_hash_table_get_values] lists the values of the table in an
    order GLib does not specify. *)
Variable g_hash_table_get_values : gmap string WacomDevice -> list WacomDevice.

Definition libwacom_new_from_name (db : option WacomDeviceDatabase)
    (name : option string) (error : option WacomError)
  : option WacomDevice * option WacomError :=
  match db with
  | None =>
      (None, libwacom_error_set error WERROR_INVALID_DB (Some "db is NULL"))
  | Some db =>
      let keys := g_hash_table_get_values (device_ht db) in
      let device :=
        List.find (fun d => g_strcmp0 (product d) name =? 0) keys in
      match device with
      | Some device => (Some (libwacom_copy device), error)
      | None => (None, libwacom_error_set error WERROR_UNKNOWN_MODEL None)
      end
  end.

End ByName.

(** ** Accessors *)

Definition libwacom_get_vendor_id (device : WacomDevice) : Z :=
  to_int32 (vendor_id device).

Definition libwacom_get_product_id (device : WacomDevice) : Z :=
  to_int32 (product_id device).

Definition libwacom_get_match (device : WacomDevice) : option string :=
  match_ device.

Definition libwacom_get_bustype (device : WacomDevice) : WacomBusType :=
  bus device.

Definition libwacom_has_stylus (device : WacomDevice) : Z :=
  if Z.land (features device) FEATURE_STYLUS =? 0 then 0 else 1.

Definition libwacom_has_touch (device : WacomDevice) : Z :=
  if Z.land (features device) FEATURE_TOUCH =? 0 then 0 else 1.

Definition libwacom_stylus_get_for_id (db : WacomDeviceDatabase) (id : Z)
  : option WacomStylus :=
  match stylus_ht db with
  | Some ht => ht !! id
  | None => None
  end.

Definition libwacom_stylus_get_num_buttons (stylus : WacomStylus) : M Z :=
  if stylus_num_buttons stylus =? -1
  then say (WARN_no_buttons (stylus_id stylus));; mret 2
  else mret (stylus_num_buttons stylus).

Definition libwacom_stylus_has_eraser (stylus : WacomStylus) : bool :=
  stylus_has_eraser stylus.

Definition libwacom_stylus_is_eraser (stylus : WacomStylus) : bool :=
  stylus_is_eraser stylus.

Definition libwacom_stylus_get_type (stylus : WacomStylus) : M WacomStylusType :=
  match stylus_type stylus with
  | WSTYLUS_UNKNOWN => say (WARN_no_type (stylus_id stylus));; mret WSTYLUS_GENERAL
  | t => mret t
  end.

(** ** The C library: the conversions of the device resolver *)

Module LibcScan.

(** The conversion [%d] of [sscanf] into an [int]: white space is
    skipped, then an optionally signed decimal number is read; the
    conversion fails when there is no digit. *)
Definition scan_d (s : string) : option (Z * string) :=
  let '(neg, s2) := Libc.scan_sign (Libc.skip_space s) in
  match Libc.take_digits 10 s2 with
  | ([], _) => None
  | (ds, rest) =>
      Some (to_int32 (Libc.strtol_value neg (Libc.digits_value 10 ds)), rest)
  end.

(** A slash of the format: the next character has to be one. *)
Definition expect_slash (s : string) : option string :=
  match s with
  | String c r => if Ascii.eqb c "/" then Some r else None
  | EmptyString => None
  end.

(** [sscanf (s, "%d/%x/%x/%d", &garbage, vendor_id, product_id, &garbage)]
    with [int] targets: the value returned and what was stored in
    [*vendor_id] and [*product_id]. *)
Definition sscanf_d_x_x_d (s : string) : Z * option Z * option Z :=
  match Libc.skip_space s with
  | EmptyString => (-1, None, None)
  | _ =>
      match scan_d s with
      | None => (0, None, None)
      | Some (_, r1) =>
          match expect_slash r1 with
          | None => (1, None, None)
          | Some r2 =>
              match Libc.scan_x r2 with
              | None => (1, None, None)
              | Some (v, r3) =>
                  match expect_slash r3 with
                  | None => (2, Some (to_int32 v), None)
                  | Some r4 =>
                      match Libc.scan_x r4 with
                      | None => (2, Some (to_int32 v), None)
                      | Some (p, r5) =>
                          match expect_slash r5 with
                          | None => (3, Some (to_int32 v), Some (to_int32 p))
                          | Some r6 =>
                              match scan_d r6 with
                              | None =>
                                  (3, Some (to_int32 v), Some (to_int32 p))
                              | Some _ =>
                                  (4, Some (to_int32 v), Some (to_int32 p))
                              end
                          end
                      end
                  end
              end
          end
      end
  end.

Definition tolower (c : ascii) : ascii :=
  let n := Z.of_N (N_of_ascii c) in
  if (65 <=? n) && (n <=? 90) then ascii_of_N (Z.to_N (n + 32)) else c.

Fixpoint string_tolower (s : string) : string :=
  match s with
  | EmptyString => EmptyString
  | String c s' => String (tolower c) (string_tolower s')
  end.

End LibcScan.

(** ** The device database of udev

    A device as [gudev] shows it: its properties and its parent. *)

Module GUdev.

#[warnings="-register-all"]
Inductive GUdevDevice : Type :=
| mkGUdevDevice (properties : list (string * string))
                (parent : option GUdevDevice).

Definition properties (d : GUdevDevice) : list (string * string) :=
  match d with
  | mkGUdevDevice ps _ => ps
  end.

(** [g_udev_device_get_parent]: [NULL] when there is none. *)
Definition g_udev_device_get_parent (d : GUdevDevice) : option GUdevDevice :=
  match d with
  | mkGUdevDevice _ p => p
  end.

(** [g_udev_device_get_property]: [NULL] when the device has no such
    property, and for a [NULL] device, which the function refuses. *)
Definition g_udev_device_get_property (d : option GUdevDevice) (key : string)
  : option string :=
  match d with
  | Some d => GKeyFile.assoc key (properties d)
  | None => None
  end.

(** [g_udev_device_get_property_as_boolean]: true for a property that is
    [1] or, in any case of letters, [true]. *)
Definition g_udev_device_get_property_as_boolean (d : option GUdevDevice)
    (key : string) : bool :=
  match g_udev_device_get_property d key with
  | Some s => String.eqb s "1" || String.eqb (LibcScan.string_tolower s) "true"
  | None => false
  end.

End GUdev.

Import GUdev.

(** ** Hardware resolver: by device path *)

(** [strtol (str, NULL, 16)] into an [int]; [strtol] reads through [str]:
    a [NULL] faults. *)
Definition strtol16_int (str : option string) : outcome Z :=
  match str with
  | Some s => Ok (to_int32 (Libc.strtol s 16))
  | None => Fault
  end.

(** [udev] is [g_udev_client_query_by_device_file] on the client of the
    input subsystem. Returns the contents of [*vendor_id], [*product_id]
    and [*bus] when the function returns [TRUE], and the caller's error
    record after the call. [sscanf] has stored both ids when it returns 4.
    The last test compares the addresses [vendor_id] and [product_id] with
    0, which are those of the caller's variables: it holds. *)
Definition get_device_info (udev : string -> option GUdevDevice)
    (path : string) (error : option WacomError)
  : outcome (option (Z * Z * WacomBusType) * option WacomError) :=
  match udev path with
  | None =>
      Ok (None,
          libwacom_error_set error WERROR_INVALID_PATH
            (Some ("Could not find device '" +:+ path +:+ "' in udev")))
  | Some device =>
      if negb (g_udev_device_get_property_as_boolean (Some device) "ID_INPUT_TABLET")
      then
        Ok (None,
            libwacom_error_set error WERROR_INVALID_PATH
              (Some ("Device '" +:+ path +:+ "' is not a tablet")))
      else
        let bus_str := g_udev_device_get_property (Some device) "ID_BUS" in
        let '(device, bus_str) :=
          match bus_str with
          | None => (g_udev_device_get_parent device, "bluetooth")
          | Some b => (Some device, b)
          end in
        bus ← bus_from_str (Some bus_str);
        match bus with
        | WBUSTYPE_USB =>
            let vendor_str := g_udev_device_get_property device "ID_VENDOR_ID" in
            let product_str := g_udev_device_get_property device "ID_MODEL_ID" in
            vendor_id ← strtol16_int vendor_str;
            product_id ← strtol16_int product_str;
            Ok (Some (vendor_id, product_id, bus), error)
        | WBUSTYPE_BLUETOOTH =>
            let product_str := g_udev_device_get_property device "PRODUCT" in
            match product_str with
            | None => Fault
            | Some s =>
                let '(rc, vendor_id, product_id) := LibcScan.sscanf_d_x_x_d s in
                if negb (rc =? 4)
                then
                  Ok (None,
                      libwacom_error_set error WERROR_UNKNOWN_MODEL
                        (Some "Unimplemented serial bus"))
                else
                  match vendor_id, product_id with
                  | Some vendor_id, Some product_id =>
                      Ok (Some (vendor_id, product_id, bus), error)
                  | _, _ => Fault
                  end
            end
        | WBUSTYPE_SERIAL =>
            Ok (None,
                libwacom_error_set error WERROR_UNKNOWN_MODEL
                  (Some "Unimplemented serial bus"))
        | WBUSTYPE_UNKNOWN =>
            Ok (None,
                libwacom_error_set error WERROR_UNKNOWN_MODEL
                  (Some ("Unsupported bus '" +:+ bus_str +:+ "'")))
        end
  end.

(** [libwacom_get_device (db, "generic")] reads [db->device_ht]: a [NULL]
    database faults. *)
Definition libwacom_new_from_path (udev : string -> option GUdevDevice)
    (db : option WacomDeviceDatabase) (path : option string) (fallback : Z)
    (error : option WacomError)
  : outcome (option WacomDevice * option WacomError) :=
  match path with
  | None =>
      Ok (None, libwacom_error_set error WERROR_INVALID_PATH (Some "path is NULL"))
  | Some path =>
      '(info, error) ← get_device_info udev path error;
      match info with
      | None => Ok (None, error)
      | Some (vendor_id, product_id, bus) =>
          '(device, error) ← libwacom_new db vendor_id product_id bus error;
          device ←
            (match device with
             | None =>
                 if negb (fallback =? 0)
                 then match db with
                      | Some db => Ok (libwacom_get_device db "generic")
                      | None => Fault
                      end
                 else Ok None
             | Some _ => Ok device
             end);
          match device with
          | Some device => Ok (Some (libwacom_copy device), error)
          | None => Ok (None, libwacom_error_set error WERROR_UNKNOWN_MODEL None)
          end
      end
  end.

(** ** Accessors: the other projections *)

Definition libwacom_get_vendor (device : WacomDevice) : option string :=
  vendor device.

Definition libwacom_get_product (device : WacomDevice) : option string :=
  product device.

Definition libwacom_get_width (device : WacomDevice) : Z := width device.

Definition libwacom_get_height (device : WacomDevice) : Z := height device.

Definition libwacom_get_class (device : WacomDevice) : WacomClass :=
  cls device.

Definition libwacom_get_num_buttons (device : WacomDevice) : Z :=
  num_buttons device.

(** The array returned and the count stored in [*num_styli]. *)
Definition libwacom_get_supported_styli (device : WacomDevice)
  : option (list Z) * Z :=
  (supported_styli device, num_styli device).

Definition libwacom_has_ring (device : WacomDevice) : Z :=
  if Z.land (features device) FEATURE_RING =? 0 then 0 else 1.

Definition libwacom_has_ring2 (device : WacomDevice) : Z :=
  if Z.land (features device) FEATURE_RING2 =? 0 then 0 else 1.

Definition libwacom_has_vstrip (device : WacomDevice) : Z :=
  if Z.land (features device) FEATURE_VSTRIP =? 0 then 0 else 1.

Definition libwacom_has_hstrip (device : WacomDevice) : Z :=
  if Z.land (features device) FEATURE_HSTRIP =? 0 then 0 else 1.

Definition libwacom_is_builtin (device : WacomDevice) : Z :=
  if Z.land (features device) FEATURE_BUILTIN =? 0 then 0 else 1.

Definition libwacom_is_reversible (device : WacomDevice) : Z :=
  if Z.land (features device) FEATURE_REVERSIBLE =? 0 then 0 else 1.

Definition libwacom_stylus_get_id (stylus : WacomStylus) : Z :=
  stylus_id stylus.

Definition libwacom_stylus_get_name (stylus : WacomStylus) : option string :=
  stylus_name stylus.

(** ** Notions the properties are stated with *)

Definition stylus_group_id (group : string) : Z :=
  to_int32 (Libc.strtol group 16).

(** What the catalog parser guarantees of a record [s] built from the
    group [group] of [kf]. *)
Definition built_from (kf : GKeyFile.t) (group : string) (s : WacomStylus)
  : Prop :=
  stylus_id s = stylus_group_id group
  /\ stylus_group_id group <> 0
  /\ stylus_is_eraser s = g_key_file_get_boolean kf group "IsEraser"
  /\ (g_key_file_get_boolean kf group "IsEraser" = true ->
      stylus_has_eraser s = false /\ stylus_num_buttons s = 0).

(** The device the parser makes of the file [d_name] of the data
    directory, when it makes one. *)
Definition parsed_tablet (E : environment) (d_name : string)
  : option WacomDevice :=
  let path := g_build_filename (DATADIR E) d_name in
  match libwacom_parse_tablet_keyfile path (g_key_file_load_from_file E path) [] with
  | Ok (d, _) => d
  | _ => None
  end.

Definition has_match_key (k : string) (d : WacomDevice) : bool :=
  bool_decide (match_ d = Some k).

(** The files of a list loaded one after the other, the first one
    first. *)
Fixpoint load_in_order (E : environment) (names : list string)
    (ht : gmap string WacomDevice) : M (gmap string WacomDevice) :=
  match names with
  | [] => mret ht
  | d_name :: names' =>
      ht' ← load_tablet E d_name ht;
      load_in_order E names' ht'
  end.

(** The values of a table in the order of its keys: one of the orders
    [g_hash_table_get_values] may give. *)
Definition values_by_key (t : gmap string WacomDevice) : list WacomDevice :=
  (map_to_list t).*2.

Fixpoint all_chars (f : ascii -> bool) (s : string) : bool :=
  match s with
  | EmptyString => true
  | String c s' => f c && all_chars f s'
  end.

Definition not_colon (c : ascii) : bool := negb (Ascii.eqb c ":").

(** A bus name of the pattern: 1 to 63 characters, none a colon. *)
Definition is_bus_name (b : string) : Prop :=
  b <> "" /\ (String.length b <= 63)%nat /\ all_chars not_colon b = true.

(** The number a string of digits of the base denotes. *)
Fixpoint number_value (base : Z) (s : string) (acc : Z) : Z :=
  match s with
  | EmptyString => acc
  | String c s' =>
      number_value base s'
        (acc * base + match Libc.digit_val c with Some d => d | None => 0 end)
  end.

(** A hexadecimal number of the pattern and the [unsigned int] it
    stands for: an optional sign, an optional [0x] or [0X], one hexadecimal
    digit or more. *)
Definition hex_number (n : string) (v : Z) : Prop :=
  exists sg pre ds,
    n = sg +:+ pre +:+ ds
    /\ (sg = "" \/ sg = "+" \/ sg = "-")
    /\ (pre = "" \/ pre = "0x" \/ pre = "0X")
    /\ ds <> ""
    /\ all_chars (Libc.is_digit 16) ds = true
    /\ v = to_uint32 (Libc.strtoul_value (String.eqb sg "-")
                        (number_value 16 ds 0)).

(** The whole of [s] has the form [<bus-name>:<hex-vendor>:<hex-product>]. *)
Definition matches_fully (s bn : string) (v p : Z) : Prop :=
  exists nv np,
    s = bn +:+ ":" +:+ nv +:+ ":" +:+ np
    /\ is_bus_name bn /\ hex_number nv v /\ hex_number np p.

(** A number as [%x] reads one, and the [unsigned int] stored for it:
    as in the pattern, but after [0x] or [0X] the digits may be missing,
    and the number is then 0. *)
Definition scanned_number (n : string) (v : Z) : Prop :=
  exists sg pre ds,
    n = sg +:+ pre +:+ ds
    /\ (sg = "" \/ sg = "+" \/ sg = "-")
    /\ ((pre = "" /\ ds <> "") \/ pre = "0x" \/ pre = "0X")
    /\ all_chars (Libc.is_digit 16) ds = true
    /\ v = to_uint32 (Libc.strtoul_value (String.eqb sg "-")
                        (number_value 16 ds 0)).

(** A 0 on its own, which an [x] after it would turn into a prefix. *)
Definition lone_zero (n : string) : Prop :=
  n = "0" \/ n = "+0" \/ n = "-0".

(** [%x] reads as far as it can: the number [n] ends before [rest] when
    [rest] does not begin with a hexadecimal digit, nor with an [x] that
    makes a prefix of [n]. *)
Definition number_ends (n rest : string) : Prop :=
  match rest with
  | EmptyString => True
  | String c _ =>
      Libc.is_digit 16 c = false
      /\ ((c = "x"%char \/ c = "X"%char) -> ~ lone_zero n)
  end.

(** [s] begins with [<bus-name>:<hex-vendor>:<hex-product>], each number
    as [%x] reads one, white space allowed before it, and the product id
    ending before [rest]. *)
Definition matches_prefix (s bn : string) (v p : Z) : Prop :=
  exists ws1 nv ws2 np rest,
    s = bn +:+ ":" +:+ ws1 +:+ nv +:+ ":" +:+ ws2 +:+ np +:+ rest
    /\ is_bus_name bn
    /\ all_chars Libc.isspace ws1 = true /\ scanned_number nv v
    /\ all_chars Libc.isspace ws2 = true /\ scanned_number np p
    /\ number_ends np rest.

(** What may follow a number for [%x] to stop right after it. *)
Definition stops_number (rest : string) : Prop :=
  match rest with
  | EmptyString => True
  | String c _ => Libc.is_digit 16 c = false /\ c <> "x"%char /\ c <> "X"%char
  end.

(** The elements of an array that may be [NULL]. *)
Definition elements (a : option (list Z)) : list Z :=
  match a with
  | Some l => l
  | None => []
  end.

(** [dev] is a deep copy of [d]: each field of [dev] holds what it holds
    in [d], the strings by their characters and the array of styli by its
    elements, as many as the count of [d]. *)
Definition deep_copy (dev d : WacomDevice) : Prop :=
  vendor dev = vendor d /\ product dev = product d
  /\ width dev = width d /\ height dev = height d
  /\ match_ dev = match_ d
  /\ vendor_id dev = vendor_id d /\ product_id dev = product_id d
  /\ cls dev = cls d /\ bus dev = bus d
  /\ num_buttons dev = num_buttons d
  /\ num_styli dev = num_styli d
  /\ features dev = features d
  /\ elements (supported_styli dev)
     = take (Z.to_nat (num_styli d)) (elements (supported_styli d)).

(** ** Notions for the rest of the library *)

(** The feature bits the parser collects from the [Features] group. *)
Definition file_features (kf : GKeyFile.t) : Z :=
  feature_flag kf "Reversible" FEATURE_REVERSIBLE
    (feature_flag kf "BuiltIn" FEATURE_BUILTIN
      (feature_flag kf "HStrip" FEATURE_HSTRIP
        (feature_flag kf "VStrip" FEATURE_VSTRIP
          (feature_flag kf "Ring2" FEATURE_RING2
            (feature_flag kf "Ring" FEATURE_RING
              (feature_flag kf "Touch" FEATURE_TOUCH
                (feature_flag kf "Stylus" FEATURE_STYLUS 0))))))).

(** The stylus ids the parser reads from the [Styli] list: none when the
    key is missing. *)
Definition file_styli (kf : GKeyFile.t) : list Z :=
  match g_key_file_get_string_list kf DEVICE_GROUP "Styli" with
  | Some l => map (fun s => to_int32 (Libc.strtol s 0)) l
  | None => []
  end.

(** The record the catalog parser builds from a group of the stylus
    file. *)
Definition stylus_of_group (kf : GKeyFile.t) (group : string) : WacomStylus :=
  let is_eraser := g_key_file_get_boolean kf group "IsEraser" in
  {| stylus_id := stylus_group_id group;
     stylus_name := g_key_file_get_string kf group "Name";
     stylus_num_buttons :=
       if is_eraser then 0
       else
         let '(n, error) := g_key_file_get_integer_err kf group "Buttons" in
         if (n =? 0) && error then -1 else n;
     stylus_has_eraser :=
       if is_eraser then false
       else g_key_file_get_boolean kf group "HasEraser";
     stylus_is_eraser := is_eraser;
     stylus_type := type_from_str (g_key_file_get_string kf group "Type") |}.

(** The last group of the file whose name reads as the id. *)
Definition last_group_with_id (kf : GKeyFile.t) (id : Z) : option string :=
  List.find (fun g => stylus_group_id g =? id)
            (reverse (g_key_file_get_groups kf)).

(** A selected file the loader gets past: one that does not load as a
    key file, or one whose [DeviceMatch] is the generic sentinel or begins
    with [<bus-name>:<hex-vendor>:<hex-product>], as [sscanf] reads it,
    the bus name a known one. *)
Definition usable_tablet (E : environment) (d_name : string) : Prop :=
  match g_key_file_load_from_file E (g_build_filename (DATADIR E) d_name) with
  | None => True
  | Some kf =>
      exists m,
        g_key_file_get_string kf DEVICE_GROUP "DeviceMatch" = Some m
        /\ (m = GENERIC_DEVICE_MATCH
            \/ exists busstr v p,
                 matches_prefix m busstr v p
                 /\ bus_from_str (Some busstr) <> Ok WBUSTYPE_UNKNOWN)
  end.

(** A match key of the device table: the generic sentinel on a device
    without ids, or the canonical key of the bus and ids of the device. *)
Definition key_of_device (k : string) (d : WacomDevice) : Prop :=
  (k = GENERIC_DEVICE_MATCH
   /\ vendor_id d = 0 /\ product_id d = 0 /\ bus d = WBUSTYPE_UNKNOWN)
  \/ (exists busname,
        bus_to_str (bus d) = Ok busname
        /\ k = printf_match busname (vendor_id d) (product_id d)
        /\ 0 <= vendor_id d < 2 ^ 32 /\ 0 <= product_id d < 2 ^ 32).

(** A decimal number of the [PRODUCT] property: one decimal digit or
    more. *)
Definition dec_number (n : string) : Prop :=
  n <> "" /\ all_chars (Libc.is_digit 10) n = true.

(** ** Example data *)

(** A data directory holding the given files, by name. *)
Definition datadir_of (files : list (string * GKeyFile.t)) : environment :=
  {| DATADIR := "/usr/share/libwacom";
     STYLUS_DATA_FILE := "libwacom.stylus";
     readdir := Some (map fst files);
     g_key_file_load_from_file := fun path =>
       GKeyFile.assoc path
         (map (fun f => (g_build_filename "/usr/share/libwacom" (fst f), snd f))
              files) |}.

Definition tablet_file (name match_ : string) : GKeyFile.t :=
  [("Device", [("Vendor", "Wacom"); ("Product", name); ("DeviceMatch", match_)]);
   ("Features", [("Stylus", "true"); ("Buttons", "4")])].

(** A descriptor without [DeviceMatch]. *)
Definition tablet_file_no_match (name : string) : GKeyFile.t :=
  [("Device", [("Vendor", "Wacom"); ("Product", name)])].

Definition stylus_file : GKeyFile.t :=
  [("0x802", [("Name", "Intuos4 Grip Pen"); ("Buttons", "2");
              ("HasEraser", "true"); ("Type", "General")]);
   ("0x80a", [("Name", "Intuos4 Grip Pen Eraser"); ("IsEraser", "true");
              ("HasEraser", "true"); ("Buttons", "2")])].

Definition intuos4_6x9 : WacomDevice :=
  {| vendor := Some "Wacom"; product := Some "Intuos4 6x9";
     width := 0; height := 0;
     match_ := Some "usb:0x56a:0xb9";
     vendor_id := 1386; product_id := 185;
     cls := WCLASS_UNKNOWN; bus := WBUSTYPE_USB; num_buttons := 4;
     supported_styli := None; num_styli := 0; features := 1 |}.

(** Two descriptors of one device, and the stylus catalog. *)
Definition datadir_twice : environment :=
  datadir_of [("b.tablet", tablet_file "Later" "usb:056a:00b9");
              ("libwacom.stylus", stylus_file);
              ("a.tablet", tablet_file "Earlier" "usb:56a:b9")].

(** The fallback entry of a data directory: a device without a product
    name. *)
Definition generic_device : WacomDevice :=
  {| vendor := Some "Generic"; product := None;
     width := 0; height := 0;
     match_ := Some "generic";
     vendor_id := 0; product_id := 0;
     cls := WCLASS_UNKNOWN; bus := WBUSTYPE_UNKNOWN; num_buttons := 0;
     supported_styli := None; num_styli := 0; features := 0 |}.

Definition nameless_db : WacomDeviceDatabase :=
  {| device_ht := <["usb:0x56a:0xb9" := intuos4_6x9]> {["generic" := generic_device]};
     stylus_ht := None |}.

(** A [DeviceMatch] that lists a second match after the first. *)
Definition two_matches : string := "usb:056a:00b9;bluetooth:056a:00bd".

(** A descriptor with a class, a list of styli and several features. *)
Definition bamboo_file : GKeyFile.t :=
  [("Device", [("Vendor", "Wacom"); ("Product", "Bamboo Pen & Touch");
               ("Class", "Bamboo"); ("Width", "6"); ("Height", "4");
               ("DeviceMatch", "usb:056a:00d1"); ("Styli", "0x802;0x80a;")]);
   ("Features", [("Stylus", "true"); ("Touch", "true");
                 ("Reversible", "true"); ("Buttons", "4")])].

Definition bamboo : WacomDevice :=
  {| vendor := Some "Wacom"; product := Some "Bamboo Pen & Touch";
     width := 6; height := 4;
     match_ := Some "usb:0x56a:0xd1";
     vendor_id := 1386; product_id := 209;
     cls := WCLASS_BAMBOO; bus := WBUSTYPE_USB; num_buttons := 4;
     supported_styli := Some [2050; 2058]; num_styli := 2;
     features := 131 |}.

(** The devices the parser makes of the two files of [datadir_twice]. *)
Definition earlier_device : WacomDevice :=
  {| vendor := Some "Wacom"; product := Some "Earlier";
     width := 0; height := 0;
     match_ := Some "usb:0x56a:0xb9";
     vendor_id := 1386; product_id := 185;
     cls := WCLASS_UNKNOWN; bus := WBUSTYPE_USB; num_buttons := 4;
     supported_styli := None; num_styli := 0; features := 1 |}.

Definition later_device : WacomDevice :=
  {| vendor := Some "Wacom"; product := Some "Later";
     width := 0; height := 0;
     match_ := Some "usb:0x56a:0xb9";
     vendor_id := 1386; product_id := 185;
     cls := WCLASS_UNKNOWN; bus := WBUSTYPE_USB; num_buttons := 4;
     supported_styli := None; num_styli := 0; features := 1 |}.

(** The pen of the example catalog. *)
Definition grip_pen : WacomStylus :=
  {| stylus_id := 2050; stylus_name := Some "Intuos4 Grip Pen";
     stylus_num_buttons := 2; stylus_has_eraser := true;
     stylus_is_eraser := false; stylus_type := WSTYLUS_GENERAL |}.

(** A data directory in which the filter selects nothing. *)
Definition datadir_no_tablet : environment :=
  {| DATADIR := "/usr/share/libwacom";
     STYLUS_DATA_FILE := "libwacom.stylus";
     readdir := Some ["README"; ".hidden.tablet"; ".tablet"; "libwacom.stylus"];
     g_key_file_load_from_file := fun path =>
       if String.eqb path "/usr/share/libwacom/libwacom.stylus"
       then Some stylus_file else None |}.

(** A tablet on the USB bus as udev shows it, at every path. *)
Definition usb_tablet (vendor model : string) : string -> option GUdevDevice :=
  fun _ =>
    Some (mkGUdevDevice
            [("ID_INPUT_TABLET", "1"); ("ID_BUS", "usb");
             ("ID_VENDOR_ID", vendor); ("ID_MODEL_ID", model)]
            None).

(** An error record that a caller has used before. *)
Definition stale_error : WacomError :=
  {| code := WERROR_INVALID_PATH; msg := None |}.

(** A Bluetooth tablet as udev shows it: no bus of its own, the ids on
    its parent. *)
Definition bluetooth_tablet : GUdevDevice :=
  mkGUdevDevice [("ID_INPUT_TABLET", "1"); ("PRODUCT", "0/0/0/0")]
    (Some (mkGUdevDevice [("PRODUCT", "5/56a/81/100")] None)).

(** * Properties *)

(** Runs the monads of the loader on the goal. *)
Ltac run_M :=
  unfold mbind, mret, M_bind, M_ret, outcome_bind, outcome_ret, lift, say;
  cbn.

(** ** Enum/string mappers *)

Lemma bus_to_str_total (b : WacomBusType) :
  b <> WBUSTYPE_UNKNOWN -> exists s, bus_to_str b = Ok s.
Proof. destruct b; intros H; try congruence; eexists; reflexivity. Qed.

Lemma bus_to_str_values (b : WacomBusType) (s : string) :
  bus_to_str b = Ok s -> s = "usb" \/ s = "bluetooth".
Proof. destruct b; simpl; intros H; inversion H; auto. Qed.

(** C6: [bus_to_str (bus_from_str s)] is [s] for [s] among "usb" and
    "bluetooth", while the serial bus is rendered as "bluetooth" and not as
    "serial", so that "serial" does not survive the round trip. *)
Theorem bus_to_str_from_str (s : string) (Hs : s = "usb" \/ s = "bluetooth") :
  (bus_from_str (Some s) ≫= bus_to_str) = Ok s
  /\ bus_to_str WBUSTYPE_SERIAL = Ok "bluetooth"
  /\ bus_to_str WBUSTYPE_SERIAL <> Ok "serial"
  /\ (bus_from_str (Some "serial") ≫= bus_to_str) = Ok "bluetooth".
Proof.
  repeat split; try discriminate.
  destruct Hs as [-> | ->]; reflexivity.
Qed.

Lemma bus_to_str_from_str_usb :
  (bus_from_str (Some "usb") ≫= bus_to_str) = Ok "usb"
  /\ bus_to_str WBUSTYPE_SERIAL = Ok "bluetooth"
  /\ bus_to_str WBUSTYPE_SERIAL <> Ok "serial"
  /\ (bus_from_str (Some "serial") ≫= bus_to_str) = Ok "bluetooth".
Proof. apply (bus_to_str_from_str "usb"). left. reflexivity. Defined.

(** ** Accessors *)

(** C8: the button-count accessor returns 2 when the stored count is the
    sentinel -1 and the stored count otherwise, so it never returns -1; the
    fallback writes one warning and nothing else is written. *)
Theorem stylus_get_num_buttons_never_sentinel (stylus : WacomStylus)
    (log : list diag) :
  exists n log',
    libwacom_stylus_get_num_buttons stylus log = Ok (n, log')
    /\ n = (if stylus_num_buttons stylus =? -1 then 2
            else stylus_num_buttons stylus)
    /\ n <> -1
    /\ log' = (if stylus_num_buttons stylus =? -1
               then (log ++ [WARN_no_buttons (stylus_id stylus)])%list
               else log).
Proof.
  unfold libwacom_stylus_get_num_buttons.
  destruct (stylus_num_buttons stylus =? -1) eqn:E.
  - exists 2, (log ++ [WARN_no_buttons (stylus_id stylus)])%list.
    repeat split. lia.
  - exists (stylus_num_buttons stylus), log.
    repeat split. apply Z.eqb_neq in E. exact E.
Qed.

(** ** Resolver: a null database handle *)

Lemma libwacom_new_null_db (v p : Z) (b : WacomBusType) (e : option WacomError) :
  libwacom_new None v p b e
  = Ok (None, libwacom_error_set e WERROR_INVALID_DB (Some "db is NULL")).
Proof. reflexivity. Qed.

(** C4: with a null database handle and any vendor/product pair,
    [libwacom_new_from_usbid] fails after two calls of
    [libwacom_error_set], the one of [libwacom_new] with
    [WERROR_INVALID_DB] and then its own with [WERROR_UNKNOWN_MODEL]: the
    code the caller finds in its error record is [WERROR_UNKNOWN_MODEL],
    and of the first call only the message stays. *)
Theorem new_from_usbid_null_db_reports_unknown_model (v p : Z) (e : WacomError) :
  (forall error : option WacomError,
      libwacom_new_from_usbid None v p error
      = Ok (None,
            libwacom_error_set
              (libwacom_error_set error WERROR_INVALID_DB (Some "db is NULL"))
              WERROR_UNKNOWN_MODEL None))
  /\ libwacom_new_from_usbid None v p (Some e)
     = Ok (None, Some {| code := WERROR_UNKNOWN_MODEL; msg := Some "db is NULL" |})
  /\ (forall m : option string,
        libwacom_new_from_usbid None v p (Some e)
        <> Ok (None, Some {| code := WERROR_INVALID_DB; msg := m |})).
Proof.
  split; [reflexivity |]. split; [reflexivity | intros m; discriminate].
Qed.

(** ** Descriptor parser: what stops the process *)

Lemma g_strcmp0_Some_neq (a b : string) :
  a <> b -> (g_strcmp0 (Some a) (Some b) =? 0) = false.
Proof.
  intros Hne. unfold g_strcmp0.
  destruct (String.compare a b) eqn:E; try reflexivity.
  apply String.compare_eq_iff in E. contradiction.
Qed.

Lemma g_strcmp0_Some_eq (a : string) : (g_strcmp0 (Some a) (Some a) =? 0) = true.
Proof.
  unfold g_strcmp0.
  assert (H : String.compare a a = Eq).
  { destruct (String.compare a a) eqn:E; trivial;
      pose proof (String.compare_antisym a a) as A; rewrite E in A;
      discriminate. }
  rewrite H. reflexivity.
Qed.

(** The parser reaches the assertion of [bus_to_str] exactly on a
    [DeviceMatch] whose three fields scan and whose bus name is unknown. *)
Lemma parse_tablet_unknown_bus_aborts (path : string) (kf : GKeyFile.t)
    (log : list diag) (m busstr : string) (v p : Z) :
  g_key_file_get_string kf DEVICE_GROUP "DeviceMatch" = Some m ->
  m <> GENERIC_DEVICE_MATCH ->
  Libc.sscanf_bus_x_x m = Libc.Scan3 busstr v p ->
  bus_from_str (Some busstr) = Ok WBUSTYPE_UNKNOWN ->
  libwacom_parse_tablet_keyfile path (Some kf) log = Abort.
Proof.
  intros Hm Hne Hscan Hbus.
  unfold libwacom_parse_tablet_keyfile.
  rewrite Hm, (g_strcmp0_Some_neq _ _ Hne).
  unfold libwacom_matchstr_to_ints. rewrite Hscan. cbn [Libc.rc_of stored_busstr].
  rewrite Hbus. reflexivity.
Qed.

(** The two ways the parser has not to return: it aborts exactly on an
    unknown bus name in a [DeviceMatch] that scans, and faults exactly
    when there is no [DeviceMatch]. *)
Lemma parse_tablet_stops (path : string) (kf : GKeyFile.t) (log : list diag) :
  (libwacom_parse_tablet_keyfile path (Some kf) log = Abort <->
   exists m busstr v p,
     g_key_file_get_string kf DEVICE_GROUP "DeviceMatch" = Some m
     /\ m <> GENERIC_DEVICE_MATCH
     /\ Libc.sscanf_bus_x_x m = Libc.Scan3 busstr v p
     /\ bus_from_str (Some busstr) = Ok WBUSTYPE_UNKNOWN)
  /\ (libwacom_parse_tablet_keyfile path (Some kf) log = Fault <->
      g_key_file_get_string kf DEVICE_GROUP "DeviceMatch" = None).
Proof.
  unfold libwacom_parse_tablet_keyfile.
  destruct (g_key_file_get_string kf DEVICE_GROUP "DeviceMatch") as [m |] eqn:Hm.
  - destruct (String.eqb_spec m GENERIC_DEVICE_MATCH) as [-> | Hne].
    + rewrite g_strcmp0_Some_eq.
      split; split; try discriminate.
      * destruct (g_key_file_get_string_list kf DEVICE_GROUP "Styli");
          discriminate.
      * intros (m & ? & ? & ? & Hm' & Hne & _). congruence.
      * destruct (g_key_file_get_string_list kf DEVICE_GROUP "Styli");
          discriminate.
    + rewrite (g_strcmp0_Some_neq _ _ Hne).
      unfold libwacom_matchstr_to_ints.
      destruct (Libc.sscanf_bus_x_x m) as [| | b1 | b2 v2 | busstr v p] eqn:Hs;
        cbn [Libc.rc_of stored_busstr stored_vendor stored_product
             Z.eqb negb Pos.eqb].
      1-4: (split; split; try discriminate;
            [ destruct (g_key_file_get_string_list kf DEVICE_GROUP "Styli");
              discriminate
            | intros (m' & ? & ? & ? & Hm' & _ & Hs' & _);
              inversion Hm'; subst m'; congruence
            | destruct (g_key_file_get_string_list kf DEVICE_GROUP "Styli");
              discriminate ]).
      destruct (bus_from_str (Some busstr)) as [b | |] eqn:Hb;
        [| discriminate Hb ..].
      destruct b.
      * split; split; try discriminate; try reflexivity.
        intros _. exists m, busstr, v, p. auto.
      * split; split; try discriminate;
          [ destruct (g_key_file_get_string_list kf DEVICE_GROUP "Styli");
            discriminate
          | intros (m' & bs' & ? & ? & Hm' & _ & Hs' & Hb');
            inversion Hm'; subst m'; rewrite Hs in Hs'; inversion Hs'; subst;
            congruence
          | destruct (g_key_file_get_string_list kf DEVICE_GROUP "Styli");
            discriminate ].
      * split; split; try discriminate;
          [ destruct (g_key_file_get_string_list kf DEVICE_GROUP "Styli");
            discriminate
          | intros (m' & bs' & ? & ? & Hm' & _ & Hs' & Hb');
            inversion Hm'; subst m'; rewrite Hs in Hs'; inversion Hs'; subst;
            congruence
          | destruct (g_key_file_get_string_list kf DEVICE_GROUP "Styli");
            discriminate ].
      * split; split; try discriminate;
          [ destruct (g_key_file_get_string_list kf DEVICE_GROUP "Styli");
            discriminate
          | intros (m' & bs' & ? & ? & Hm' & _ & Hs' & Hb');
            inversion Hm'; subst m'; rewrite Hs in Hs'; inversion Hs'; subst;
            congruence
          | destruct (g_key_file_get_string_list kf DEVICE_GROUP "Styli");
            discriminate ].
  - split; split; try discriminate; try reflexivity.
    intros (m & ? & ? & ? & Hm' & _). discriminate Hm'.
Qed.

(** A parsed device without a match key makes the turn of the loop
    fault. *)
Lemma load_tablet_null_key_faults (E : environment) (d_name : string)
    (ht : gmap string WacomDevice) (log log' : list diag) (d : WacomDevice) :
  libwacom_parse_tablet_keyfile (g_build_filename (DATADIR E) d_name)
    (g_key_file_load_from_file E (g_build_filename (DATADIR E) d_name)) log
  = Ok (Some d, log') ->
  match_ d = None ->
  load_tablet E d_name ht log = Fault.
Proof.
  intros Hparse Hnull. unfold load_tablet, mbind, M_bind.
  rewrite Hparse, Hnull. reflexivity.
Qed.

(** C3: a descriptor whose [DeviceMatch] is [foo:1:2] scans into three
    fields with a bus name outside "usb", "serial" and "bluetooth";
    [bus_from_str] gives [WBUSTYPE_UNKNOWN] and the parser calls
    [bus_to_str] on it, whose [g_assert_not_reached] aborts: the parser
    aborts, and so does the load of a directory holding the file. *)
Theorem unknown_bus_name_aborts_load :
  libwacom_parse_tablet_keyfile "/usr/share/libwacom/odd.tablet"
    (Some (tablet_file "Odd" "foo:1:2")) [] = Abort
  /\ libwacom_database_new
       (datadir_of [("odd.tablet", tablet_file "Odd" "foo:1:2");
                    ("libwacom.stylus", stylus_file)]) [] = Abort.
Proof. split; vm_compute; reflexivity. Qed.

(** C2: a descriptor whose [DeviceMatch] does not scan is parsed into a
    device with a [NULL] match key, and the loader passes that key to
    [g_hash_table_insert] without a test, where [g_str_hash] reads through
    it: the load faults instead of skipping the device. Without any
    [DeviceMatch] the fault is earlier, in the [sscanf] of the parser. *)
Theorem null_match_key_faults_load :
  (exists d,
      libwacom_parse_tablet_keyfile "/usr/share/libwacom/odd.tablet"
        (Some (tablet_file "Odd" "usb")) []
      = Ok (Some d, [DBG_match_failed "/usr/share/libwacom/odd.tablet"])
      /\ match_ d = None)
  /\ libwacom_database_new
       (datadir_of [("odd.tablet", tablet_file "Odd" "usb");
                    ("libwacom.stylus", stylus_file)]) [] = Fault
  /\ libwacom_parse_tablet_keyfile "/usr/share/libwacom/odd.tablet"
       (Some (tablet_file_no_match "Odd")) [] = Fault.
Proof.
  split; [| split]; [| vm_compute; reflexivity ..].
  eexists. split; [vm_compute; reflexivity | reflexivity].
Qed.

(** ** Stylus catalog *)

(** One turn of the loop: a group with a zero id leaves the table alone,
    any other group stores a record built from it under its id. *)
Lemma parse_stylus_group_spec (kf : GKeyFile.t) (group : string)
    (ht : gmap Z WacomStylus) (log : list diag) :
  exists ht' log',
    parse_stylus_group kf group ht log = Ok (ht', log')
    /\ (stylus_group_id group = 0 -> ht' = ht)
    /\ (stylus_group_id group <> 0 ->
        exists s, ht' = <[stylus_group_id group := s]> ht
                  /\ built_from kf group s).
Proof.
  unfold parse_stylus_group. fold (stylus_group_id group).
  destruct (stylus_group_id group =? 0) eqn:Eid.
  - apply Z.eqb_eq in Eid. do 2 eexists. split; [reflexivity |].
    split; [reflexivity | congruence].
  - apply Z.eqb_neq in Eid.
    destruct (g_key_file_get_boolean kf group "IsEraser") eqn:Eer; cbn [negb].
    + destruct (bool_decide (is_Some (ht !! stylus_group_id group)));
        (do 2 eexists; split; [reflexivity |]; split; [congruence |];
         intros _; eexists; split; [reflexivity |];
         unfold built_from; cbn; rewrite ?Eer; auto).
    + destruct (g_key_file_get_integer_err kf group "Buttons") as [n err].
      destruct (bool_decide (is_Some (ht !! stylus_group_id group)));
        (do 2 eexists; split; [reflexivity |]; split; [congruence |];
         intros _; eexists; split; [reflexivity |];
         unfold built_from; cbn; rewrite ?Eer;
         repeat split; auto; discriminate).
Qed.

Lemma parse_stylus_groups_spec (kf : GKeyFile.t) (groups : list string) :
  forall (ht : gmap Z WacomStylus) (log : list diag),
    exists ht' log',
      parse_stylus_groups kf groups ht log = Ok (ht', log')
      /\ forall id s, ht' !! id = Some s ->
           ht !! id = Some s
           \/ exists group, group ∈ groups /\ id = stylus_group_id group
                            /\ built_from kf group s.
Proof.
  induction groups as [| g groups IH]; intros ht log.
  - exists ht, log. split; [reflexivity | auto].
  - destruct (parse_stylus_group_spec kf g ht log)
      as (ht1 & log1 & Hrun & Hzero & Hbuilt).
    destruct (IH ht1 log1) as (ht2 & log2 & Hrest & Hinv).
    exists ht2, log2. split.
    + cbn [parse_stylus_groups]. unfold mbind, M_bind at 1.
      rewrite Hrun. exact Hrest.
    + intros id s Hlook. destruct (Hinv id s Hlook) as [Hold | (g' & Hin & Hid & Hb)].
      * destruct (decide (stylus_group_id g = 0)) as [Hz | Hnz].
        { rewrite (Hzero Hz) in Hold. auto. }
        destruct (Hbuilt Hnz) as (s0 & -> & Hb0).
        destruct (decide (id = stylus_group_id g)) as [-> | Hne].
        { rewrite lookup_insert_eq in Hold. inversion Hold; subst s0.
          right. exists g. split; [left | auto]. }
        rewrite lookup_insert_ne in Hold by congruence. auto.
      * right. exists g'. split; [right; exact Hin | auto].
Qed.

Lemma find_app {A : Type} (f : A -> bool) (l1 l2 : list A) :
  List.find f (l1 ++ l2)
  = match List.find f l1 with
    | Some x => Some x
    | None => List.find f l2
    end.
Proof.
  induction l1 as [| x l1 IH]; simpl; [reflexivity |].
  destruct (f x); [reflexivity | exact IH].
Qed.

(** One turn of the loop, in full. *)
Lemma parse_stylus_group_run (kf : GKeyFile.t) (group : string)
    (ht : gmap Z WacomStylus) (log : list diag) :
  parse_stylus_group kf group ht log
  = Ok (if stylus_group_id group =? 0 then ht
        else <[stylus_group_id group := stylus_of_group kf group]> ht,
        (log ++ (if stylus_group_id group =? 0 then [WARN_stylus_id group]
                 else if bool_decide (is_Some (ht !! stylus_group_id group))
                      then [WARN_stylus_duplicate (stylus_group_id group)]
                      else []))%list).
Proof.
  unfold parse_stylus_group, stylus_of_group. fold (stylus_group_id group).
  destruct (stylus_group_id group =? 0); [reflexivity |].
  destruct (g_key_file_get_boolean kf group "IsEraser"); cbn [negb].
  - destruct (bool_decide _); run_M; rewrite ?app_nil_r; reflexivity.
  - destruct (g_key_file_get_integer_err kf group "Buttons") as [n err].
    destruct (bool_decide _); run_M; rewrite ?app_nil_r; reflexivity.
Qed.

Lemma parse_stylus_groups_run (kf : GKeyFile.t) (groups : list string) :
  forall (ht : gmap Z WacomStylus) (log : list diag),
    exists ht' w,
      parse_stylus_groups kf groups ht log = Ok (ht', (log ++ w)%list)
      /\ (forall id,
            ht' !! id
            = if id =? 0 then ht !! 0
              else match List.find (fun g => stylus_group_id g =? id)
                                   (reverse groups) with
                   | Some g => Some (stylus_of_group kf g)
                   | None => ht !! id
                   end)
      /\ (w = [] <->
          Forall (fun g => stylus_group_id g <> 0) groups
          /\ NoDup (map stylus_group_id groups)
          /\ Forall (fun g => ht !! stylus_group_id g = None) groups).
Proof.
  induction groups as [| g groups IH]; intros ht log.
  - exists ht, []. rewrite app_nil_r. split; [reflexivity |]. split.
    + intros id. destruct (id =? 0) eqn:E; [| reflexivity].
      apply Z.eqb_eq in E. subst id. reflexivity.
    + split; [intros _ | reflexivity].
      split; [constructor | split; constructor].
  - cbn [parse_stylus_groups]. unfold mbind, M_bind at 1.
    rewrite parse_stylus_group_run.
    set (ht1 := if stylus_group_id g =? 0 then ht
                else <[stylus_group_id g := stylus_of_group kf g]> ht).
    set (w1 := if stylus_group_id g =? 0 then [WARN_stylus_id g]
               else if bool_decide (is_Some (ht !! stylus_group_id g))
                    then [WARN_stylus_duplicate (stylus_group_id g)]
                    else []).
    destruct (IH ht1 (log ++ w1)%list) as (ht' & w & Hrun & Hlook & Hquiet).
    exists ht', (w1 ++ w)%list. rewrite app_assoc. split; [exact Hrun |].
    split.
    + intros id. rewrite Hlook. destruct (id =? 0) eqn:Eid.
      * subst ht1. destruct (stylus_group_id g =? 0) eqn:Eg; [reflexivity |].
        apply Z.eqb_neq in Eg. apply lookup_insert_ne. exact Eg.
      * rewrite reverse_cons, find_app.
        destruct (List.find _ (reverse groups)); [reflexivity |].
        cbn [List.find]. subst ht1.
        destruct (stylus_group_id g =? id) eqn:Egi.
        -- apply Z.eqb_eq in Egi. subst id. rewrite Eid.
           apply lookup_insert_eq.
        -- apply Z.eqb_neq in Egi.
           destruct (stylus_group_id g =? 0); [reflexivity |].
           apply lookup_insert_ne. exact Egi.
    + rewrite Forall_cons, Forall_cons. cbn [map]. rewrite NoDup_cons.
      split.
      * intros Hnil. apply app_eq_nil in Hnil as [Hw1 Hw].
        apply Hquiet in Hw as (Hnz & Hnd & Hfree).
        subst w1 ht1.
        destruct (stylus_group_id g =? 0) eqn:Eg; [discriminate Hw1 |].
        apply Z.eqb_neq in Eg.
        destruct (bool_decide (is_Some (ht !! stylus_group_id g))) eqn:Ed;
          [discriminate Hw1 |].
        apply bool_decide_eq_false in Ed.
        assert (Hg : ht !! stylus_group_id g = None).
        { destruct (ht !! stylus_group_id g) eqn:E'; [| reflexivity].
          exfalso. apply Ed. eauto. }
        repeat split; auto.
        -- intros Hin. apply list_elem_of_fmap in Hin as (g' & Hid & Hin).
           rewrite Forall_forall in Hfree. specialize (Hfree g' Hin).
           rewrite <- Hid, lookup_insert_eq in Hfree. discriminate Hfree.
        -- rewrite Forall_forall in Hfree |- *. intros g' Hin.
           specialize (Hfree g' Hin).
           destruct (decide (stylus_group_id g = stylus_group_id g')) as [E' | E'].
           ++ rewrite <- E', lookup_insert_eq in Hfree. discriminate Hfree.
           ++ rewrite lookup_insert_ne in Hfree by exact E'. exact Hfree.
      * intros ((Hg0 & Hnz) & (Hnotin & Hnd) & (Hg & Hfree)).
        apply Z.eqb_neq in Hg0. subst w1 ht1. rewrite Hg0 in Hquiet |- *.
        rewrite Hg.
        rewrite bool_decide_eq_false_2 by (intros [? ?]; discriminate).
        cbn [app]. apply Hquiet. repeat split; auto.
        rewrite Forall_forall in Hfree |- *. intros g' Hin.
        rewrite lookup_insert_ne; [apply Hfree; exact Hin |].
        intros E'. apply Hnotin. rewrite E'.
        apply list_elem_of_fmap. eauto.
Qed.

Lemma find_none {A : Type} (f : A -> bool) (l : list A) :
  Forall (fun x => f x = false) l -> List.find f l = None.
Proof.
  induction 1 as [| x l Hx _ IH]; [reflexivity |].
  cbn. rewrite Hx. exact IH.
Qed.

(** C7: the catalog parser always returns, and every record of the table
    it fills was built from a group of the file with a nonzero id; when the
    [IsEraser] field of that group is true the record has [has_eraser]
    false and 0 buttons, whatever [HasEraser] and [Buttons] the group
    holds. Such a record is built for every group whose [IsEraser] is true
    and whose name reads as a nonzero id: the turn of the loop on that
    group stores it under the id, whatever the table held, and the table
    the parser returns holds it there unless a later group of the file has
    the same id. *)
Theorem eraser_has_no_eraser_and_no_buttons (kf : GKeyFile.t)
    (log : list diag) :
  exists ht log',
    libwacom_parse_stylus_keyfile ∅ (Some kf) log = Ok (ht, log')
    /\ (forall id s, ht !! id = Some s ->
         exists group,
           group ∈ g_key_file_get_groups kf
           /\ id = stylus_group_id group
           /\ stylus_id s = id
           /\ stylus_is_eraser s = g_key_file_get_boolean kf group "IsEraser"
           /\ (g_key_file_get_boolean kf group "IsEraser" = true ->
               stylus_has_eraser s = false /\ stylus_num_buttons s = 0))
    /\ (forall group ht0 log0,
          g_key_file_get_boolean kf group "IsEraser" = true ->
          stylus_group_id group <> 0 ->
          exists s log1,
            parse_stylus_group kf group ht0 log0
            = Ok (<[stylus_group_id group := s]> ht0, log1)
            /\ stylus_id s = stylus_group_id group
            /\ stylus_is_eraser s = true
            /\ stylus_has_eraser s = false /\ stylus_num_buttons s = 0)
    /\ (forall group before after,
          g_key_file_get_groups kf = (before ++ group :: after)%list ->
          Forall (fun g => stylus_group_id g <> stylus_group_id group) after ->
          g_key_file_get_boolean kf group "IsEraser" = true ->
          stylus_group_id group <> 0 ->
          exists s,
            ht !! stylus_group_id group = Some s
            /\ stylus_id s = stylus_group_id group
            /\ stylus_is_eraser s = true
            /\ stylus_has_eraser s = false /\ stylus_num_buttons s = 0).
Proof.
  destruct (parse_stylus_groups_spec kf (g_key_file_get_groups kf) ∅ log)
    as (ht & log' & Hrun & Hinv).
  exists ht, log'. split; [exact Hrun |]. split; [| split].
  - intros id s Hlook.
    destruct (Hinv id s Hlook)
      as [Hempty | (g & Hin & Hid & Hs & Hnz & Her & Hforce)].
    + rewrite lookup_empty in Hempty. discriminate.
    + exists g. repeat split; auto; try congruence; apply Hforce; assumption.
  - intros group ht0 log0 Her Hnz.
    unfold parse_stylus_group. fold (stylus_group_id group).
    apply Z.eqb_neq in Hnz. rewrite Hnz, Her. cbn [negb].
    destruct (bool_decide (is_Some (ht0 !! stylus_group_id group)));
      (do 2 eexists; split; [reflexivity |]; repeat split).
  - intros group before after Hgroups Hafter Her Hnz.
    destruct (parse_stylus_groups_run kf (g_key_file_get_groups kf) ∅ log)
      as (ht1 & w & Hrun1 & Hlook & _).
    unfold libwacom_parse_stylus_keyfile in Hrun. rewrite Hrun1 in Hrun.
    inversion Hrun; subst ht1.
    exists (stylus_of_group kf group). split.
    + rewrite Hlook. apply Z.eqb_neq in Hnz. rewrite Hnz.
      rewrite Hgroups, reverse_app, reverse_cons, !find_app.
      rewrite (find_none _ (reverse after)).
      * cbn. rewrite Z.eqb_refl. reflexivity.
      * apply Forall_reverse. eapply Forall_impl; [exact Hafter |].
        cbn. intros g Hg. apply Z.eqb_neq. exact Hg.
    + unfold stylus_of_group. cbn. rewrite Her. repeat split.
Qed.

(** The eraser of the example catalog: its group asks for an eraser and
    two buttons; the record the parser stores has neither. *)
Lemma eraser_has_no_eraser_and_no_buttons_intuos4 :
  exists ht log',
    libwacom_parse_stylus_keyfile ∅ (Some stylus_file) [] = Ok (ht, log')
    /\ exists s,
         ht !! 2058 = Some s
         /\ stylus_id s = 2058
         /\ stylus_is_eraser s = true
         /\ stylus_has_eraser s = false /\ stylus_num_buttons s = 0.
Proof.
  destruct (eraser_has_no_eraser_and_no_buttons stylus_file [])
    as (ht & log' & Hrun & _ & _ & Hlast).
  exists ht, log'. split; [exact Hrun |].
  apply (Hlast "0x80a" ["0x802"] []);
    [reflexivity | constructor | reflexivity | discriminate].
Defined.

(** A file that sets conflicting values: the eraser of the example
    catalog asks for an eraser and two buttons and gets neither. *)
Example eraser_conflicting_values :
  exists ht log,
    libwacom_parse_stylus_keyfile ∅ (Some stylus_file) [] = Ok (ht, log)
    /\ ht !! 2058
       = Some {| stylus_id := 2058;
                 stylus_name := Some "Intuos4 Grip Pen Eraser";
                 stylus_num_buttons := 0;
                 stylus_has_eraser := false;
                 stylus_is_eraser := true;
                 stylus_type := WSTYLUS_UNKNOWN |}.
Proof. do 2 eexists. split; vm_compute; reflexivity. Qed.

(** ** Match keys *)

Lemma to_uint32_to_int32 (n : Z) : to_uint32 (to_int32 n) = to_uint32 n.
Proof.
  unfold to_uint32, to_int32.
  rewrite Zminus_mod_idemp_l. f_equal. lia.
Qed.

Lemma fmt_x_to_int32 (n : Z) : Libc.fmt_x (to_int32 n) = Libc.fmt_x n.
Proof. unfold Libc.fmt_x. rewrite to_uint32_to_int32. reflexivity. Qed.




(** ** Database builder: load order *)

Lemma alphasort_total : Total alphasort.
Proof.
  intros a b. unfold alphasort.
  destruct (String.leb_total a b) as [H | H]; rewrite H; simpl; auto.
Qed.

Lemma scandir_sorted (E : environment) : Sorted alphasort (scandir E).2.
Proof.
  unfold scandir. destruct (readdir E); simpl.
  - apply Sorted_merge_sort, alphasort_total.
  - constructor.
Qed.

Lemma scandir_count (E : environment) :
  ((scandir E).1 = -1 /\ (scandir E).2 = [])
  \/ (scandir E).1 = Z.of_nat (length (scandir E).2).
Proof.
  unfold scandir. destruct (readdir E); simpl; [right | left]; auto.
Qed.

Lemma scandir_selects (E : environment) (names : list string) (name : string) :
  readdir E = Some names ->
  name ∈ (scandir E).2 <-> name ∈ names /\ scandir_filter name = true.
Proof.
  intros Hdir. unfold scandir. rewrite Hdir. simpl.
  rewrite merge_sort_Permutation, list_elem_of_filter.
  rewrite Is_true_true. tauto.
Qed.

(** The parser writes no warning, and what it returns does not depend on
    the lines written before. *)
Lemma parse_tablet_log (path : string) (file : option GKeyFile.t)
    (log : list diag) :
  match libwacom_parse_tablet_keyfile path file [] with
  | Ok (d, l) =>
      libwacom_parse_tablet_keyfile path file log = Ok (d, (log ++ l)%list)
      /\ List.filter is_warning l = []
  | Abort => libwacom_parse_tablet_keyfile path file log = Abort
  | Fault => libwacom_parse_tablet_keyfile path file log = Fault
  end.
Proof.
  unfold libwacom_parse_tablet_keyfile.
  destruct file as [kf |]; [| split; reflexivity].
  destruct (g_strcmp0 _ _ =? 0).
  { destruct (g_key_file_get_string_list kf DEVICE_GROUP "Styli"); run_M;
      rewrite app_nil_r; split; reflexivity. }
  destruct (libwacom_matchstr_to_ints _ 0 0 WBUSTYPE_UNKNOWN)
    as [[rc [[v p] b]] | |]; [| reflexivity ..].
  run_M. destruct (rc =? 0).
  { destruct (g_key_file_get_string_list kf DEVICE_GROUP "Styli"); cbn;
      split; reflexivity. }
  destruct (bus_to_str b); [| reflexivity ..].
  destruct (g_key_file_get_string_list kf DEVICE_GROUP "Styli"); cbn;
    rewrite app_nil_r; split; reflexivity.
Qed.

(** One turn of the loop that returns has stored the parsed device, if
    there is one, under its match key, and has written no warning. *)
Lemma load_tablet_spec (E : environment) (d_name : string)
    (ht ht' : gmap string WacomDevice) (log log' : list diag) :
  load_tablet E d_name ht log = Ok (ht', log') ->
  List.filter is_warning log' = List.filter is_warning log
  /\ match parsed_tablet E d_name with
     | Some d => exists k, match_ d = Some k /\ ht' = <[k := d]> ht
     | None => ht' = ht
     end.
Proof.
  unfold load_tablet, parsed_tablet. intros Hrun.
  pose proof (parse_tablet_log (g_build_filename (DATADIR E) d_name)
                (g_key_file_load_from_file E (g_build_filename (DATADIR E) d_name))
                log) as Hlog.
  unfold mbind, M_bind in Hrun.
  destruct (libwacom_parse_tablet_keyfile _ _ []) as [[d l] | |];
    [destruct Hlog as [Hlog Hwarn] | ..]; rewrite Hlog in Hrun;
    try discriminate Hrun.
  destruct d as [d |].
  - destruct (match_ d) as [k |] eqn:Hk; [| discriminate Hrun].
    cbn in Hrun. inversion Hrun; subst.
    rewrite List.filter_app, Hwarn, app_nil_r. eauto.
  - inversion Hrun; subst.
    rewrite List.filter_app, Hwarn, app_nil_r. auto.
Qed.

(** The loop [while (n--)] takes the files from the last one to the first
    one. *)
Lemma load_tablets_reverse (E : environment) (files : list string) :
  forall (n : nat) (ht : gmap string WacomDevice) (log : list diag),
    (n <= length files)%nat ->
    load_tablets E files n ht log
    = load_in_order E (reverse (take n files)) ht log.
Proof.
  induction n as [| n IH]; intros ht log Hn.
  - rewrite take_0. reflexivity.
  - destruct (lookup_lt_is_Some_2 files n) as [name Hname]; [lia |].
    rewrite (take_S_r _ _ _ Hname), reverse_snoc.
    cbn [load_tablets load_in_order]. rewrite Hname.
    unfold mbind, M_bind.
    destruct (load_tablet E name ht log) as [[ht1 log1] | |];
      [| reflexivity ..].
    apply IH. lia.
Qed.

Lemma load_in_order_spec (E : environment) (names : list string) :
  forall (ht ht' : gmap string WacomDevice) (log log' : list diag),
    load_in_order E names ht log = Ok (ht', log') ->
    List.filter is_warning log' = List.filter is_warning log
    /\ forall k,
         ht' !! k
         = match List.find (has_match_key k)
                   (omap (parsed_tablet E) (reverse names)) with
           | Some d => Some d
           | None => ht !! k
           end.
Proof.
  induction names as [| name names IH]; intros ht ht' log log' Hrun.
  - inversion Hrun; subst. split; reflexivity.
  - cbn [load_in_order] in Hrun. unfold mbind, M_bind in Hrun.
    destruct (load_tablet E name ht log) as [[ht1 log1] | |] eqn:Hturn;
      try discriminate Hrun.
    destruct (load_tablet_spec _ _ _ _ _ _ Hturn) as [Hwarn1 Hht1].
    destruct (IH _ _ _ _ Hrun) as [Hwarn Hlook].
    split; [congruence |].
    intros k. rewrite Hlook, reverse_cons, omap_app, find_app.
    destruct (List.find _ (omap _ (reverse names))); [reflexivity |].
    cbn [omap list_omap]. destruct (parsed_tablet E name) as [d |].
    + destruct Hht1 as (kd & Hkd & ->). cbn [List.find app].
      unfold has_match_key. rewrite Hkd.
      destruct (decide (kd = k)) as [-> | Hne].
      * rewrite bool_decide_eq_true_2 by reflexivity.
        apply lookup_insert_eq.
      * rewrite bool_decide_eq_false_2 by congruence.
        apply lookup_insert_ne. exact Hne.
    + subst ht1. reflexivity.
Qed.

(** The device table after the loop over all the files, whatever was
    written before. *)
Lemma load_tablets_spec (E : environment) (files : list string)
    (ht' : gmap string WacomDevice) (log log' : list diag) :
  load_tablets E files (length files) ∅ log = Ok (ht', log') ->
  List.filter is_warning log' = List.filter is_warning log
  /\ forall k,
       ht' !! k
       = List.find (has_match_key k) (omap (parsed_tablet E) files).
Proof.
  rewrite load_tablets_reverse by lia. intros Hrun.
  destruct (load_in_order_spec _ _ _ _ _ _ Hrun) as [Hwarn Hlook].
  split; [exact Hwarn |]. intros k.
  rewrite Hlook, firstn_all, reverse_involutive, lookup_empty.
  destruct (List.find _ _); reflexivity.
Qed.

(** C1, as stated, fails: [a.tablet] and [b.tablet] are parsed into
    devices with the same match key, and after the load the table holds
    the device of [a.tablet], the alphabetically earlier file, not the one
    of [b.tablet]. *)
Lemma later_file_does_not_replace_earlier :
  (scandir datadir_twice).2 = ["a.tablet"; "b.tablet"]
  /\ exists da db_ db log,
       parsed_tablet datadir_twice "a.tablet" = Some da
       /\ parsed_tablet datadir_twice "b.tablet" = Some db_
       /\ product da = Some "Earlier" /\ product db_ = Some "Later"
       /\ match_ da = Some "usb:0x56a:0xb9"
       /\ match_ db_ = Some "usb:0x56a:0xb9"
       /\ libwacom_database_new datadir_twice [] = Ok (db, log)
       /\ device_ht db !! "usb:0x56a:0xb9" = Some da
       /\ device_ht db !! "usb:0x56a:0xb9" <> Some db_.
Proof.
  split; [vm_compute; reflexivity |].
  do 4 eexists.
  split; [vm_compute; reflexivity |].
  split; [vm_compute; reflexivity |].
  split; [reflexivity |]. split; [reflexivity |].
  split; [reflexivity |]. split; [reflexivity |].
  split; [vm_compute; reflexivity |].
  split; [vm_compute; reflexivity |].
  vm_compute. discriminate.
Qed.

(** C1, amended: the selected files are sorted in alphabetical order and
    loaded from the last one to the first one, so that of the parsed
    descriptors with one match key the table holds the one of the
    alphabetically first file: an earlier file replaces a later one. The
    loop over the files writes no warning. *)
Theorem earlier_file_replaces_later (E : environment) (log log' : list diag)
    (db : WacomDeviceDatabase)
    (Hrun : libwacom_database_new E log = Ok (db, log')) :
  let files := (scandir E).2 in
  Sorted alphasort files
  /\ (exists log1,
        load_in_order E (reverse files) ∅ log = Ok (device_ht db, log1)
        /\ List.filter is_warning log1 = List.filter is_warning log)
  /\ forall k,
       device_ht db !! k
       = List.find (has_match_key k) (omap (parsed_tablet E) files).
Proof.
  intros files. split; [apply scandir_sorted |].
  unfold libwacom_database_new in Hrun.
  pose proof (scandir_count E) as Hcount. fold files in Hcount.
  destruct (scandir E) as [n fs] eqn:Hscan. cbn [fst snd] in *. subst files.
  destruct (n <=? 0) eqn:Hn.
  - apply Z.leb_le in Hn.
    assert (Hfs : fs = []).
    { destruct Hcount as [[_ ?] | Hlen]; [assumption |].
      destruct fs; [reflexivity | cbn in Hlen; lia]. }
    subst fs. inversion Hrun; subst. cbn.
    split; [exists log'; split; reflexivity |].
    intros k. apply lookup_empty.
  - apply Z.leb_gt in Hn.
    destruct Hcount as [[? _] | Hlen]; [lia |].
    rewrite Hlen, Nat2Z.id in Hrun.
    unfold mbind, M_bind in Hrun.
    destruct (load_tablets E fs (length fs) ∅ log) as [[ht log1] | |] eqn:Hload;
      try discriminate Hrun.
    destruct (libwacom_parse_stylus_keyfile _ _ log1) as [[sht log2] | |];
      try discriminate Hrun.
    inversion Hrun; subst. cbn [device_ht].
    destruct (load_tablets_spec _ _ _ _ _ Hload) as [Hwarn Hlook].
    split; [| exact Hlook].
    exists log1. split; [| exact Hwarn].
    rewrite <- Hload, load_tablets_reverse by lia.
    rewrite firstn_all. reflexivity.
Qed.

Lemma earlier_file_replaces_later_twice :
  exists db log,
    libwacom_database_new datadir_twice [] = Ok (db, log)
    /\ Sorted alphasort (scandir datadir_twice).2
    /\ (exists log1,
          load_in_order datadir_twice (reverse (scandir datadir_twice).2) ∅ []
          = Ok (device_ht db, log1)
          /\ List.filter is_warning log1 = List.filter is_warning [])
    /\ forall k,
         device_ht db !! k
         = List.find (has_match_key k)
             (omap (parsed_tablet datadir_twice) (scandir datadir_twice).2).
Proof.
  eexists ?[db], ?[log].
  assert (Hrun : libwacom_database_new datadir_twice [] = Ok (?db, ?log))
    by (vm_compute; reflexivity).
  split; [exact Hrun |].
  exact (earlier_file_replaces_later datadir_twice [] _ _ Hrun).
Defined.

(** Two files that do not load are reported last one first. *)
Example unloadable_files_last_first :
  exists db,
    libwacom_database_new
      {| DATADIR := "/usr/share/libwacom";
         STYLUS_DATA_FILE := "libwacom.stylus";
         readdir := Some ["a.tablet"; "libwacom.stylus"; "b.tablet"];
         g_key_file_load_from_file := fun path =>
           if String.eqb path "/usr/share/libwacom/libwacom.stylus"
           then Some stylus_file else None |} []
    = Ok (db, [DBG_load_failed "/usr/share/libwacom/b.tablet";
               DBG_load_failed "/usr/share/libwacom/a.tablet"]).
Proof. eexists. vm_compute. reflexivity. Qed.

(** ** Resolver: lookup by product name *)

Lemma g_strcmp0_null (a : option string) :
  (g_strcmp0 a None =? 0) = true <-> a = None.
Proof. destruct a; cbn; split; congruence. Qed.

Lemma find_first {A : Type} (f : A -> bool) (l : list A) :
  match List.find f l with
  | Some x =>
      exists l1 l2, l = (l1 ++ x :: l2)%list /\ f x = true
                    /\ Forall (fun y => f y = false) l1
  | None => Forall (fun y => f y = false) l
  end.
Proof.
  induction l as [| y l IH]; cbn; [constructor |].
  destruct (f y) eqn:Hy.
  - exists [], l. repeat split; [assumption | constructor].
  - destruct (List.find f l) as [x |].
    + destruct IH as (l1 & l2 & -> & Hx & Hl1).
      exists (y :: l1), l2. repeat split; [assumption |].
      constructor; assumption.
    + constructor; assumption.
Qed.

(** The copy has the fields of the device; the list of styli is
    duplicated up to its count, and is [NULL] when the count is 0. *)
Lemma libwacom_copy_fields (d : WacomDevice) :
  vendor (libwacom_copy d) = vendor d
  /\ product (libwacom_copy d) = product d
  /\ width (libwacom_copy d) = width d
  /\ height (libwacom_copy d) = height d
  /\ match_ (libwacom_copy d) = match_ d
  /\ vendor_id (libwacom_copy d) = vendor_id d
  /\ product_id (libwacom_copy d) = product_id d
  /\ cls (libwacom_copy d) = cls d
  /\ bus (libwacom_copy d) = bus d
  /\ num_buttons (libwacom_copy d) = num_buttons d
  /\ num_styli (libwacom_copy d) = num_styli d
  /\ features (libwacom_copy d) = features d
  /\ supported_styli (libwacom_copy d)
     = g_memdup (supported_styli d) (num_styli d).
Proof. repeat split. Qed.

Lemma values_by_key_spec (t : gmap string WacomDevice) (d : WacomDevice) :
  d ∈ values_by_key t <-> exists k, t !! k = Some d.
Proof.
  unfold values_by_key. rewrite list_elem_of_fmap. split.
  - intros ([k d'] & -> & Hin). exists k.
    apply elem_of_map_to_list in Hin. exact Hin.
  - intros (k & Hk). exists (k, d). split; [reflexivity |].
    apply elem_of_map_to_list. exact Hk.
Qed.

(** Proves that the copy of a device is a deep copy of it, field by
    field. *)
Ltac copy_is_deep d :=
  unfold deep_copy, libwacom_copy, g_strdup, g_memdup; cbn;
  repeat split;
  destruct (supported_styli d); [| symmetry; apply take_nil];
  let E := fresh "E" in
  destruct (num_styli d =? 0) eqn:E; [| reflexivity];
  apply Z.eqb_eq in E; rewrite E; reflexivity.

(** C10: with a database and a null name, [libwacom_new_from_name] sets
    no error for the null argument. It compares the null name with the
    product of each device, two nulls being equal: when the table holds a
    device without a product it returns the copy of the first such device
    in the order of [g_hash_table_get_values], a deep copy that holds in
    each field what that device holds, and leaves the error record alone;
    it fails, with [WERROR_UNKNOWN_MODEL], exactly when every device of the
    table has a product. *)
Theorem new_from_name_null_name
    (get_values : gmap string WacomDevice -> list WacomDevice)
    (Hvalues : forall t d, d ∈ get_values t <-> exists k, t !! k = Some d)
    (db : WacomDeviceDatabase) (e : option WacomError) :
  let r := libwacom_new_from_name get_values (Some db) None e in
  ((exists k d, device_ht db !! k = Some d /\ product d = None) ->
   exists l1 d l2,
     get_values (device_ht db) = (l1 ++ d :: l2)%list
     /\ product d = None
     /\ Forall (fun d' => product d' <> None) l1
     /\ r = (Some (libwacom_copy d), e)
     /\ exists dev, r.1 = Some dev /\ deep_copy dev d)
  /\ ((forall k d, device_ht db !! k = Some d -> product d <> None) ->
      r = (None, libwacom_error_set e WERROR_UNKNOWN_MODEL None))
  /\ (r.1 = None ->
      forall k d, device_ht db !! k = Some d -> product d <> None).
Proof.
  intros r. subst r. unfold libwacom_new_from_name.
  pose proof (find_first (fun d => g_strcmp0 (product d) None =? 0)
                (get_values (device_ht db))) as Hfind.
  destruct (List.find _ _) as [d |].
  - destruct Hfind as (l1 & l2 & Hsplit & Hd & Hl1).
    apply g_strcmp0_null in Hd.
    split; [| split].
    + intros _. exists l1, d, l2.
      split; [exact Hsplit |]. split; [exact Hd |].
      split; [| split; [reflexivity |]].
      * eapply Forall_impl; [exact Hl1 |]. cbn. intros d' Hd' Hnone.
        apply g_strcmp0_null in Hnone. congruence.
      * exists (libwacom_copy d). split; [reflexivity |]. copy_is_deep d.
    + intros Hall. exfalso.
      assert (Hin : d ∈ get_values (device_ht db)).
      { rewrite Hsplit. apply elem_of_app. right. left. }
      apply Hvalues in Hin. destruct Hin as (k & Hk).
      exact (Hall k d Hk Hd).
    + cbn. discriminate.
  - assert (Hall : forall k d, device_ht db !! k = Some d -> product d <> None).
    { intros k d Hk Hnone.
      assert (Hin : d ∈ get_values (device_ht db)) by (apply Hvalues; eauto).
      rewrite Forall_forall in Hfind. specialize (Hfind d Hin). cbn in Hfind.
      apply g_strcmp0_null in Hnone. congruence. }
    split; [| split].
    + intros (k & d & Hk & Hnone). exfalso. exact (Hall k d Hk Hnone).
    + reflexivity.
    + intros _. exact Hall.
Qed.

Lemma new_from_name_null_name_nameless :
  let r := libwacom_new_from_name values_by_key (Some nameless_db) None None in
  ((exists k d, device_ht nameless_db !! k = Some d /\ product d = None) ->
   exists l1 d l2,
     values_by_key (device_ht nameless_db) = (l1 ++ d :: l2)%list
     /\ product d = None
     /\ Forall (fun d' => product d' <> None) l1
     /\ r = (Some (libwacom_copy d), None)
     /\ exists dev, r.1 = Some dev /\ deep_copy dev d)
  /\ ((forall k d, device_ht nameless_db !! k = Some d -> product d <> None) ->
      r = (None, libwacom_error_set None WERROR_UNKNOWN_MODEL None))
  /\ (r.1 = None ->
      forall k d, device_ht nameless_db !! k = Some d -> product d <> None).
Proof.
  exact (new_from_name_null_name values_by_key values_by_key_spec
           nameless_db None).
Defined.

Example new_from_name_null_name_finds_generic (e : WacomError) :
  libwacom_new_from_name values_by_key (Some nameless_db) None (Some e)
  = (Some generic_device, Some e)
  /\ libwacom_new_from_name values_by_key
       (Some {| device_ht := {["usb:0x56a:0xb9" := intuos4_6x9]};
                stylus_ht := None |}) None (Some e)
     = (None, Some {| code := WERROR_UNKNOWN_MODEL; msg := msg e |}).
Proof. split; vm_compute; reflexivity. Qed.

(** ** The match key parser *)

Lemma append_cons (c : ascii) (a b : string) :
  String c a +:+ b = String c (a +:+ b).
Proof. reflexivity. Qed.

Lemma append_nil_l (a : string) : "" +:+ a = a.
Proof. reflexivity. Qed.

Lemma append_assoc (a b c : string) : (a +:+ b) +:+ c = a +:+ (b +:+ c).
Proof.
  induction a as [| x a IH]; [reflexivity |].
  rewrite !append_cons, IH. reflexivity.
Qed.

Lemma append_nil_r (a : string) : a +:+ "" = a.
Proof.
  induction a as [| x a IH]; [reflexivity |].
  rewrite append_cons, IH. reflexivity.
Qed.

Lemma hex_digit_facts (c : ascii) :
  Libc.is_digit 16 c = true ->
  Libc.isspace c = false /\ c <> "+"%char /\ c <> "-"%char
  /\ c <> ":"%char /\ c <> "x"%char /\ c <> "X"%char.
Proof.
  destruct c as [[] [] [] [] [] [] [] []]; vm_compute; intros H;
    try discriminate H; repeat split; discriminate.
Qed.

Lemma scan_not_colon_inv (w : nat) :
  forall s b r,
    Libc.scan_not_colon w s = (b, r) ->
    s = b +:+ r /\ all_chars not_colon b = true /\ (String.length b <= w)%nat.
Proof.
  induction w as [| w IH]; intros s b r H.
  - cbn in H. destruct s; inversion H; subst; repeat split; cbn; lia.
  - destruct s as [| c s]; cbn in H.
    + inversion H; subst. repeat split; cbn; lia.
    + destruct (Ascii.eqb c ":") eqn:Hc.
      * inversion H; subst. repeat split; cbn; lia.
      * destruct (Libc.scan_not_colon w s) as [b' r'] eqn:Hrec.
        inversion H; subst. destruct (IH _ _ _ Hrec) as (-> & Hall & Hlen).
        repeat split; cbn; [| lia].
        unfold not_colon at 1. rewrite Hc, Hall. reflexivity.
Qed.

Lemma scan_not_colon_app (w : nat) :
  forall b r,
    all_chars not_colon b = true -> (String.length b <= w)%nat ->
    Libc.scan_not_colon w (b +:+ String ":" r) = (b, String ":" r).
Proof.
  induction w as [| w IH]; intros b r Hall Hlen.
  - destruct b; [reflexivity | cbn in Hlen; lia].
  - destruct b as [| c b]; [reflexivity |].
    cbn in Hall, Hlen. apply andb_true_iff in Hall as [Hc Hall].
    unfold not_colon in Hc. apply negb_true_iff in Hc.
    rewrite append_cons. cbn [Libc.scan_not_colon]. rewrite Hc.
    rewrite IH by (auto; lia). reflexivity.
Qed.

Lemma skip_space_inv (s : string) :
  exists ws, s = ws +:+ Libc.skip_space s /\ all_chars Libc.isspace ws = true.
Proof.
  induction s as [| c s IH].
  - exists "". split; reflexivity.
  - cbn. destruct (Libc.isspace c) eqn:Hc.
    + destruct IH as (ws & Hs & Hws). exists (String c ws). split.
      * rewrite append_cons, <- Hs. reflexivity.
      * cbn. rewrite Hc, Hws. reflexivity.
    + exists "". split; reflexivity.
Qed.

Lemma take_digits_inv (base : Z) :
  forall s ds r,
    Libc.take_digits base s = (ds, r) ->
    exists dstr,
      s = dstr +:+ r
      /\ all_chars (Libc.is_digit base) dstr = true
      /\ (dstr = "" <-> ds = [])
      /\ forall acc,
           fold_left (fun a d => a * base + d) ds acc
           = number_value base dstr acc.
Proof.
  induction s as [| c s IH]; intros ds r H.
  - inversion H; subst. exists "". repeat split; auto.
  - cbn in H. destruct (Libc.digit_val c) as [d |] eqn:Hd.
    + destruct (d <? base) eqn:Hlt.
      * destruct (Libc.take_digits base s) as [ds' r'] eqn:Hrec.
        inversion H; subst. destruct (IH _ _ eq_refl) as (dstr & -> & Hall & _ & Hval).
        exists (String c dstr). repeat split; try discriminate.
        -- cbn. unfold Libc.is_digit at 1. rewrite Hd, Hlt, Hall. reflexivity.
        -- intros acc. cbn. rewrite Hd. apply Hval.
      * inversion H; subst. exists "". repeat split; auto.
    + inversion H; subst. exists "". repeat split; auto.
Qed.

Lemma scan_sign_inv (s : string) (neg : bool) (s2 : string) :
  Libc.scan_sign s = (neg, s2) ->
  exists sg, s = sg +:+ s2 /\ (sg = "" \/ sg = "+" \/ sg = "-")
             /\ neg = String.eqb sg "-".
Proof.
  unfold Libc.scan_sign. intros H.
  destruct s as [| c s'].
  { inversion H; subst. exists "". auto. }
  destruct (Ascii.eqb_spec c "-") as [-> | Hm].
  { inversion H; subst. exists "-". auto. }
  destruct (Ascii.eqb_spec c "+") as [-> | Hp].
  { inversion H; subst. exists "+". auto. }
  assert (H' : (false, String c s') = (neg, s2)).
  { rewrite <- H. destruct c as [[] [] [] [] [] [] [] []]; try reflexivity;
      congruence. }
  inversion H'; subst. exists "". auto.
Qed.

Lemma take_digits_stop (base : Z) :
  forall s ds r,
    Libc.take_digits base s = (ds, r) ->
    match r with
    | EmptyString => True
    | String c _ => Libc.is_digit base c = false
    end.
Proof.
  induction s as [| c s IH]; intros ds r H.
  - inversion H; subst. exact I.
  - cbn in H. destruct (Libc.digit_val c) as [d |] eqn:Hd.
    + destruct (d <? base) eqn:Hlt.
      * destruct (Libc.take_digits base s) as [ds' r'] eqn:Hrec.
        inversion H; subst. eapply IH; reflexivity.
      * inversion H; subst. unfold Libc.is_digit. rewrite Hd. exact Hlt.
    + inversion H; subst. unfold Libc.is_digit. rewrite Hd. reflexivity.
Qed.

Lemma strip_0x_Some (s r : string) :
  Libc.strip_0x s = Some r -> s = "0x" +:+ r \/ s = "0X" +:+ r.
Proof.
  unfold Libc.strip_0x. intros H.
  destruct s as [| c0 [| c1 s']]; try discriminate H.
  - destruct c0 as [[] [] [] [] [] [] [] []]; discriminate H.
  - destruct (Ascii.eqb_spec c0 "0") as [-> | H0].
    + destruct (Ascii.eqb_spec c1 "x") as [-> | Hx].
      { inversion H; subst. left. reflexivity. }
      destruct (Ascii.eqb_spec c1 "X") as [-> | HX].
      { inversion H; subst. right. reflexivity. }
      exfalso.
      destruct c1 as [[] [] [] [] [] [] [] []]; try discriminate H; congruence.
    + exfalso.
      destruct c0 as [[] [] [] [] [] [] [] []]; try discriminate H; congruence.
Qed.

Lemma take_digits_app (base : Z) (rest : string) :
  match rest with
  | EmptyString => True
  | String c _ => Libc.is_digit base c = false
  end ->
  forall ds,
    all_chars (Libc.is_digit base) ds = true ->
    exists l,
      Libc.take_digits base (ds +:+ rest) = (l, rest)
      /\ (l = [] -> ds = "")
      /\ forall acc,
           fold_left (fun a d => a * base + d) l acc
           = number_value base ds acc.
Proof.
  intros Hrest. induction ds as [| c ds IH]; intros Hall.
  - exists []. rewrite append_nil_l. split; [| split; reflexivity].
    destruct rest as [| c r]; [reflexivity |].
    cbn. unfold Libc.is_digit in Hrest.
    destruct (Libc.digit_val c); [rewrite Hrest |]; reflexivity.
  - cbn in Hall. apply andb_true_iff in Hall as [Hc Hall].
    destruct (IH Hall) as (l & Hl & _ & Hval).
    unfold Libc.is_digit in Hc.
    destruct (Libc.digit_val c) as [d |] eqn:Hd; [| discriminate Hc].
    exists (d :: l). rewrite append_cons. cbn [Libc.take_digits].
    rewrite Hd, Hc, Hl. split; [reflexivity |]. split; [discriminate |].
    intros acc. cbn. rewrite Hd. apply Hval.
Qed.

Lemma skip_space_nonspace (c : ascii) (s : string) :
  Libc.isspace c = false -> Libc.skip_space (String c s) = String c s.
Proof. intros H. cbn. rewrite H. reflexivity. Qed.

Lemma scan_sign_plain (c : ascii) (s : string) :
  c <> "+"%char -> c <> "-"%char ->
  Libc.scan_sign (String c s) = (false, String c s).
Proof.
  intros Hp Hm.
  destruct c as [[] [] [] [] [] [] [] []]; try reflexivity; congruence.
Qed.

Lemma strip_0x_none (c0 : ascii) (s : string) :
  c0 <> "0"%char
  \/ match s with
     | EmptyString => True
     | String c1 _ => c1 <> "x"%char /\ c1 <> "X"%char
     end ->
  Libc.strip_0x (String c0 s) = None.
Proof.
  intros [H0 | H1].
  - destruct c0 as [[] [] [] [] [] [] [] []]; try reflexivity; congruence.
  - destruct s as [| c1 s].
    + destruct c0 as [[] [] [] [] [] [] [] []]; reflexivity.
    + destruct H1 as [Hx HX].
      destruct c0 as [[] [] [] [] [] [] [] []]; try reflexivity.
      destruct c1 as [[] [] [] [] [] [] [] []]; try reflexivity; congruence.
Qed.

Lemma skip_space_app (ws t : string) :
  all_chars Libc.isspace ws = true ->
  Libc.skip_space (ws +:+ t) = Libc.skip_space t.
Proof.
  induction ws as [| c ws IH]; intros H; [reflexivity |].
  cbn in H. apply andb_true_iff in H as [Hc H].
  rewrite append_cons. cbn [Libc.skip_space]. rewrite Hc. auto.
Qed.

(** A number as [%x] reads one begins with a hexadecimal digit, its sign
    apart. *)
Lemma scanned_body_head (pre ds rest : string) :
  (pre = "" /\ ds <> "") \/ pre = "0x" \/ pre = "0X" ->
  all_chars (Libc.is_digit 16) ds = true ->
  exists c s',
    pre +:+ ds +:+ rest = String c s' /\ Libc.is_digit 16 c = true.
Proof.
  intros [[-> Hne] | [-> | ->]] Hall.
  - destruct ds as [| d0 ds']; [congruence |].
    cbn in Hall. apply andb_true_iff in Hall as [H0 _].
    exists d0, (ds' +:+ rest). split; [reflexivity | exact H0].
  - eexists "0"%char, _. split; reflexivity.
  - eexists "0"%char, _. split; reflexivity.
Qed.

(** [%x] after the sign: the prefix, the digits, and the stop. *)
Lemma scan_body (neg : bool) (pre ds rest : string) :
  (pre = "" /\ ds <> "") \/ pre = "0x" \/ pre = "0X" ->
  all_chars (Libc.is_digit 16) ds = true ->
  match rest with
  | EmptyString => True
  | String c _ =>
      Libc.is_digit 16 c = false
      /\ ((c = "x"%char \/ c = "X"%char) -> ~ (pre = "" /\ ds = "0"))
  end ->
  match Libc.strip_0x (pre +:+ ds +:+ rest) with
  | Some s3 =>
      let '(l, r) := Libc.take_digits 16 s3 in
      Some (to_uint32 (Libc.strtoul_value neg (Libc.digits_value 16 l)), r)
  | None =>
      match Libc.take_digits 16 (pre +:+ ds +:+ rest) with
      | ([], _) => None
      | (l, r) =>
          Some (to_uint32 (Libc.strtoul_value neg (Libc.digits_value 16 l)), r)
      end
  end
  = Some (to_uint32 (Libc.strtoul_value neg (number_value 16 ds 0)), rest).
Proof.
  intros Hpre Hall Hrest.
  assert (Hstop : match rest with
                  | EmptyString => True
                  | String c _ => Libc.is_digit 16 c = false
                  end).
  { destruct rest; [exact I | apply Hrest]. }
  destruct (take_digits_app 16 rest Hstop ds Hall) as (l & Hl & Hnil & Hval).
  destruct Hpre as [[-> Hne] | [-> | ->]].
  - rewrite append_nil_l.
    assert (Hstrip : Libc.strip_0x (ds +:+ rest) = None).
    { destruct ds as [| d0 ds']; [congruence |].
      rewrite append_cons. apply strip_0x_none.
      destruct ds' as [| d1 ds''].
      - rewrite append_nil_l. destruct rest as [| c r]; [right; exact I |].
        destruct Hrest as [_ Hx].
        destruct (Ascii.eqb_spec d0 "0") as [-> | H0]; [| left; exact H0].
        right. split; intros ->; apply Hx; auto.
      - right. rewrite append_cons. cbn in Hall.
        apply andb_true_iff in Hall as [_ Hall].
        apply andb_true_iff in Hall as [H1 _].
        apply hex_digit_facts in H1. tauto. }
    rewrite Hstrip, Hl. destruct l as [| d l'].
    + exfalso. apply Hne, Hnil. reflexivity.
    + unfold Libc.digits_value. rewrite Hval. reflexivity.
  - change (Libc.strip_0x ("0x" +:+ ds +:+ rest)) with (Some (ds +:+ rest)).
    cbv beta iota. rewrite Hl. unfold Libc.digits_value. rewrite Hval.
    reflexivity.
  - change (Libc.strip_0x ("0X" +:+ ds +:+ rest)) with (Some (ds +:+ rest)).
    cbv beta iota. rewrite Hl. unfold Libc.digits_value. rewrite Hval.
    reflexivity.
Qed.

(** [%x] reads exactly the numbers of [scanned_number], to where they
    end. *)
Lemma scan_x_exact (ws n rest : string) (v : Z) :
  all_chars Libc.isspace ws = true -> scanned_number n v ->
  number_ends n rest ->
  Libc.scan_x (ws +:+ n +:+ rest) = Some (v, rest).
Proof.
  intros Hws (sg & pre & ds & -> & Hsg & Hpre & Hall & ->) Hends.
  destruct (scanned_body_head pre ds rest Hpre Hall) as (c & s' & Hbody & Hc).
  pose proof (hex_digit_facts c Hc) as (Hsp & Hplus & Hminus & _).
  assert (Hrest : match rest with
                  | EmptyString => True
                  | String c _ =>
                      Libc.is_digit 16 c = false
                      /\ ((c = "x"%char \/ c = "X"%char) ->
                          ~ (pre = "" /\ ds = "0"))
                  end).
  { destruct rest as [| c' r]; [exact I |]. destruct Hends as [Hd Hx].
    split; [exact Hd |]. intros Hc' [-> ->]. apply (Hx Hc').
    unfold lone_zero. destruct Hsg as [-> | [-> | ->]]; auto. }
  unfold Libc.scan_x. rewrite !append_assoc, (skip_space_app _ _ Hws).
  destruct Hsg as [-> | [-> | ->]].
  - rewrite append_nil_l, Hbody, (skip_space_nonspace _ _ Hsp),
      (scan_sign_plain _ _ Hplus Hminus).
    rewrite <- Hbody. apply (scan_body false); assumption.
  - change (Libc.skip_space ("+" +:+ pre +:+ ds +:+ rest))
      with ("+" +:+ pre +:+ ds +:+ rest).
    change (Libc.scan_sign ("+" +:+ pre +:+ ds +:+ rest))
      with (false, pre +:+ ds +:+ rest).
    apply (scan_body false); assumption.
  - change (Libc.skip_space ("-" +:+ pre +:+ ds +:+ rest))
      with ("-" +:+ pre +:+ ds +:+ rest).
    change (Libc.scan_sign ("-" +:+ pre +:+ ds +:+ rest))
      with (true, pre +:+ ds +:+ rest).
    apply (scan_body true); assumption.
Qed.

Lemma lone_zero_digits (sg ds : string) :
  sg = "" \/ sg = "+" \/ sg = "-" ->
  all_chars (Libc.is_digit 16) ds = true ->
  lone_zero (sg +:+ ds) -> ds = "0".
Proof.
  intros Hsg Hall [H | [H | H]];
    destruct Hsg as [-> | [-> | ->]];
    rewrite ?append_cons, ?append_nil_l in H;
    try discriminate H; try (injection H as ->; reflexivity);
    try (subst ds; reflexivity); subst ds; discriminate Hall.
Qed.

(** What [%x] has read is a number of [scanned_number], and it ends where
    the conversion stopped. *)
Lemma scan_x_inv (s : string) (v : Z) (r : string) :
  Libc.scan_x s = Some (v, r) ->
  exists ws n, s = ws +:+ n +:+ r /\ all_chars Libc.isspace ws = true
               /\ scanned_number n v /\ number_ends n r.
Proof.
  unfold Libc.scan_x. intros H.
  destruct (skip_space_inv s) as (ws & Hs & Hws).
  destruct (Libc.scan_sign (Libc.skip_space s)) as [neg s2] eqn:Hsign.
  destruct (scan_sign_inv _ _ _ Hsign) as (sg & Hs2 & Hsg & Hneg).
  destruct (Libc.strip_0x s2) as [s3 |] eqn:Hstrip.
  - destruct (Libc.take_digits 16 s3) as [ds rest] eqn:Hdig.
    inversion H; subst v rest. clear H.
    destruct (take_digits_inv _ _ _ _ Hdig) as (dstr & Hd & Hall & _ & Hval).
    pose proof (take_digits_stop _ _ _ _ Hdig) as Hstop.
    assert (Hpre : exists pre, (pre = "0x" \/ pre = "0X") /\ s2 = pre +:+ s3).
    { apply strip_0x_Some in Hstrip as [-> | ->]; eauto. }
    destruct Hpre as (pre & Hpre & Hs3).
    exists ws, (sg +:+ pre +:+ dstr). split; [| split; [exact Hws | split]].
    + rewrite Hs at 1. rewrite Hs2, Hs3, Hd at 1.
      rewrite !append_assoc. reflexivity.
    + exists sg, pre, dstr. repeat split; auto.
      unfold Libc.digits_value. rewrite Hval, Hneg. reflexivity.
    + destruct r as [| c r']; [exact I |]. split; [exact Hstop |].
      intros _ Hlone.
      assert (Hprefixed : exists t, sg +:+ pre +:+ dstr = sg +:+ String "0" t
                                    /\ t <> "").
      { destruct Hpre as [-> | ->]; eexists; split;
          try reflexivity; discriminate. }
      destruct Hprefixed as (t & Ht & Hne). rewrite Ht in Hlone.
      destruct Hlone as [Hl | [Hl | Hl]];
        destruct Hsg as [-> | [-> | ->]];
        rewrite ?append_cons, ?append_nil_l in Hl;
        try discriminate Hl; injection Hl as Hl; congruence.
  - destruct (Libc.take_digits 16 s2) as [ds rest] eqn:Hdig.
    destruct ds as [| d ds]; [discriminate H |].
    inversion H; subst v rest. clear H.
    destruct (take_digits_inv _ _ _ _ Hdig) as (dstr & Hd & Hall & Hnil & Hval).
    pose proof (take_digits_stop _ _ _ _ Hdig) as Hstop.
    exists ws, (sg +:+ dstr). split; [| split; [exact Hws | split]].
    + rewrite Hs at 1. rewrite Hs2, Hd at 1.
      rewrite !append_assoc. reflexivity.
    + exists sg, "", dstr. repeat split; auto.
      * left. split; [reflexivity |]. intros ->.
        destruct Hnil as [Hnil _]. discriminate (Hnil eq_refl).
      * unfold Libc.digits_value. rewrite Hval, Hneg. reflexivity.
    + destruct r as [| c r']; [exact I |]. split; [exact Hstop |].
      intros Hc Hlone.
      pose proof (lone_zero_digits sg dstr Hsg Hall Hlone) as ->.
      rewrite Hd in Hstrip.
      destruct Hc as [-> | ->]; discriminate Hstrip.
Qed.

Lemma hex_number_scanned (n : string) (v : Z) :
  hex_number n v -> scanned_number n v.
Proof.
  intros (sg & pre & ds & -> & Hsg & Hpre & Hne & Hall & ->).
  exists sg, pre, ds. repeat split; auto. tauto.
Qed.

Lemma stops_number_ends (n rest : string) :
  stops_number rest -> number_ends n rest.
Proof.
  destruct rest as [| c r]; [auto |]. intros (Hd & Hx & HX).
  split; [exact Hd |]. intros [-> | ->]; congruence.
Qed.

(** [%x] on a number of the pattern. *)
Lemma scan_x_app (n : string) (v : Z) (rest : string) :
  hex_number n v -> stops_number rest ->
  Libc.scan_x (n +:+ rest) = Some (v, rest).
Proof.
  intros Hn Hrest.
  apply (scan_x_exact "" n rest v eq_refl (hex_number_scanned _ _ Hn)
           (stops_number_ends _ _ Hrest)).
Qed.

(** On an input that matches fully each conversion stops where the
    pattern says, and the last one at the end of the input. *)
Lemma matches_fully_scan (s bn : string) (v p : Z) :
  matches_fully s bn v p ->
  exists r2 r4,
    Libc.scan_not_colon 63 s = (bn, String ":" r2)
    /\ Libc.scan_x r2 = Some (v, String ":" r4)
    /\ Libc.scan_x r4 = Some (p, "").
Proof.
  intros (nv & np & -> & (Hne & Hlen & Hcolon) & Hv & Hp).
  exists (nv +:+ String ":" np), np.
  change (bn +:+ ":" +:+ nv +:+ ":" +:+ np)
    with (bn +:+ String ":" (nv +:+ String ":" np)).
  split; [apply scan_not_colon_app; assumption |].
  split.
  - apply scan_x_app; [exact Hv |]. repeat split; discriminate.
  - rewrite <- (append_nil_r np) at 1. apply scan_x_app; [exact Hp | exact I].
Qed.

Lemma sscanf_full (s bn : string) (v p : Z) :
  matches_fully s bn v p -> Libc.sscanf_bus_x_x s = Libc.Scan3 bn v p.
Proof.
  intros Hfull.
  destruct (matches_fully_scan _ _ _ _ Hfull) as (r2 & r4 & Hb & Hv & Hp).
  destruct Hfull as (nv & np & -> & (Hne & _) & _).
  unfold Libc.sscanf_bus_x_x. rewrite Hb.
  destruct bn as [| c bn']; [congruence |]. rewrite append_cons.
  cbn [Libc.expect_colon Ascii.eqb Bool.eqb]. rewrite Hv.
  cbn [Libc.expect_colon Ascii.eqb Bool.eqb]. rewrite Hp.
  reflexivity.
Qed.

Lemma expect_colon_inv (s r : string) :
  Libc.expect_colon s = Some r -> s = String ":" r.
Proof.
  destruct s as [| c s']; cbn; [discriminate |].
  destruct (Ascii.eqb_spec c ":") as [-> | _]; congruence.
Qed.

Lemma sscanf_inv (s bn : string) (v p : Z) :
  Libc.sscanf_bus_x_x s = Libc.Scan3 bn v p -> matches_prefix s bn v p.
Proof.
  unfold Libc.sscanf_bus_x_x. intros H.
  destruct s as [| c0 s0]; [discriminate H |].
  destruct (Libc.scan_not_colon 63 (String c0 s0)) as [b r1] eqn:Hb.
  apply scan_not_colon_inv in Hb as (Hs & Hcolon & Hlen).
  destruct b as [| cb b']; [discriminate H |].
  destruct (Libc.expect_colon r1) as [r2 |] eqn:H1; [| discriminate H].
  apply expect_colon_inv in H1 as ->.
  destruct (Libc.scan_x r2) as [[v' r3] |] eqn:Hv; [| discriminate H].
  destruct (Libc.expect_colon r3) as [r4 |] eqn:H3; [| discriminate H].
  apply expect_colon_inv in H3 as ->.
  destruct (Libc.scan_x r4) as [[p' r5] |] eqn:Hp; [| discriminate H].
  inversion H; subst bn v' p'. clear H.
  apply scan_x_inv in Hv as (ws1 & nv & -> & Hws1 & Hnv & _).
  apply scan_x_inv in Hp as (ws2 & np & -> & Hws2 & Hnp & Hends).
  exists ws1, nv, ws2, np, r5. split; [| repeat split; auto; discriminate].
  rewrite Hs.
  change (String ":" ?x) with (":" +:+ x).
  rewrite !append_assoc. reflexivity.
Qed.

(** On an input with a beginning of the pattern the three conversions
    succeed, with the fields of that beginning. *)
Lemma sscanf_prefix (s bn : string) (v p : Z) :
  matches_prefix s bn v p -> Libc.sscanf_bus_x_x s = Libc.Scan3 bn v p.
Proof.
  intros (ws1 & nv & ws2 & np & rest & -> & (Hne & Hlen & Hcolon)
          & Hws1 & Hnv & Hws2 & Hnp & Hends).
  assert (Hcolon_ends : forall n r, number_ends n (String ":" r)).
  { intros n r. split; [reflexivity |]. intros [H | H]; discriminate H. }
  change (bn +:+ ":" +:+ ws1 +:+ nv +:+ ":" +:+ ws2 +:+ np +:+ rest)
    with (bn +:+ String ":" (ws1 +:+ nv +:+ String ":" (ws2 +:+ np +:+ rest))).
  unfold Libc.sscanf_bus_x_x.
  rewrite (scan_not_colon_app 63 bn _ Hcolon Hlen).
  destruct bn as [| c bn']; [congruence |]. rewrite append_cons.
  cbn [Libc.expect_colon Ascii.eqb Bool.eqb].
  rewrite (scan_x_exact ws1 nv _ v Hws1 Hnv (Hcolon_ends _ _)).
  cbn [Libc.expect_colon Ascii.eqb Bool.eqb].
  rewrite (scan_x_exact ws2 np rest p Hws2 Hnp Hends).
  reflexivity.
Qed.

(** C9, as stated, fails: on a string that goes on after the product id
    the parser returns true, with the three fields of its beginning, though
    the string as a whole is not of the form
    [<bus-name>:<hex-vendor>:<hex-product>]. *)
Lemma trailing_text_is_accepted :
  libwacom_matchstr_to_ints (Some two_matches) 0 0 WBUSTYPE_UNKNOWN
  = Ok (1, (1386, 185, WBUSTYPE_USB))
  /\ ~ exists bn v p, matches_fully two_matches bn v p.
Proof.
  split; [vm_compute; reflexivity |].
  intros (bn & v & p & Hfull).
  destruct (matches_fully_scan _ _ _ _ Hfull) as (r2 & r4 & Hb & Hv & Hp).
  vm_compute in Hb. inversion Hb; subst bn r2. clear Hb.
  vm_compute in Hv. inversion Hv; subst v r4. clear Hv.
  vm_compute in Hp. discriminate Hp.
Qed.

(** C9, amended: on any string the parser returns true or false. It
    returns true, with the bus of the bus name and the two ids, whenever
    the string matches [<bus-name>:<hex-vendor>:<hex-product>] fully, the
    bus name being 1 to 63 characters without a colon. It returns true
    with given ids and bus exactly when a beginning of the string has that
    form with those fields, each number as [%x] reads one (white space
    before it, digits that may be missing after [0x]) and the product id
    read as far as it goes; what follows the product id is not looked at.
    It returns false exactly when no beginning of the string has that
    form. *)
Theorem matchstr_to_ints_pattern (s : string) (v0 p0 : Z) (b0 : WacomBusType) :
  (exists rc out,
      libwacom_matchstr_to_ints (Some s) v0 p0 b0 = Ok (rc, out)
      /\ (rc = 0 \/ rc = 1))
  /\ (forall bn v p,
        matches_fully s bn v p ->
        exists b,
          bus_from_str (Some bn) = Ok b
          /\ libwacom_matchstr_to_ints (Some s) v0 p0 b0 = Ok (1, (v, p, b)))
  /\ (forall v p b,
        libwacom_matchstr_to_ints (Some s) v0 p0 b0 = Ok (1, (v, p, b))
        <-> exists bn,
              matches_prefix s bn v p /\ bus_from_str (Some bn) = Ok b)
  /\ ((exists out, libwacom_matchstr_to_ints (Some s) v0 p0 b0 = Ok (0, out))
      <-> ~ exists bn v p, matches_prefix s bn v p).
Proof.
  assert (Hinv : forall v p b,
             libwacom_matchstr_to_ints (Some s) v0 p0 b0 = Ok (1, (v, p, b)) ->
             exists bn,
               matches_prefix s bn v p /\ bus_from_str (Some bn) = Ok b).
  { unfold libwacom_matchstr_to_ints. intros v p b H.
    destruct (Libc.sscanf_bus_x_x s) as [| | ? | ? ? | bn v' p'] eqn:Hs;
      try discriminate H.
    cbn in H. inversion H; subst v' p'.
    exists bn. split; [apply sscanf_inv; exact Hs | reflexivity]. }
  assert (Hprefix : forall bn v p,
             matches_prefix s bn v p ->
             exists b,
               bus_from_str (Some bn) = Ok b
               /\ libwacom_matchstr_to_ints (Some s) v0 p0 b0
                  = Ok (1, (v, p, b))).
  { intros bn v p (ws1 & nv & ws2 & np & rest & -> & (Hne & Hlen & Hcolon)
                   & Hws1 & Hnv & Hws2 & Hnp & Hends).
    assert (Hcolon_ends : forall n r, number_ends n (String ":" r)).
    { intros n r. split; [reflexivity |]. intros [H | H]; discriminate H. }
    change (bn +:+ ":" +:+ ws1 +:+ nv +:+ ":" +:+ ws2 +:+ np +:+ rest)
      with (bn +:+ String ":"
                     (ws1 +:+ nv +:+ String ":" (ws2 +:+ np +:+ rest))).
    unfold libwacom_matchstr_to_ints, Libc.sscanf_bus_x_x.
    rewrite (scan_not_colon_app 63 bn _ Hcolon Hlen).
    destruct bn as [| c bn']; [congruence |]. rewrite append_cons.
    cbn [Libc.expect_colon Ascii.eqb Bool.eqb].
    rewrite (scan_x_exact ws1 nv _ v Hws1 Hnv (Hcolon_ends _ _)).
    cbn [Libc.expect_colon Ascii.eqb Bool.eqb].
    rewrite (scan_x_exact ws2 np rest p Hws2 Hnp Hends).
    cbn. eauto. }
  assert (Htotal : exists rc out,
             libwacom_matchstr_to_ints (Some s) v0 p0 b0 = Ok (rc, out)
             /\ (rc = 0 \/ rc = 1)).
  { unfold libwacom_matchstr_to_ints.
    destruct (Libc.sscanf_bus_x_x s); cbn; eauto. }
  split; [exact Htotal |]. split; [| split; [split | split]].
  - intros bn v p Hfull. unfold libwacom_matchstr_to_ints.
    rewrite (sscanf_full _ _ _ _ Hfull). cbn. eauto.
  - apply Hinv.
  - intros (bn & Hpre & Hb).
    destruct (Hprefix _ _ _ Hpre) as (b' & Hb' & Hrun). congruence.
  - intros (out & Hrun) (bn & v & p & Hpre).
    destruct (Hprefix _ _ _ Hpre) as (b & _ & Hrun'). congruence.
  - intros Hnone. destruct Htotal as (rc & out & Hrun & [-> | ->]);
      [eauto |].
    exfalso. apply Hnone. destruct out as [[v p] b].
    destruct (Hinv _ _ _ Hrun) as (bn & Hpre & _). eauto.
Qed.

(** The parser accepts a prefix without digits, as the number 0. *)
Example prefix_without_digits :
  libwacom_matchstr_to_ints (Some "usb:0x:1") 0 0 WBUSTYPE_UNKNOWN
  = Ok (1, (0, 1, WBUSTYPE_USB)).
Proof. vm_compute. reflexivity. Qed.

(** A bus name of 64 characters is not one of the pattern: the parser
    returns false. *)
Example long_bus_name_is_refused :
  libwacom_matchstr_to_ints
    (Some "0123456789012345678901234567890123456789012345678901234567890123:1:2")
    0 0 WBUSTYPE_UNKNOWN
  = Ok (0, (0, 0, WBUSTYPE_UNKNOWN)).
Proof. vm_compute. reflexivity. Qed.

(** A canonical key matches the pattern fully, and is parsed back into
    its fields. *)
Example canonical_key_matches_fully :
  matches_fully "usb:0x56a:0xb9" "usb" 1386 185
  /\ libwacom_matchstr_to_ints (Some "usb:0x56a:0xb9") 0 0 WBUSTYPE_UNKNOWN
     = Ok (1, (1386, 185, WBUSTYPE_USB)).
Proof.
  assert (Hfull : matches_fully "usb:0x56a:0xb9" "usb" 1386 185).
  { exists "0x56a", "0xb9". split; [reflexivity |].
    split; [repeat split; [discriminate | cbn; lia] |].
    split; [exists "", "0x", "56a" | exists "", "0x", "b9"];
      repeat split; auto; discriminate. }
  split; [exact Hfull |].
  unfold libwacom_matchstr_to_ints.
  rewrite (sscanf_full _ _ _ _ Hfull). reflexivity.
Qed.

(** * Properties of the rest of the library *)

(** ** Directory scan *)

Lemma length_append (a b : string) :
  String.length (a +:+ b) = (String.length a + String.length b)%nat.
Proof.
  induction a as [| c a IH]; [reflexivity |].
  rewrite append_cons. cbn. rewrite IH. reflexivity.
Qed.

Lemma substring_whole (b : string) : String.substring 0 (String.length b) b = b.
Proof. induction b as [| c b IH]; cbn; [reflexivity | rewrite IH; reflexivity]. Qed.

Lemma substring_suffix (a b : string) :
  String.substring (String.length a) (String.length b) (a +:+ b) = b.
Proof.
  induction a as [| c a IH]; [apply substring_whole |].
  rewrite append_cons. cbn. exact IH.
Qed.

Lemma substring_split (n : nat) :
  forall s, (n <= String.length s)%nat ->
    s = String.substring 0 n s
        +:+ String.substring n (String.length s - n) s.
Proof.
  induction n as [| n IH]; intros s Hn.
  - rewrite Nat.sub_0_r, substring_whole.
    destruct s; reflexivity.
  - destruct s as [| c s]; [cbn in Hn; lia |].
    cbn in Hn. cbn [String.substring String.length Nat.sub].
    rewrite append_cons. f_equal. apply IH. lia.
Qed.

Lemma not_dot_head (c : ascii) (A : Type) (x y : A) :
  c <> "."%char ->
  match c with
  | "."%char => x
  | _ => y
  end = y.
Proof.
  intros Hc. destruct c as [[] [] [] [] [] [] [] []]; try reflexivity.
  congruence.
Qed.

(** X1: [scandir_filter] selects exactly the names made of a nonempty stem
    that does not begin with a dot, followed by [.tablet]. *)
Theorem scandir_filter_selects (name : string) :
  scandir_filter name = true <->
  exists c stem, name = String c stem +:+ SUFFIX /\ c <> "."%char.
Proof.
  split.
  - unfold scandir_filter. intros H.
    destruct name as [| c rest]; [discriminate H |].
    assert (Hc : c <> "."%char).
    { intros ->. discriminate H. }
    rewrite (not_dot_head _ _ _ _ Hc) in H.
    destruct (String.length (String c rest) <=? String.length SUFFIX)%nat eqn:Hlen;
      [discriminate H |].
    apply Nat.leb_gt in Hlen. apply String.eqb_eq in H.
    pose proof (substring_split (String.length (String c rest) - String.length SUFFIX)
                  (String c rest)) as Hsplit.
    rewrite Hsplit by lia.
    replace (String.length (String c rest)
             - (String.length (String c rest) - String.length SUFFIX))%nat
      with (String.length SUFFIX) by lia.
    rewrite H.
    cbn [String.length] in *.
    destruct (S (String.length rest) - String.length SUFFIX)%nat as [| k] eqn:Hk;
      [lia |].
    cbn [String.substring]. exists c, (String.substring 0 k rest). auto.
  - intros (c & stem & -> & Hc). unfold scandir_filter.
    rewrite append_cons. cbv beta iota.
    rewrite (not_dot_head _ _ _ _ Hc), <- append_cons.
    rewrite length_append.
    destruct (_ <=? _)%nat eqn:Hlen.
    { apply Nat.leb_le in Hlen. cbn in Hlen. lia. }
    replace (String.length (String c stem) + String.length SUFFIX
             - String.length SUFFIX)%nat
      with (String.length (String c stem)) by lia.
    rewrite substring_suffix. apply String.eqb_refl.
Qed.

(** ** Descriptor parser: the fields of a parsed device *)

(** Runs the monads of the loader in a hypothesis. *)
Ltac run_M_in H :=
  unfold mbind, mret, M_bind, M_ret, outcome_bind, outcome_ret, lift, say in H;
  cbn in H.

(** Whatever the [DeviceMatch], a device the parser returns has the other
    fields as the key file gives them. *)
Lemma parse_tablet_fields (path : string) (kf : GKeyFile.t)
    (log log' : list diag) (d : WacomDevice) :
  libwacom_parse_tablet_keyfile path (Some kf) log = Ok (Some d, log') ->
  vendor d = g_key_file_get_string kf DEVICE_GROUP "Vendor"
  /\ product d = g_key_file_get_string kf DEVICE_GROUP "Product"
  /\ width d = g_key_file_get_integer kf DEVICE_GROUP "Width"
  /\ height d = g_key_file_get_integer kf DEVICE_GROUP "Height"
  /\ cls d = libwacom_model_string_to_enum
               (g_key_file_get_string kf DEVICE_GROUP "Class")
  /\ num_buttons d = g_key_file_get_integer kf FEATURE_GROUP "Buttons"
  /\ features d = file_features kf
  /\ supported_styli d = g_array_free (file_styli kf)
  /\ num_styli d = Z.of_nat (length (file_styli kf)).
Proof.
  unfold libwacom_parse_tablet_keyfile, file_styli. intros H.
  destruct (g_strcmp0 _ _ =? 0).
  { run_M_in H.
    destruct (g_key_file_get_string_list kf DEVICE_GROUP "Styli");
      inversion H; subst; cbn; rewrite ?length_map; repeat split. }
  destruct (libwacom_matchstr_to_ints _ 0 0 WBUSTYPE_UNKNOWN)
    as [[rc [[v p] b]] | |]; [| discriminate H ..].
  run_M_in H. destruct (rc =? 0).
  { destruct (g_key_file_get_string_list kf DEVICE_GROUP "Styli");
      inversion H; subst; cbn; rewrite ?length_map; repeat split. }
  destruct (bus_to_str b); [| discriminate H ..].
  destruct (g_key_file_get_string_list kf DEVICE_GROUP "Styli");
    inversion H; subst; cbn; rewrite ?length_map; repeat split.
Qed.

Lemma feature_bits (s t r r2 v h b x : bool) :
  let f :=
    (if x then Z.lor else fun a _ => a)
      ((if b then Z.lor else fun a _ => a)
        ((if h then Z.lor else fun a _ => a)
          ((if v then Z.lor else fun a _ => a)
            ((if r2 then Z.lor else fun a _ => a)
              ((if r then Z.lor else fun a _ => a)
                ((if t then Z.lor else fun a _ => a)
                  ((if s then Z.lor else fun a _ => a) 0 FEATURE_STYLUS)
                  FEATURE_TOUCH)
                FEATURE_RING)
              FEATURE_RING2)
            FEATURE_VSTRIP)
          FEATURE_HSTRIP)
        FEATURE_BUILTIN)
      FEATURE_REVERSIBLE in
  (Z.land f FEATURE_STYLUS =? 0) = negb s
  /\ (Z.land f FEATURE_TOUCH =? 0) = negb t
  /\ (Z.land f FEATURE_RING =? 0) = negb r
  /\ (Z.land f FEATURE_RING2 =? 0) = negb r2
  /\ (Z.land f FEATURE_VSTRIP =? 0) = negb v
  /\ (Z.land f FEATURE_HSTRIP =? 0) = negb h
  /\ (Z.land f FEATURE_BUILTIN =? 0) = negb b
  /\ (Z.land f FEATURE_REVERSIBLE =? 0) = negb x.
Proof.
  destruct s, t, r, r2, v, h, b, x; vm_compute; repeat split.
Qed.

(** X2: each of the eight feature accessors of a parsed device answers 1
    exactly when the flag of its name is true in the [Features] group of
    the file, and 0 otherwise; no flag leaks into another accessor. *)
Theorem parsed_features_accessors (path : string) (kf : GKeyFile.t)
    (log log' : list diag) (d : WacomDevice)
    (Hrun : libwacom_parse_tablet_keyfile path (Some kf) log = Ok (Some d, log')) :
  let flag key := if g_key_file_get_boolean kf FEATURE_GROUP key then 1 else 0 in
  libwacom_has_stylus d = flag "Stylus"
  /\ libwacom_has_touch d = flag "Touch"
  /\ libwacom_has_ring d = flag "Ring"
  /\ libwacom_has_ring2 d = flag "Ring2"
  /\ libwacom_has_vstrip d = flag "VStrip"
  /\ libwacom_has_hstrip d = flag "HStrip"
  /\ libwacom_is_builtin d = flag "BuiltIn"
  /\ libwacom_is_reversible d = flag "Reversible".
Proof.
  destruct (parse_tablet_fields _ _ _ _ _ Hrun)
    as (_ & _ & _ & _ & _ & _ & Hf & _).
  unfold libwacom_has_stylus, libwacom_has_touch, libwacom_has_ring,
    libwacom_has_ring2, libwacom_has_vstrip, libwacom_has_hstrip,
    libwacom_is_builtin, libwacom_is_reversible.
  rewrite Hf. unfold file_features, feature_flag.
  pose proof (feature_bits
                (g_key_file_get_boolean kf FEATURE_GROUP "Stylus")
                (g_key_file_get_boolean kf FEATURE_GROUP "Touch")
                (g_key_file_get_boolean kf FEATURE_GROUP "Ring")
                (g_key_file_get_boolean kf FEATURE_GROUP "Ring2")
                (g_key_file_get_boolean kf FEATURE_GROUP "VStrip")
                (g_key_file_get_boolean kf FEATURE_GROUP "HStrip")
                (g_key_file_get_boolean kf FEATURE_GROUP "BuiltIn")
                (g_key_file_get_boolean kf FEATURE_GROUP "Reversible")) as Hbits.
  cbv zeta in Hbits.
  destruct (g_key_file_get_boolean kf FEATURE_GROUP "Stylus"),
    (g_key_file_get_boolean kf FEATURE_GROUP "Touch"),
    (g_key_file_get_boolean kf FEATURE_GROUP "Ring"),
    (g_key_file_get_boolean kf FEATURE_GROUP "Ring2"),
    (g_key_file_get_boolean kf FEATURE_GROUP "VStrip"),
    (g_key_file_get_boolean kf FEATURE_GROUP "HStrip"),
    (g_key_file_get_boolean kf FEATURE_GROUP "BuiltIn"),
    (g_key_file_get_boolean kf FEATURE_GROUP "Reversible");
    cbv beta iota in Hbits |- *;
    destruct Hbits as (-> & -> & -> & -> & -> & -> & -> & ->);
    repeat split.
Qed.

Lemma g_memdup_array (ids : list Z) :
  g_memdup (g_array_free ids) (Z.of_nat (length ids)) = g_array_free ids.
Proof.
  destruct ids as [| x l]; [reflexivity |].
  cbn [g_array_free g_memdup length]. rewrite Nat2Z.id.
  destruct (Z.of_nat (S (length l)) =? 0) eqn:E; [apply Z.eqb_eq in E; lia |].
  f_equal. apply (firstn_all (x :: l)).
Qed.

(** X3: the array of styli a parsed device reports holds the entries of
    the [Styli] list read as integers, and the count is their number; the
    array is [NULL] exactly when there is no entry, the key missing or its
    list empty. The copy the resolvers make of a parsed device is equal to
    it in every field, the array included. *)
Theorem parsed_device_copy (path : string) (kf : GKeyFile.t)
    (log log' : list diag) (d : WacomDevice)
    (Hrun : libwacom_parse_tablet_keyfile path (Some kf) log = Ok (Some d, log')) :
  let ids :=
    match g_key_file_get_string_list kf DEVICE_GROUP "Styli" with
    | Some l => map (fun s => to_int32 (Libc.strtol s 0)) l
    | None => []
    end in
  libwacom_get_supported_styli d
  = (match ids with [] => None | _ => Some ids end, Z.of_nat (length ids))
  /\ libwacom_copy d = d.
Proof.
  assert (Hstyli : supported_styli d = g_array_free (file_styli kf)
                   /\ num_styli d = Z.of_nat (length (file_styli kf))).
  { unfold libwacom_parse_tablet_keyfile, file_styli in *.
    destruct (g_strcmp0 _ _ =? 0).
    { run_M_in Hrun.
      destruct (g_key_file_get_string_list kf DEVICE_GROUP "Styli");
        inversion Hrun; subst; cbn; rewrite ?length_map; split; reflexivity. }
    destruct (libwacom_matchstr_to_ints _ 0 0 WBUSTYPE_UNKNOWN)
      as [[rc [[v p] b]] | |]; [| discriminate Hrun ..].
    run_M_in Hrun. destruct (rc =? 0).
    { destruct (g_key_file_get_string_list kf DEVICE_GROUP "Styli");
        inversion Hrun; subst; cbn; rewrite ?length_map; split; reflexivity. }
    destruct (bus_to_str b); [| discriminate Hrun ..].
    destruct (g_key_file_get_string_list kf DEVICE_GROUP "Styli");
      inversion Hrun; subst; cbn; rewrite ?length_map; split; reflexivity. }
  destruct Hstyli as [Hs Hn].
  cbv zeta. fold (file_styli kf).
  unfold libwacom_get_supported_styli.
  split; [rewrite Hs, Hn; reflexivity |].
  destruct d. unfold libwacom_copy, g_strdup. cbn in *.
  subst. rewrite g_memdup_array. reflexivity.
Qed.

(** ** Stylus catalog: what the table holds and what is written *)

(** X4: after the catalog is parsed, the lookup of an id gives the record
    built from the last group of the file whose name reads as that id, in
    hexadecimal; it gives nothing for an id no group has, and nothing for
    0, the id of a name that does not read as a number. *)
Theorem stylus_lookup_last_group (kf : GKeyFile.t) (log : list diag)
    (devices : gmap string WacomDevice) :
  exists ht log',
    libwacom_parse_stylus_keyfile ∅ (Some kf) log = Ok (ht, log')
    /\ forall id,
         libwacom_stylus_get_for_id
           {| device_ht := devices; stylus_ht := Some ht |} id
         = if id =? 0 then None
           else stylus_of_group kf <$> last_group_with_id kf id.
Proof.
  destruct (parse_stylus_groups_run kf (g_key_file_get_groups kf) ∅ log)
    as (ht & w & Hrun & Hlook & _).
  exists ht, (log ++ w)%list. split; [exact Hrun |].
  intros id. unfold libwacom_stylus_get_for_id, last_group_with_id. cbn.
  rewrite Hlook. destruct (id =? 0); [apply lookup_empty |].
  destruct (List.find _ _); [reflexivity | apply lookup_empty].
Qed.

(** X5: parsing the catalog writes nothing exactly when every group name
    reads as a nonzero id and no two groups read as the same id; otherwise
    it warns, and still returns. *)
Theorem stylus_catalog_quiet (kf : GKeyFile.t) (log : list diag) :
  exists ht log',
    libwacom_parse_stylus_keyfile ∅ (Some kf) log = Ok (ht, log')
    /\ (log' = log <->
        Forall (fun g => stylus_group_id g <> 0) (g_key_file_get_groups kf)
        /\ NoDup (map stylus_group_id (g_key_file_get_groups kf))).
Proof.
  destruct (parse_stylus_groups_run kf (g_key_file_get_groups kf) ∅ log)
    as (ht & w & Hrun & _ & Hquiet).
  exists ht, (log ++ w)%list. split; [exact Hrun |].
  split.
  - intros Heq. assert (Hw : w = []).
    { apply (app_inv_head log). rewrite app_nil_r. exact Heq. }
    apply Hquiet in Hw. tauto.
  - intros [Hnz Hnd]. assert (Hw : w = []).
    { apply Hquiet. repeat split; auto.
      apply Forall_forall. intros g _. apply lookup_empty. }
    rewrite Hw. apply app_nil_r.
Qed.

(** Every record of the table is the one built from some group. *)
Lemma stylus_table_entries (kf : GKeyFile.t) (log log' : list diag)
    (ht : gmap Z WacomStylus) (id : Z) (s : WacomStylus) :
  libwacom_parse_stylus_keyfile ∅ (Some kf) log = Ok (ht, log') ->
  ht !! id = Some s ->
  exists group,
    group ∈ g_key_file_get_groups kf
    /\ stylus_group_id group = id /\ id <> 0
    /\ s = stylus_of_group kf group.
Proof.
  intros Hrun Hs.
  destruct (parse_stylus_groups_run kf (g_key_file_get_groups kf) ∅ log)
    as (ht0 & w & Hrun0 & Hlook & _).
  unfold libwacom_parse_stylus_keyfile in Hrun. rewrite Hrun0 in Hrun.
  inversion Hrun; subst ht0. rewrite Hlook in Hs.
  destruct (id =? 0) eqn:Eid; [rewrite lookup_empty in Hs; discriminate |].
  apply Z.eqb_neq in Eid.
  destruct (List.find _ _) as [g |] eqn:Hfind;
    [| rewrite lookup_empty in Hs; discriminate].
  apply List.find_some in Hfind as [Hin Hid].
  apply Z.eqb_eq in Hid. inversion Hs; subst s.
  exists g. repeat split; auto.
  apply list_elem_of_In in Hin. apply elem_of_reverse in Hin.
  rewrite reverse_involutive in Hin. exact Hin.
Qed.

Lemma get_integer_err_zero (kf : GKeyFile.t) (group key : string) (b : Z) :
  g_key_file_get_integer_err kf group key = (b, true) -> b = 0.
Proof.
  unfold g_key_file_get_integer_err.
  destruct (g_key_file_get_string kf group key); [| congruence].
  destruct (_ || _); [congruence |].
  destruct (_ || _); congruence.
Qed.

(** X6: for a record of the parsed catalog, the button count the accessor
    returns is 0 for an eraser; otherwise it is the [Buttons] integer of
    the group it was built from, and 2 when that integer is missing, does
    not parse or is -1. *)
Theorem catalog_stylus_num_buttons (kf : GKeyFile.t) (log log' : list diag)
    (ht : gmap Z WacomStylus) (id : Z) (s : WacomStylus) (log0 : list diag)
    (Hrun : libwacom_parse_stylus_keyfile ∅ (Some kf) log = Ok (ht, log'))
    (Hs : ht !! id = Some s) :
  exists group n log1,
    group ∈ g_key_file_get_groups kf
    /\ stylus_group_id group = id
    /\ libwacom_stylus_get_num_buttons s log0 = Ok (n, log1)
    /\ n = (if g_key_file_get_boolean kf group "IsEraser" then 0
            else
              let '(b, error) := g_key_file_get_integer_err kf group "Buttons" in
              if error || (b =? -1) then 2 else b).
Proof.
  destruct (stylus_table_entries _ _ _ _ _ _ Hrun Hs)
    as (g & Hin & Hid & _ & ->).
  exists g. unfold libwacom_stylus_get_num_buttons.
  cbn [stylus_num_buttons stylus_of_group].
  destruct (g_key_file_get_boolean kf g "IsEraser").
  { do 2 eexists. repeat split; eauto. }
  destruct (g_key_file_get_integer_err kf g "Buttons") as [b err] eqn:Hb.
  destruct err.
  - apply get_integer_err_zero in Hb. subst b.
    do 2 eexists. repeat split; eauto.
  - rewrite andb_false_r. cbn [orb].
    destruct (b =? -1); do 2 eexists; repeat split; eauto.
Qed.

(** X7: for a record of the parsed catalog, the type the accessor returns
    is the one the [Type] field of its group names, and [General] when the
    field is missing or is none of the five names: never [Unknown]. *)
Theorem catalog_stylus_type (kf : GKeyFile.t) (log log' : list diag)
    (ht : gmap Z WacomStylus) (id : Z) (s : WacomStylus) (log0 : list diag)
    (Hrun : libwacom_parse_stylus_keyfile ∅ (Some kf) log = Ok (ht, log'))
    (Hs : ht !! id = Some s) :
  exists group t log1,
    group ∈ g_key_file_get_groups kf
    /\ stylus_group_id group = id
    /\ libwacom_stylus_get_type s log0 = Ok (t, log1)
    /\ t <> WSTYLUS_UNKNOWN
    /\ (t = WSTYLUS_INKING <->
        g_key_file_get_string kf group "Type" = Some "Inking")
    /\ (t = WSTYLUS_AIRBRUSH <->
        g_key_file_get_string kf group "Type" = Some "Airbrush")
    /\ (t = WSTYLUS_CLASSIC <->
        g_key_file_get_string kf group "Type" = Some "Classic")
    /\ (t = WSTYLUS_MARKER <->
        g_key_file_get_string kf group "Type" = Some "Marker").
Proof.
  destruct (stylus_table_entries _ _ _ _ _ _ Hrun Hs)
    as (g & Hin & Hid & _ & ->).
  exists g. unfold libwacom_stylus_get_type.
  cbn [stylus_type stylus_of_group].
  destruct (g_key_file_get_string kf g "Type") as [ty |]; cbn [type_from_str].
  - destruct (String.eqb_spec ty "General") as [-> | H1];
      [do 2 eexists; repeat split; eauto; discriminate |].
    destruct (String.eqb_spec ty "Inking") as [-> | H2];
      [do 2 eexists; repeat split; eauto; discriminate |].
    destruct (String.eqb_spec ty "Airbrush") as [-> | H3];
      [do 2 eexists; repeat split; eauto; discriminate |].
    destruct (String.eqb_spec ty "Classic") as [-> | H4];
      [do 2 eexists; repeat split; eauto; discriminate |].
    destruct (String.eqb_spec ty "Marker") as [-> | H5];
      [do 2 eexists; repeat split; eauto; discriminate |].
    do 2 eexists. repeat split; eauto; try discriminate; congruence.
  - do 2 eexists. repeat split; eauto; discriminate.
Qed.

(** ** Match keys: printing and reading back *)

Lemma digit_val_hex_char (d : Z) :
  0 <= d < 16 ->
  Libc.digit_val (Libc.hex_char d) = Some d
  /\ Libc.is_digit 16 (Libc.hex_char d) = true.
Proof.
  intros Hd.
  assert (H : d = 0 \/ d = 1 \/ d = 2 \/ d = 3 \/ d = 4 \/ d = 5 \/ d = 6
              \/ d = 7 \/ d = 8 \/ d = 9 \/ d = 10 \/ d = 11 \/ d = 12
              \/ d = 13 \/ d = 14 \/ d = 15) by lia.
  repeat (destruct H as [-> | H]; [split; reflexivity |]).
  subst d. split; reflexivity.
Qed.

Lemma number_value_app (base : Z) (s1 s2 : string) :
  forall a,
    number_value base (s1 +:+ s2) a
    = number_value base s2 (number_value base s1 a).
Proof.
  induction s1 as [| c s1 IH]; intros a; [reflexivity |].
  rewrite append_cons. cbn [number_value]. apply IH.
Qed.

Lemma all_chars_app (f : ascii -> bool) (s1 s2 : string) :
  all_chars f (s1 +:+ s2) = all_chars f s1 && all_chars f s2.
Proof.
  induction s1 as [| c s1 IH]; [reflexivity |].
  rewrite append_cons. cbn [all_chars]. rewrite IH, andb_assoc. reflexivity.
Qed.

(** [hex_digits] writes the digits of a number that its fuel can hold. *)
Lemma hex_digits_spec (fuel : nat) :
  forall n acc,
    (0 < fuel)%nat -> 0 <= n < 16 ^ Z.of_nat fuel ->
    exists ds,
      Libc.hex_digits fuel n acc = ds +:+ acc
      /\ ds <> ""
      /\ all_chars (Libc.is_digit 16) ds = true
      /\ forall a,
           number_value 16 ds a = a * 16 ^ Z.of_nat (String.length ds) + n.
Proof.
  induction fuel as [| f IH]; intros n acc Hf Hn; [lia |].
  cbn [Libc.hex_digits].
  assert (Hmod : 0 <= n mod 16 < 16) by (apply Z.mod_pos_bound; lia).
  destruct (digit_val_hex_char _ Hmod) as [Hval Hdig].
  destruct (n / 16 =? 0) eqn:Hq.
  - apply Z.eqb_eq in Hq.
    exists (String (Libc.hex_char (n mod 16)) "").
    split; [reflexivity |]. split; [discriminate |].
    split; [cbn; rewrite Hdig; reflexivity |].
    intros a. cbn. rewrite Hval.
    pose proof (Z.div_mod n 16). lia.
  - apply Z.eqb_neq in Hq.
    assert (Hdiv : 0 <= n / 16 < 16 ^ Z.of_nat f).
    { split; [apply Z.div_pos; lia |].
      apply Z.div_lt_upper_bound; [lia |].
      rewrite Nat2Z.inj_succ, Z.pow_succ_r in Hn by lia. lia. }
    assert (Hf' : (0 < f)%nat).
    { destruct f; [| lia]. cbn in Hdiv. lia. }
    destruct (IH (n / 16) (String (Libc.hex_char (n mod 16)) acc) Hf' Hdiv)
      as (ds & Hrun & Hne & Hall & Hnum).
    exists (ds +:+ String (Libc.hex_char (n mod 16)) "").
    split; [rewrite Hrun, append_assoc; reflexivity |].
    split.
    { destruct ds; [congruence | discriminate]. }
    split.
    { rewrite all_chars_app, Hall. cbn. rewrite Hdig. reflexivity. }
    intros a. rewrite number_value_app, Hnum. cbn [number_value].
    rewrite Hval, length_append. cbn [String.length].
    rewrite Nat.add_1_r, Nat2Z.inj_succ, Z.pow_succ_r by lia.
    pose proof (Z.div_mod n 16). lia.
Qed.

Lemma to_uint32_range (n : Z) : 0 <= to_uint32 n < 2 ^ 32.
Proof. unfold to_uint32. apply Z.mod_pos_bound. lia. Qed.

Lemma to_uint32_idem (n : Z) : to_uint32 (to_uint32 n) = to_uint32 n.
Proof. unfold to_uint32. apply Z.mod_mod. lia. Qed.

Lemma fmt_x_hex_number (v : Z) :
  hex_number ("0x" +:+ Libc.fmt_x v) (to_uint32 v).
Proof.
  unfold Libc.fmt_x.
  destruct (hex_digits_spec 8 (to_uint32 v) "") as (ds & Hrun & Hne & Hall & Hnum).
  { lia. }
  { pose proof (to_uint32_range v). change (16 ^ Z.of_nat 8) with (2 ^ 32). lia. }
  rewrite Hrun, append_nil_r.
  exists "", "0x", ds. split; [reflexivity |].
  split; [auto |]. split; [auto |]. split; [exact Hne |].
  split; [exact Hall |].
  rewrite Hnum. cbn [String.eqb]. unfold Libc.strtoul_value.
  pose proof (to_uint32_range v) as Hr.
  destruct (ULONG_MAX <? 0 * 16 ^ Z.of_nat (String.length ds) + to_uint32 v) eqn:E.
  { apply Z.ltb_lt in E. unfold ULONG_MAX in E. lia. }
  rewrite Z.mul_0_l, Z.add_0_l, to_uint32_idem. reflexivity.
Qed.

(** A canonical key matches the pattern of the match key parser fully. *)
Lemma printf_match_matches_fully (busname : string) (v p : Z) :
  is_bus_name busname ->
  matches_fully (printf_match busname v p) busname (to_uint32 v) (to_uint32 p).
Proof.
  intros Hbus.
  exists ("0x" +:+ Libc.fmt_x v), ("0x" +:+ Libc.fmt_x p).
  split; [reflexivity |].
  split; [exact Hbus |]. split; apply fmt_x_hex_number.
Qed.

Lemma bus_to_str_is_bus_name (b : WacomBusType) (busname : string) :
  bus_to_str b = Ok busname ->
  is_bus_name busname
  /\ bus_from_str (Some busname)
     = Ok (match b with
           | WBUSTYPE_SERIAL => WBUSTYPE_BLUETOOTH
           | _ => b
           end).
Proof.
  destruct b; cbn; intros H; inversion H; subst;
    (split; [repeat split; [discriminate | cbn; lia] | reflexivity]).
Qed.

(** X8: the canonical key printed for a bus and two ids is read back by
    the match key parser into the ids, as 32-bit patterns, and into the
    bus, except that the key of a serial device reads as Bluetooth. *)
Theorem match_key_print_then_parse (b : WacomBusType) (busname : string)
    (v p v0 p0 : Z) (b0 : WacomBusType)
    (Hbus : bus_to_str b = Ok busname) :
  libwacom_matchstr_to_ints (Some (printf_match busname v p)) v0 p0 b0
  = Ok (1, (to_uint32 v, to_uint32 p,
            match b with
            | WBUSTYPE_SERIAL => WBUSTYPE_BLUETOOTH
            | _ => b
            end)).
Proof.
  destruct (bus_to_str_is_bus_name _ _ Hbus) as [Hname Hfrom].
  unfold libwacom_matchstr_to_ints.
  rewrite (sscanf_full _ _ _ _ (printf_match_matches_fully busname v p Hname)).
  cbn [Libc.rc_of stored_busstr stored_vendor stored_product Z.eqb negb Pos.eqb].
  rewrite Hfrom. reflexivity.
Qed.

(** Equal canonical keys have equal bus names and ids. *)
Lemma printf_match_inj (b b' : WacomBusType) (busname busname' : string)
    (v p v' p' : Z) :
  bus_to_str b = Ok busname -> bus_to_str b' = Ok busname' ->
  printf_match busname v p = printf_match busname' v' p' ->
  busname = busname'
  /\ to_uint32 v = to_uint32 v' /\ to_uint32 p = to_uint32 p'
  /\ (b = WBUSTYPE_USB <-> b' = WBUSTYPE_USB).
Proof.
  intros Hbus Hbus' Hkey.
  destruct (bus_to_str_is_bus_name _ _ Hbus) as [Hname _].
  destruct (bus_to_str_is_bus_name _ _ Hbus') as [Hname' _].
  pose proof (sscanf_full _ _ _ _ (printf_match_matches_fully busname v p Hname))
    as Hs.
  pose proof (sscanf_full _ _ _ _ (printf_match_matches_fully busname' v' p' Hname'))
    as Hs'.
  rewrite Hkey, Hs' in Hs. inversion Hs; subst busname'.
  repeat split; auto;
    destruct b, b'; cbn in Hbus, Hbus'; congruence.
Qed.

(** X9: two canonical keys are the same string only for the same bus
    name and the same ids, as 32-bit patterns: distinct devices never
    share a key, a serial and a Bluetooth device with the same ids
    apart. *)
Theorem match_key_injective (b b' : WacomBusType) (busname busname' : string)
    (v p v' p' : Z)
    (Hbus : bus_to_str b = Ok busname)
    (Hbus' : bus_to_str b' = Ok busname')
    (Hkey : printf_match busname v p = printf_match busname' v' p') :
  busname = busname'
  /\ to_uint32 v = to_uint32 v' /\ to_uint32 p = to_uint32 p'
  /\ (b = WBUSTYPE_USB <-> b' = WBUSTYPE_USB).
Proof. exact (printf_match_inj b b' busname busname' v p v' p' Hbus Hbus' Hkey). Qed.

(** ** Descriptor parser: every case of the match key *)

Lemma g_strcmp0_eq_iff (a : option string) (b : string) :
  (g_strcmp0 a (Some b) =? 0) = true <-> a = Some b.
Proof.
  destruct a as [a |]; cbn; [| split; discriminate].
  split.
  - destruct (String.compare a b) eqn:E; try discriminate.
    apply String.compare_eq_iff in E. congruence.
  - intros H. inversion H; subst. apply g_strcmp0_Some_eq.
Qed.

Lemma scanned_number_range (n : string) (v : Z) :
  scanned_number n v -> 0 <= v < 2 ^ 32.
Proof.
  intros (sg & pre & ds & _ & _ & _ & _ & ->). apply to_uint32_range.
Qed.

Lemma sscanf_range (m busstr : string) (v p : Z) :
  Libc.sscanf_bus_x_x m = Libc.Scan3 busstr v p ->
  0 <= v < 2 ^ 32 /\ 0 <= p < 2 ^ 32.
Proof.
  intros H. apply sscanf_inv in H
    as (ws1 & nv & ws2 & np & rest & _ & _ & _ & Hv & _ & Hp & _).
  split; eapply scanned_number_range; eassumption.
Qed.

(** What the parser does with a key file, by its [DeviceMatch]. *)
Lemma parse_tablet_cases (path : string) (kf : GKeyFile.t) (log : list diag) :
  match g_key_file_get_string kf DEVICE_GROUP "DeviceMatch" with
  | None => libwacom_parse_tablet_keyfile path (Some kf) log = Fault
  | Some m =>
      if String.eqb m GENERIC_DEVICE_MATCH
      then exists d,
             libwacom_parse_tablet_keyfile path (Some kf) log = Ok (Some d, log)
             /\ match_ d = Some m /\ key_of_device m d
      else
        match Libc.sscanf_bus_x_x m with
        | Libc.Scan3 busstr v p =>
            match bus_from_str (Some busstr) with
            | Ok WBUSTYPE_UNKNOWN =>
                libwacom_parse_tablet_keyfile path (Some kf) log = Abort
            | _ =>
                exists d k,
                  libwacom_parse_tablet_keyfile path (Some kf) log
                  = Ok (Some d, log)
                  /\ match_ d = Some k /\ key_of_device k d
                  /\ vendor_id d = v /\ product_id d = p
                  /\ bus_from_str (Some busstr) = Ok (bus d)
            end
        | _ =>
            exists d,
              libwacom_parse_tablet_keyfile path (Some kf) log
              = Ok (Some d, (log ++ [DBG_match_failed path])%list)
              /\ match_ d = None /\ bus d = WBUSTYPE_UNKNOWN
        end
  end.
Proof.
  unfold libwacom_parse_tablet_keyfile.
  destruct (g_key_file_get_string kf DEVICE_GROUP "DeviceMatch") as [m |] eqn:Hm;
    [| reflexivity].
  destruct (String.eqb_spec m GENERIC_DEVICE_MATCH) as [-> | Hne].
  - rewrite g_strcmp0_Some_eq. run_M.
    destruct (g_key_file_get_string_list kf DEVICE_GROUP "Styli");
      (eexists; split; [reflexivity |]; split; [reflexivity |];
       left; repeat split).
  - rewrite (g_strcmp0_Some_neq _ _ Hne). unfold libwacom_matchstr_to_ints.
    destruct (Libc.sscanf_bus_x_x m) as [| | b1 | b2 v2 | busstr v p] eqn:Hs;
      cbn [Libc.rc_of stored_busstr stored_vendor stored_product
           Z.eqb negb Pos.eqb].
    1-4: (run_M;
          destruct (g_key_file_get_string_list kf DEVICE_GROUP "Styli");
          eexists; repeat split; reflexivity).
    destruct (sscanf_range _ _ _ _ Hs) as [Hv Hp].
    destruct (String.eqb busstr "usb") eqn:E1;
      [| destruct (String.eqb busstr "serial") eqn:E2;
         [| destruct (String.eqb busstr "bluetooth") eqn:E3]];
      cbn [bus_from_str]; rewrite ?E1, ?E2, ?E3; run_M;
      try reflexivity;
      destruct (g_key_file_get_string_list kf DEVICE_GROUP "Styli");
      (do 2 eexists; split; [reflexivity |]; split; [reflexivity |];
       split; [right; eexists; repeat split; try reflexivity; cbn; lia |];
       repeat split).
Qed.

(** The parser on a key file returns a device with a match key, or a
    device without one, or does not return. *)
Lemma parsed_tablet_key (E : environment) (d_name : string) (d : WacomDevice)
    (k : string) :
  parsed_tablet E d_name = Some d -> match_ d = Some k -> key_of_device k d.
Proof.
  unfold parsed_tablet.
  destruct (g_key_file_load_from_file E _) as [kf |]; [| discriminate].
  pose proof (parse_tablet_cases (g_build_filename (DATADIR E) d_name) kf [])
    as Hc.
  destruct (g_key_file_get_string kf DEVICE_GROUP "DeviceMatch") as [m |].
  2: { rewrite Hc. discriminate. }
  destruct (String.eqb m GENERIC_DEVICE_MATCH).
  { destruct Hc as (d0 & -> & Hk & Hkey). intros H1 H2.
    inversion H1; subst d0. congruence. }
  destruct (Libc.sscanf_bus_x_x m) as [| | b1 | b2 v2 | busstr v p].
  1-4: (destruct Hc as (d0 & -> & Hk & _); intros H1 H2; inversion H1;
        subst d0; congruence).
  destruct (bus_from_str (Some busstr)) as [[] | |];
    try (rewrite Hc; discriminate);
    try (destruct Hc as (d0 & k0 & -> & Hk & Hkey & _); intros H1 H2;
         inversion H1; subst d0; congruence).
  all: cbn in Hc; discriminate.
Qed.

(** A parsed device with a known bus has the canonical key of its bus and
    ids. *)
Lemma parsed_tablet_known_bus (E : environment) (d_name : string)
    (d : WacomDevice) :
  parsed_tablet E d_name = Some d -> bus d <> WBUSTYPE_UNKNOWN ->
  exists k, match_ d = Some k /\ key_of_device k d.
Proof.
  unfold parsed_tablet.
  destruct (g_key_file_load_from_file E _) as [kf |]; [| discriminate].
  pose proof (parse_tablet_cases (g_build_filename (DATADIR E) d_name) kf [])
    as Hc.
  destruct (g_key_file_get_string kf DEVICE_GROUP "DeviceMatch") as [m |].
  2: { rewrite Hc. discriminate. }
  destruct (String.eqb m GENERIC_DEVICE_MATCH).
  { destruct Hc as (d0 & -> & Hk & Hkey). intros H1 H2.
    inversion H1; subst d0. eauto. }
  destruct (Libc.sscanf_bus_x_x m) as [| | b1 | b2 v2 | busstr v p].
  1-4: (destruct Hc as (d0 & -> & Hk & Hb); intros H1 H2; inversion H1;
        subst d0; congruence).
  destruct (bus_from_str (Some busstr)) as [[] | |];
    try (rewrite Hc; discriminate);
    try (destruct Hc as (d0 & k0 & -> & Hk & Hkey & _); intros H1 H2;
         inversion H1; subst d0; eauto).
  all: cbn in Hc; discriminate.
Qed.

(** ** Database builder: when the load returns, and what it holds *)

Lemma load_tablet_returns (E : environment) (d_name : string)
    (ht : gmap string WacomDevice) (log : list diag) :
  (exists r, load_tablet E d_name ht log = Ok r) <-> usable_tablet E d_name.
Proof.
  unfold load_tablet, usable_tablet, mbind, M_bind.
  destruct (g_key_file_load_from_file E _) as [kf |].
  2: { split; [auto | intros _; eexists; reflexivity]. }
  pose proof (parse_tablet_cases (g_build_filename (DATADIR E) d_name) kf log)
    as Hc.
  destruct (g_key_file_get_string kf DEVICE_GROUP "DeviceMatch") as [m |].
  2: { rewrite Hc. split; [intros [r Hr]; discriminate Hr |].
       intros (m & Hm & _). discriminate Hm. }
  destruct (String.eqb_spec m GENERIC_DEVICE_MATCH) as [Heq | Hne].
  { destruct Hc as (d & -> & Hk & _). rewrite Hk. cbn.
    split; [intros _; eauto | intros _; eexists; reflexivity]. }
  destruct (Libc.sscanf_bus_x_x m) as [| | b1 | b2 v2 | busstr v p] eqn:Hs.
  1-4: (destruct Hc as (d & -> & Hk & _); rewrite Hk; cbn;
        split; [intros [r Hr]; discriminate Hr |];
        intros (m' & Hm' & [-> | (? & ? & ? & Hs' & _)]);
        inversion Hm'; subst; try apply sscanf_prefix in Hs'; congruence).
  destruct (bus_from_str (Some busstr)) as [b | |] eqn:Hb;
    [| cbn in Hb; discriminate ..].
  destruct b.
  { rewrite Hc. split; [intros [r Hr]; discriminate Hr |].
    intros (m' & Hm' & [-> | (bs & ? & ? & Hs' & Hb')]);
      inversion Hm'; subst; [congruence |].
    apply sscanf_prefix in Hs'.
    rewrite Hs in Hs'. inversion Hs'; subst. congruence. }
  all: destruct Hc as (d & k & -> & Hk & _); rewrite Hk; cbn;
    (split; [intros _ | intros _; eexists; reflexivity]);
    exists m; split; [reflexivity |]; right;
    exists busstr, v, p; split; [apply sscanf_inv; exact Hs |]; intros Hu;
    change (bus_from_str (Some busstr) = Ok WBUSTYPE_UNKNOWN) in Hu; congruence.
Qed.

Lemma load_in_order_returns (E : environment) (names : list string) :
  forall (ht : gmap string WacomDevice) (log : list diag),
    (exists r, load_in_order E names ht log = Ok r)
    <-> Forall (usable_tablet E) names.
Proof.
  induction names as [| name names IH]; intros ht log.
  - split; [constructor | intros _; eexists; reflexivity].
  - cbn [load_in_order]. unfold mbind, M_bind. rewrite Forall_cons.
    rewrite <- (load_tablet_returns E name ht log).
    destruct (load_tablet E name ht log) as [[ht1 log1] | |].
    + rewrite IH. split; [intros H; split; [eauto | exact H] | tauto].
    + split; [intros [r Hr]; discriminate Hr | intros [[r Hr] _]; discriminate Hr].
    + split; [intros [r Hr]; discriminate Hr | intros [[r Hr] _]; discriminate Hr].
Qed.

Lemma parse_stylus_keyfile_returns (ht : gmap Z WacomStylus)
    (file : option GKeyFile.t) (log : list diag) :
  (exists r, libwacom_parse_stylus_keyfile ht file log = Ok r) <-> is_Some file.
Proof.
  destruct file as [kf |]; cbn.
  - destruct (parse_stylus_groups_run kf (g_key_file_get_groups kf) ht log)
      as (ht' & w & Hrun & _).
    rewrite Hrun. split; [eauto | intros _; eexists; reflexivity].
  - split; [intros [r Hr]; discriminate Hr | intros [? H]; discriminate H].
Qed.

(** The device table of a load that returns. *)
Lemma database_new_lookup (E : environment) (log log' : list diag)
    (db : WacomDeviceDatabase) :
  libwacom_database_new E log = Ok (db, log') ->
  forall k,
    device_ht db !! k
    = List.find (has_match_key k) (omap (parsed_tablet E) (scandir E).2).
Proof.
  unfold libwacom_database_new. intros Hrun.
  pose proof (scandir_count E) as Hcount.
  destruct (scandir E) as [n fs]. cbn [fst snd] in *.
  destruct (n <=? 0) eqn:Hn.
  - apply Z.leb_le in Hn.
    assert (Hfs : fs = []).
    { destruct Hcount as [[_ ?] | Hlen]; [assumption |].
      destruct fs; [reflexivity | cbn in Hlen; lia]. }
    subst fs. inversion Hrun; subst. intros k. apply lookup_empty.
  - apply Z.leb_gt in Hn.
    destruct Hcount as [[? _] | Hlen]; [lia |].
    rewrite Hlen, Nat2Z.id in Hrun. unfold mbind, M_bind in Hrun.
    destruct (load_tablets E fs (length fs) ∅ log) as [[ht log1] | |] eqn:Hload;
      try discriminate Hrun.
    destruct (libwacom_parse_stylus_keyfile _ _ log1) as [[sht log2] | |];
      try discriminate Hrun.
    inversion Hrun; subst. cbn [device_ht].
    apply (load_tablets_spec _ _ _ _ _ Hload).
Qed.

Lemma find_has_match_key (k : string) (l : list WacomDevice) (d : WacomDevice) :
  List.find (has_match_key k) l = Some d -> d ∈ l /\ match_ d = Some k.
Proof.
  intros H. apply List.find_some in H as [Hin Hk].
  split; [apply list_elem_of_In; exact Hin |].
  unfold has_match_key in Hk. apply bool_decide_eq_true in Hk. exact Hk.
Qed.

(** Every entry of the table of a load that returns. *)
Lemma database_new_entries (E : environment) (log log' : list diag)
    (db : WacomDeviceDatabase) (k : string) (d : WacomDevice) :
  libwacom_database_new E log = Ok (db, log') ->
  device_ht db !! k = Some d ->
  match_ d = Some k
  /\ key_of_device k d
  /\ exists d_name, d_name ∈ (scandir E).2 /\ parsed_tablet E d_name = Some d.
Proof.
  intros Hrun Hk. rewrite (database_new_lookup _ _ _ _ Hrun) in Hk.
  apply find_has_match_key in Hk as [Hin Hkey].
  apply list_elem_of_omap in Hin as (name & Hname & Hparsed).
  split; [exact Hkey |]. split; [| eauto].
  eapply parsed_tablet_key; eassumption.
Qed.

(** X10: the load returns a database exactly when the scan selects no
    file, or when every selected file either does not load as a key file
    or holds a usable [DeviceMatch] (the generic sentinel, or three fields
    with a known bus name) and the stylus catalog loads; in every other
    case the process stops inside the load. *)
Theorem database_new_returns (E : environment) (log : list diag) :
  (exists db log', libwacom_database_new E log = Ok (db, log'))
  <-> (scandir E).1 <= 0
      \/ (Forall (usable_tablet E) (scandir E).2
          /\ is_Some (g_key_file_load_from_file E
                        (g_build_filename (DATADIR E) (STYLUS_DATA_FILE E)))).
Proof.
  unfold libwacom_database_new.
  pose proof (scandir_count E) as Hcount.
  destruct (scandir E) as [n fs]. cbn [fst snd] in *.
  destruct (n <=? 0) eqn:Hn.
  - apply Z.leb_le in Hn. split; [auto | intros _; do 2 eexists; reflexivity].
  - apply Z.leb_gt in Hn.
    destruct Hcount as [[? _] | Hlen]; [lia |].
    rewrite Hlen, Nat2Z.id. unfold mbind, M_bind.
    pose proof (load_tablets_reverse E fs (length fs) ∅ log (le_n _)) as Hrev.
    rewrite firstn_all in Hrev. rewrite Hrev.
    pose proof (load_in_order_returns E (reverse fs) ∅ log) as Hret.
    rewrite Forall_reverse in Hret.
    destruct (load_in_order E (reverse fs) ∅ log) as [[ht log1] | |].
    + pose proof (parse_stylus_keyfile_returns ∅
                    (g_key_file_load_from_file E
                       (g_build_filename (DATADIR E) (STYLUS_DATA_FILE E)))
                    log1) as Hsty.
      destruct (libwacom_parse_stylus_keyfile _ _ log1) as [[sht log2] | |].
      * split; [intros _; right | intros _; do 2 eexists; reflexivity].
        split; [apply Hret; eauto | apply Hsty; eauto].
      * split; [intros (? & ? & H); discriminate H |].
        intros [? | [_ Hs]]; [lia |]. apply Hsty in Hs as [r Hr]. discriminate Hr.
      * split; [intros (? & ? & H); discriminate H |].
        intros [? | [_ Hs]]; [lia |]. apply Hsty in Hs as [r Hr]. discriminate Hr.
    + split; [intros (? & ? & H); discriminate H |].
      intros [? | [Hu _]]; [lia |]. apply Hret in Hu as [r Hr]. discriminate Hr.
    + split; [intros (? & ? & H); discriminate H |].
      intros [? | [Hu _]]; [lia |]. apply Hret in Hu as [r Hr]. discriminate Hr.
Qed.

(** A [DeviceMatch] whose vendor id is a prefix without digits is read
    with the id 0: the file is loaded, under the canonical key. *)
Example prefix_without_digits_loads :
  exists db,
    libwacom_database_new
      (datadir_of [("odd.tablet", tablet_file "Odd" "usb:0x:1");
                   ("libwacom.stylus", stylus_file)]) [] = Ok (db, [])
    /\ is_Some (libwacom_get_device db "usb:0x0:0x1").
Proof. eexists. split; [vm_compute; reflexivity |]. vm_compute. eauto. Qed.

Lemma filter_none {A : Type} (P : A -> Prop) `{forall x, Decision (P x)}
    (l : list A) :
  Forall (fun x => ~ P x) l -> filter P l = [].
Proof.
  induction 1 as [| x l Hx _ IH]; [reflexivity |].
  rewrite filter_cons_False by exact Hx. exact IH.
Qed.

(** X11: when the data directory cannot be read, or holds no name the
    filter selects, the load returns at once, writing nothing: the device
    table is empty and the stylus table is never created, so that every
    lookup of a device or of a stylus finds nothing, whatever the stylus
    catalog holds. *)
Theorem database_new_nothing_selected (E : environment) (log : list diag)
    (Hdir : forall names,
        readdir E = Some names -> Forall (fun n => scandir_filter n = false) names) :
  exists db,
    libwacom_database_new E log = Ok (db, log)
    /\ stylus_ht db = None
    /\ (forall k, libwacom_get_device db k = None)
    /\ (forall id, libwacom_stylus_get_for_id db id = None).
Proof.
  assert (Hscan : (scandir E).1 <= 0).
  { unfold scandir. destruct (readdir E) as [names |]; cbn; [| lia].
    rewrite filter_none; [cbn; lia |].
    eapply Forall_impl; [apply (Hdir names eq_refl) |].
    cbn. intros n Hn. rewrite Hn. auto. }
  unfold libwacom_database_new.
  destruct (scandir E) as [n fs]. cbn [fst] in Hscan.
  apply Z.leb_le in Hscan. rewrite Hscan.
  eexists. split; [reflexivity |]. split; [reflexivity |].
  split; [intros k; apply lookup_empty | reflexivity].
Qed.

(** X12: in the table of a load that returns every device is stored under
    its own match key, and that key is the generic sentinel, on a device
    without ids and bus, or the canonical key of the bus and ids of the
    device, which are 32-bit values. Each device is the one the parser
    makes of a selected file. *)
Theorem device_table_keys (E : environment) (log log' : list diag)
    (db : WacomDeviceDatabase) (k : string) (d : WacomDevice)
    (Hrun : libwacom_database_new E log = Ok (db, log'))
    (Hk : libwacom_get_device db k = Some d) :
  libwacom_get_match d = Some k
  /\ key_of_device k d
  /\ exists d_name, d_name ∈ (scandir E).2 /\ parsed_tablet E d_name = Some d.
Proof. exact (database_new_entries _ _ _ _ _ _ Hrun Hk). Qed.

(** ** Resolver: by USB id, after a load *)

Lemma to_int32_to_uint32 (n : Z) : to_int32 (to_uint32 n) = to_int32 n.
Proof.
  unfold to_uint32, to_int32. rewrite Zplus_mod_idemp_l. reflexivity.
Qed.

Lemma printf_match_not_generic (b : WacomBusType) (busname : string) (v p : Z) :
  bus_to_str b = Ok busname ->
  printf_match busname v p <> GENERIC_DEVICE_MATCH.
Proof.
  intros Hbus Heq. unfold printf_match in Heq.
  destruct b; cbn in Hbus; inversion Hbus; subst busname;
    rewrite !append_cons in Heq; discriminate Heq.
Qed.

(** The device a key of a USB id leads to, in a loaded table. *)
Lemma usb_key_device (E : environment) (log log' : list diag)
    (db : WacomDeviceDatabase) (v p : Z) (d : WacomDevice) :
  libwacom_database_new E log = Ok (db, log') ->
  device_ht db !! printf_match "usb" v p = Some d ->
  bus d = WBUSTYPE_USB
  /\ vendor_id d = to_uint32 v /\ product_id d = to_uint32 p
  /\ match_ d = Some (printf_match "usb" v p).
Proof.
  intros Hrun Hk.
  destruct (database_new_entries _ _ _ _ _ _ Hrun Hk) as (Hm & Hkey & _).
  destruct Hkey as [(Hg & _) | (n & Hn & Heq & Hv & Hp)].
  { exfalso. exact (printf_match_not_generic WBUSTYPE_USB "usb" v p eq_refl Hg). }
  destruct (printf_match_inj WBUSTYPE_USB (bus d) "usb" n v p _ _ eq_refl Hn Heq)
    as (_ & Hv' & Hp' & Hb).
  unfold to_uint32 in Hv', Hp' |- *.
  rewrite (Z.mod_small (vendor_id d)) in Hv' by lia.
  rewrite (Z.mod_small (product_id d)) in Hp' by lia.
  repeat split; auto. apply Hb. reflexivity.
Qed.

(** X13: on the database of a load that returns, the lookup by USB id
    always returns. A device it finds is on the USB bus and has the vendor
    and product id that were asked for, and the caller's error record is
    left alone; it is never the generic fallback entry. When it finds
    none it sets [WERROR_UNKNOWN_MODEL]. *)
Theorem usbid_after_load (E : environment) (log log' : list diag)
    (db : WacomDeviceDatabase) (v p : Z) (e : option WacomError)
    (Hrun : libwacom_database_new E log = Ok (db, log')) :
  exists r,
    libwacom_new_from_usbid (Some db) v p e = Ok r
    /\ match r.1 with
       | Some dev =>
           r.2 = e
           /\ libwacom_get_bustype dev = WBUSTYPE_USB
           /\ libwacom_get_vendor_id dev = to_int32 v
           /\ libwacom_get_product_id dev = to_int32 p
           /\ libwacom_get_match dev = Some (printf_match "usb" v p)
           /\ libwacom_get_match dev <> Some GENERIC_DEVICE_MATCH
       | None =>
           r.2 = libwacom_error_set e WERROR_UNKNOWN_MODEL None
           /\ libwacom_get_device db (printf_match "usb" v p) = None
       end.
Proof.
  unfold libwacom_new_from_usbid, libwacom_new. cbn [bus_to_str].
  unfold mbind, outcome_bind, libwacom_get_device.
  destruct (device_ht db !! printf_match "usb" v p) as [d |] eqn:Hk.
  - eexists. split; [reflexivity |]. cbn [fst snd].
    destruct (usb_key_device _ _ _ _ _ _ _ Hrun Hk) as (Hb & Hv & Hp & Hm).
    unfold libwacom_get_bustype, libwacom_get_vendor_id,
      libwacom_get_product_id, libwacom_get_match. cbn.
    rewrite Hv, Hp, !to_int32_to_uint32. unfold g_strdup. rewrite Hm.
    repeat split; auto;
      try (intros Hg; inversion Hg as [Hg'];
           exact (printf_match_not_generic WBUSTYPE_USB "usb" v p eq_refl Hg')).
  - eexists. split; [reflexivity |]. cbn. auto.
Qed.

(** X14: on the database of a load that returns, every selected file that
    the parser turns into a USB device is reachable by the ids of that
    device: the lookup by USB id returns a device with the same match key,
    bus and ids, a deep copy of the entry the table holds under the key of
    those ids (the device of that file, or of a file that replaced it). *)
Theorem usb_descriptor_reachable (E : environment) (log log' : list diag)
    (db : WacomDeviceDatabase) (d_name : string) (d : WacomDevice)
    (e : option WacomError)
    (Hrun : libwacom_database_new E log = Ok (db, log'))
    (Hsel : d_name ∈ (scandir E).2)
    (Hparsed : parsed_tablet E d_name = Some d)
    (Hbus : libwacom_get_bustype d = WBUSTYPE_USB) :
  exists dev,
    libwacom_new_from_usbid (Some db) (libwacom_get_vendor_id d)
      (libwacom_get_product_id d) e
    = Ok (Some dev, e)
    /\ libwacom_get_match dev = libwacom_get_match d
    /\ libwacom_get_bustype dev = WBUSTYPE_USB
    /\ libwacom_get_vendor_id dev = libwacom_get_vendor_id d
    /\ libwacom_get_product_id dev = libwacom_get_product_id d
    /\ exists d',
         libwacom_get_device db
           (printf_match "usb" (libwacom_get_vendor_id d)
              (libwacom_get_product_id d)) = Some d'
         /\ deep_copy dev d'.
Proof.
  unfold libwacom_get_bustype in Hbus.
  destruct (parsed_tablet_known_bus _ _ _ Hparsed) as (k & Hm & Hkey);
    [congruence |].
  destruct Hkey as [(_ & _ & _ & Hu) | (n & Hn & Heq & Hv & Hp)];
    [congruence |].
  rewrite Hbus in Hn. cbn in Hn. inversion Hn; subst n.
  assert (Hk : k = printf_match "usb" (libwacom_get_vendor_id d)
                     (libwacom_get_product_id d)).
  { rewrite Heq. unfold printf_match, libwacom_get_vendor_id,
      libwacom_get_product_id. rewrite !fmt_x_to_int32. reflexivity. }
  assert (Hfind : exists d', device_ht db !! k = Some d').
  { rewrite (database_new_lookup _ _ _ _ Hrun).
    destruct (List.find _ _) as [d' |] eqn:Hf; [eauto |].
    exfalso. eapply List.find_none in Hf.
    2: { apply list_elem_of_In, list_elem_of_omap. eauto. }
    unfold has_match_key in Hf. rewrite bool_decide_eq_true_2 in Hf by exact Hm.
    discriminate Hf. }
  destruct Hfind as (d' & Hd').
  exists (libwacom_copy d'). rewrite Hk in Hd'.
  destruct (usb_key_device _ _ _ _ _ _ _ Hrun Hd') as (Hb' & Hv' & Hp' & Hm').
  unfold libwacom_new_from_usbid, libwacom_new. cbn [bus_to_str].
  unfold mbind, outcome_bind, libwacom_get_device. rewrite Hd'.
  split; [reflexivity |].
  unfold libwacom_get_match, libwacom_get_bustype. cbn. unfold g_strdup.
  rewrite Hm', Hm, Hk.
  split; [reflexivity |]. split; [exact Hb' |].
  unfold libwacom_get_vendor_id, libwacom_get_product_id in *. cbn.
  rewrite Hv', Hp', !to_uint32_to_int32.
  unfold to_uint32. rewrite !Z.mod_small by lia.
  split; [reflexivity |]. split; [reflexivity |].
  exists d'. split; [reflexivity |]. copy_is_deep d'.
Qed.

(** ** Resolver: by product name *)

(** X15: with a database and a product name, the lookup by name returns
    the copy of the first device, in the order of
    [g_hash_table_get_values], whose product is that name, and leaves the
    error record alone: the device returned has the name asked for. It
    fails, with [WERROR_UNKNOWN_MODEL], exactly when no device of the table
    has that name; a device without a product never matches a name. *)
Theorem new_from_name_finds
    (get_values : gmap string WacomDevice -> list WacomDevice)
    (Hvalues : forall t d, d ∈ get_values t <-> exists k, t !! k = Some d)
    (db : WacomDeviceDatabase) (name : string) (e : option WacomError) :
  let r := libwacom_new_from_name get_values (Some db) (Some name) e in
  (forall dev,
      r.1 = Some dev ->
      libwacom_get_product dev = Some name /\ r.2 = e
      /\ exists l1 d l2,
           get_values (device_ht db) = (l1 ++ d :: l2)%list
           /\ dev = libwacom_copy d
           /\ Forall (fun d' => product d' <> Some name) l1)
  /\ (r.1 = None <->
      forall k d, device_ht db !! k = Some d -> product d <> Some name)
  /\ (r.1 = None -> r.2 = libwacom_error_set e WERROR_UNKNOWN_MODEL None).
Proof.
  intros r. subst r. unfold libwacom_new_from_name.
  pose proof (find_first (fun d => g_strcmp0 (product d) (Some name) =? 0)
                (get_values (device_ht db))) as Hfind.
  destruct (List.find _ _) as [d |]; cbn [fst snd].
  - destruct Hfind as (l1 & l2 & Hsplit & Hd & Hl1).
    apply g_strcmp0_eq_iff in Hd.
    split; [| split].
    + intros dev Hdev. inversion Hdev; subst dev.
      split; [exact Hd |]. split; [reflexivity |].
      exists l1, d, l2. repeat split; auto.
      eapply Forall_impl; [exact Hl1 |]. cbn. intros d' Hd' Hn.
      apply g_strcmp0_eq_iff in Hn. congruence.
    + split; [discriminate |]. intros Hall. exfalso.
      assert (Hin : d ∈ get_values (device_ht db)).
      { rewrite Hsplit. apply elem_of_app. right. left. }
      apply Hvalues in Hin as (k & Hk). exact (Hall k d Hk Hd).
    + discriminate.
  - split; [intros dev Hdev; discriminate Hdev |].
    split; [| reflexivity].
    split; [| reflexivity]. intros _ k d Hk Hn.
    assert (Hin : d ∈ get_values (device_ht db)) by (apply Hvalues; eauto).
    rewrite Forall_forall in Hfind. specialize (Hfind d Hin). cbn in Hfind.
    apply g_strcmp0_eq_iff in Hn. congruence.
Qed.

(** ** Resolver: by device path *)

Lemma get_device_info_bus (udev : string -> option GUdevDevice)
    (path : string) (e e' : option WacomError) (v p : Z) (b : WacomBusType) :
  get_device_info udev path e = Ok (Some (v, p, b), e') ->
  e' = e /\ (b = WBUSTYPE_USB \/ b = WBUSTYPE_BLUETOOTH).
Proof.
  unfold get_device_info, strtol16_int, mbind, outcome_bind. intros H.
  repeat (case_match; try discriminate); simplify_eq; auto.
Qed.

Lemma get_device_info_tablet (udev : string -> option GUdevDevice)
    (path : string) (e e' : option WacomError) (info : Z * Z * WacomBusType) :
  get_device_info udev path e = Ok (Some info, e') ->
  match udev path with
  | Some dev =>
      g_udev_device_get_property_as_boolean (Some dev) "ID_INPUT_TABLET"
  | None => false
  end = true.
Proof.
  unfold get_device_info. intros H.
  destruct (udev path) as [dev |]; [| discriminate].
  destruct (g_udev_device_get_property_as_boolean (Some dev) "ID_INPUT_TABLET");
    [reflexivity | discriminate].
Qed.

Lemma get_device_info_no_abort (udev : string -> option GUdevDevice)
    (path : string) (e : option WacomError) :
  get_device_info udev path e <> Abort.
Proof.
  unfold get_device_info, strtol16_int, mbind, outcome_bind, bus_from_str.
  intros H. repeat (case_match; try discriminate).
Qed.

(** The error [get_device_info] leaves when it returns [FALSE]. *)
Lemma get_device_info_fails (udev : string -> option GUdevDevice)
    (path : string) (e : WacomError) (e' : option WacomError) :
  get_device_info udev path (Some e) = Ok (None, e') ->
  exists c m,
    e' = Some {| code := c; msg := Some m |}
    /\ c = (if match udev path with
               | Some dev =>
                   g_udev_device_get_property_as_boolean (Some dev)
                     "ID_INPUT_TABLET"
               | None => false
               end
            then WERROR_UNKNOWN_MODEL else WERROR_INVALID_PATH).
Proof.
  unfold get_device_info, strtol16_int, mbind, outcome_bind. intros H.
  destruct (udev path) as [dev |];
    [| inversion H; do 2 eexists; split; reflexivity].
  destruct (g_udev_device_get_property_as_boolean (Some dev) "ID_INPUT_TABLET");
    cbn [negb] in H;
    [| inversion H; do 2 eexists; split; reflexivity].
  repeat (case_match; try discriminate); simplify_eq;
    do 2 eexists; split; reflexivity.
Qed.

Lemma bus_to_str_known (b : WacomBusType) :
  b = WBUSTYPE_USB \/ b = WBUSTYPE_BLUETOOTH ->
  exists busname, bus_to_str b = Ok busname.
Proof. intros [-> | ->]; eexists; reflexivity. Qed.

(** X16: the lookup by device path never reaches the assertion of
    [bus_to_str], with or without a database. When it fails, the error it
    leaves is [WERROR_INVALID_PATH] if the path is [NULL], is unknown to
    udev or is not a tablet, and [WERROR_UNKNOWN_MODEL] in every other
    case: never [WERROR_INVALID_DB], even for a [NULL] database. *)
Theorem new_from_path_errors (udev : string -> option GUdevDevice)
    (db : option WacomDeviceDatabase) (path : option string) (fallback : Z)
    (e : WacomError) :
  libwacom_new_from_path udev db path fallback (Some e) <> Abort
  /\ forall e',
       libwacom_new_from_path udev db path fallback (Some e) = Ok (None, e') ->
       exists c m,
         e' = Some {| code := c; msg := m |}
         /\ c = (if match path with
                    | Some path =>
                        match udev path with
                        | Some dev =>
                            g_udev_device_get_property_as_boolean (Some dev)
                              "ID_INPUT_TABLET"
                        | None => false
                        end
                    | None => false
                    end
                 then WERROR_UNKNOWN_MODEL else WERROR_INVALID_PATH).
Proof.
  unfold libwacom_new_from_path.
  destruct path as [path |].
  2: { split; [discriminate |]. intros e' H. inversion H.
       do 2 eexists. split; reflexivity. }
  unfold mbind, outcome_bind.
  destruct (get_device_info udev path (Some e)) as [[info e1] | |] eqn:Hinfo.
  2: { exfalso. exact (get_device_info_no_abort _ _ _ Hinfo). }
  2: { split; discriminate. }
  destruct info as [[[v p] b] |].
  - destruct (get_device_info_bus _ _ _ _ _ _ _ Hinfo) as [-> Hb].
    pose proof (get_device_info_tablet _ _ _ _ _ Hinfo) as Htab.
    rewrite Htab.
    destruct (bus_to_str_known b Hb) as (busname & Hname).
    unfold libwacom_new. destruct db as [db |].
    + rewrite Hname. cbn.
      destruct (libwacom_get_device db (printf_match busname v p)); cbn.
      { split; discriminate. }
      destruct (negb (fallback =? 0)); cbn.
      * destruct (libwacom_get_device db "generic"); cbn;
          (split; [discriminate |]); [discriminate |].
        intros e' H; inversion H. do 2 eexists. split; reflexivity.
      * split; [discriminate |].
        intros e' H; inversion H. do 2 eexists. split; reflexivity.
    + cbn. destruct (negb (fallback =? 0)); cbn.
      * split; discriminate.
      * split; [discriminate |].
        intros e' H; inversion H. do 2 eexists. split; reflexivity.
  - split; [discriminate |]. intros e' H. inversion H; subst e'.
    destruct (get_device_info_fails _ _ _ _ Hinfo) as (c & m & -> & ->).
    do 2 eexists. split; reflexivity.
Qed.

(** X17: once udev has given the bus and ids of the device, the lookup by
    path returns. A device it returns is a deep copy of the entry stored
    under the canonical key of that bus and those ids, or, only when there
    is no such entry and a fallback is asked for, of the entry stored under
    the generic sentinel: the fallback never takes the place of the
    tablet's own entry; the error record is left alone. It returns none,
    with [WERROR_UNKNOWN_MODEL], only when the table has no entry under
    the canonical key and the fallback is not asked for or is missing
    too. *)
Theorem new_from_path_fallback (udev : string -> option GUdevDevice)
    (db : WacomDeviceDatabase) (path : string) (fallback : Z)
    (e e1 : option WacomError) (v p : Z) (b : WacomBusType)
    (Hinfo : get_device_info udev path e = Ok (Some (v, p, b), e1)) :
  exists busname r,
    bus_to_str b = Ok busname
    /\ libwacom_new_from_path udev (Some db) (Some path) fallback e = Ok r
    /\ match r.1 with
       | Some dev =>
           r.2 = e
           /\ exists d,
                deep_copy dev d
                /\ (libwacom_get_device db (printf_match busname v p) = Some d
                    \/ (libwacom_get_device db (printf_match busname v p) = None
                        /\ fallback <> 0
                        /\ libwacom_get_device db GENERIC_DEVICE_MATCH = Some d))
       | None =>
           r.2 = libwacom_error_set e WERROR_UNKNOWN_MODEL None
           /\ libwacom_get_device db (printf_match busname v p) = None
           /\ (fallback = 0
               \/ libwacom_get_device db GENERIC_DEVICE_MATCH = None)
       end.
Proof.
  destruct (get_device_info_bus _ _ _ _ _ _ _ Hinfo) as [-> Hb].
  destruct (bus_to_str_known b Hb) as (busname & Hname).
  exists busname.
  unfold libwacom_new_from_path, mbind, outcome_bind. rewrite Hinfo.
  unfold libwacom_new, libwacom_get_device. rewrite Hname. cbn.
  destruct (device_ht db !! printf_match busname v p) as [d |] eqn:Hd; cbn.
  { eexists. split; [reflexivity |]. split; [reflexivity |]. cbn.
    split; [reflexivity |]. exists d.
    split; [copy_is_deep d | left; reflexivity]. }
  destruct (fallback =? 0) eqn:Ef; cbn.
  { apply Z.eqb_eq in Ef.
    eexists. split; [reflexivity |]. split; [reflexivity |]. cbn. auto. }
  apply Z.eqb_neq in Ef.
  change "generic" with GENERIC_DEVICE_MATCH.
  destruct (device_ht db !! GENERIC_DEVICE_MATCH) as [g |] eqn:Hg; cbn.
  - eexists. split; [reflexivity |]. split; [reflexivity |]. cbn.
    split; [reflexivity |]. exists g.
    split; [copy_is_deep g | right; auto].
  - eexists. split; [reflexivity |]. split; [reflexivity |]. cbn. auto.
Qed.

(** X18: with a [NULL] database, once udev has given the bus and ids of
    the device, the lookup by path without fallback fails with
    [WERROR_UNKNOWN_MODEL], and with a fallback it reads the device table
    through the [NULL] database: it faults. *)
Theorem new_from_path_null_db (udev : string -> option GUdevDevice)
    (path : string) (fallback : Z) (e : WacomError) (e1 : option WacomError)
    (v p : Z) (b : WacomBusType)
    (Hinfo : get_device_info udev path (Some e) = Ok (Some (v, p, b), e1)) :
  libwacom_new_from_path udev None (Some path) fallback (Some e)
  = if fallback =? 0
    then Ok (None, Some {| code := WERROR_UNKNOWN_MODEL;
                           msg := Some "db is NULL" |})
    else Fault.
Proof.
  destruct (get_device_info_bus _ _ _ _ _ _ _ Hinfo) as [-> _].
  unfold libwacom_new_from_path, mbind, outcome_bind. rewrite Hinfo.
  cbn. destruct (fallback =? 0); reflexivity.
Qed.

Lemma to_int32_idem (n : Z) : to_int32 (to_int32 n) = to_int32 n.
Proof.
  unfold to_int32.
  replace ((n + 2 ^ 31) mod 2 ^ 32 - 2 ^ 31 + 2 ^ 31)
    with ((n + 2 ^ 31) mod 2 ^ 32) by lia.
  rewrite Zmod_mod. reflexivity.
Qed.

(** X19: on the database of a load that returns, for a tablet that udev
    puts on the USB bus with a vendor and a model id, the lookup by path
    returns; the ids are what [strtol] reads of the two properties in
    base 16, without a test for 0. A device it returns is on the USB bus
    with those ids, or, only when a fallback was asked for, it is the
    generic entry. *)
Theorem path_usb_after_load (E : environment) (log log' : list diag)
    (db : WacomDeviceDatabase) (udev : string -> option GUdevDevice)
    (path : string) (dev : GUdevDevice) (vs ps : string) (fallback : Z)
    (e : option WacomError)
    (Hrun : libwacom_database_new E log = Ok (db, log'))
    (Hdev : udev path = Some dev)
    (Htablet : g_udev_device_get_property_as_boolean (Some dev) "ID_INPUT_TABLET"
               = true)
    (Hbus : g_udev_device_get_property (Some dev) "ID_BUS" = Some "usb")
    (Hvendor : g_udev_device_get_property (Some dev) "ID_VENDOR_ID" = Some vs)
    (Hmodel : g_udev_device_get_property (Some dev) "ID_MODEL_ID" = Some ps) :
  get_device_info udev path e
  = Ok (Some (to_int32 (Libc.strtol vs 16), to_int32 (Libc.strtol ps 16),
              WBUSTYPE_USB), e)
  /\ exists r,
       libwacom_new_from_path udev (Some db) (Some path) fallback e = Ok r
       /\ forall d,
            r.1 = Some d ->
            r.2 = e
            /\ ((libwacom_get_bustype d = WBUSTYPE_USB
                 /\ libwacom_get_vendor_id d = to_int32 (Libc.strtol vs 16)
                 /\ libwacom_get_product_id d = to_int32 (Libc.strtol ps 16))
                \/ (fallback <> 0
                    /\ libwacom_get_match d = Some GENERIC_DEVICE_MATCH)).
Proof.
  assert (Hinfo : get_device_info udev path e
                  = Ok (Some (to_int32 (Libc.strtol vs 16),
                              to_int32 (Libc.strtol ps 16), WBUSTYPE_USB), e)).
  { unfold get_device_info. rewrite Hdev, Htablet, Hbus. cbn.
    change (GKeyFile.assoc "ID_VENDOR_ID" (properties dev))
      with (g_udev_device_get_property (Some dev) "ID_VENDOR_ID").
    change (GKeyFile.assoc "ID_MODEL_ID" (properties dev))
      with (g_udev_device_get_property (Some dev) "ID_MODEL_ID").
    rewrite Hvendor, Hmodel. reflexivity. }
  split; [exact Hinfo |].
  unfold libwacom_new_from_path, mbind, outcome_bind. rewrite Hinfo.
  unfold libwacom_new, libwacom_get_device. cbn.
  set (v := to_int32 (Libc.strtol vs 16)).
  set (p := to_int32 (Libc.strtol ps 16)).
  change ("usb" +:+ ":0x" +:+ Libc.fmt_x v +:+ ":0x" +:+ Libc.fmt_x p)
    with (printf_match "usb" v p).
  destruct (device_ht db !! printf_match "usb" v p) as [d |] eqn:Hk; cbn.
  - eexists. split; [reflexivity |]. intros d0 H0. cbn in H0.
    inversion H0; subst d0. split; [reflexivity |]. left.
    destruct (usb_key_device _ _ _ _ _ _ _ Hrun Hk) as (Hb & Hv & Hp & _).
    unfold libwacom_get_bustype, libwacom_get_vendor_id,
      libwacom_get_product_id. cbn.
    rewrite Hv, Hp, !to_int32_to_uint32. subst v p.
    rewrite !to_int32_idem. auto.
  - destruct (fallback =? 0) eqn:Hf; cbn.
    + eexists. split; [reflexivity |]. intros d0 H0. discriminate H0.
    + apply Z.eqb_neq in Hf.
      destruct (device_ht db !! "generic") as [g |] eqn:Hg; cbn.
      * eexists. split; [reflexivity |]. intros d0 H0. cbn in H0.
        inversion H0; subst d0. split; [reflexivity |]. right.
        split; [exact Hf |].
        destruct (database_new_entries _ _ _ _ _ _ Hrun Hg) as (Hm & _).
        exact Hm.
      * eexists. split; [reflexivity |]. intros d0 H0. discriminate H0.
Qed.

(** ** Descriptor parser: the class *)

(** X20: the class accessor of a parsed device gives the class that the
    [Class] field names, letter for letter, and [WCLASS_UNKNOWN] when the
    field is missing, empty or any other string. *)
Theorem parsed_class (path : string) (kf : GKeyFile.t)
    (log log' : list diag) (d : WacomDevice)
    (Hrun : libwacom_parse_tablet_keyfile path (Some kf) log = Ok (Some d, log')) :
  let class := g_key_file_get_string kf DEVICE_GROUP "Class" in
  (libwacom_get_class d = WCLASS_INTUOS3 <-> class = Some "Intuos3")
  /\ (libwacom_get_class d = WCLASS_INTUOS4 <-> class = Some "Intuos4")
  /\ (libwacom_get_class d = WCLASS_CINTIQ <-> class = Some "Cintiq")
  /\ (libwacom_get_class d = WCLASS_BAMBOO <-> class = Some "Bamboo")
  /\ (libwacom_get_class d = WCLASS_GRAPHIRE <-> class = Some "Graphire").
Proof.
  destruct (parse_tablet_fields _ _ _ _ _ Hrun)
    as (_ & _ & _ & _ & Hc & _).
  unfold libwacom_get_class. rewrite Hc. cbv zeta.
  destruct (g_key_file_get_string kf DEVICE_GROUP "Class") as [c |];
    cbn [libwacom_model_string_to_enum].
  2: { repeat split; discriminate. }
  destruct c as [| c0 c']; [repeat split; discriminate |].
  set (c := String c0 c').
  change (match c with
          | "" => WCLASS_UNKNOWN
          | String _ _ =>
              if String.eqb c "Intuos3" then WCLASS_INTUOS3
              else if String.eqb c "Intuos4" then WCLASS_INTUOS4
              else if String.eqb c "Cintiq" then WCLASS_CINTIQ
              else if String.eqb c "Bamboo" then WCLASS_BAMBOO
              else if String.eqb c "Graphire" then WCLASS_GRAPHIRE
              else WCLASS_UNKNOWN
          end)
    with (if String.eqb c "Intuos3" then WCLASS_INTUOS3
          else if String.eqb c "Intuos4" then WCLASS_INTUOS4
          else if String.eqb c "Cintiq" then WCLASS_CINTIQ
          else if String.eqb c "Bamboo" then WCLASS_BAMBOO
          else if String.eqb c "Graphire" then WCLASS_GRAPHIRE
          else WCLASS_UNKNOWN).
  clearbody c.
  destruct (String.eqb_spec c "Intuos3") as [-> | H1];
    [repeat split; auto; discriminate |].
  destruct (String.eqb_spec c "Intuos4") as [-> | H2];
    [repeat split; auto; discriminate |].
  destruct (String.eqb_spec c "Cintiq") as [-> | H3];
    [repeat split; auto; discriminate |].
  destruct (String.eqb_spec c "Bamboo") as [-> | H4];
    [repeat split; auto; discriminate |].
  destruct (String.eqb_spec c "Graphire") as [-> | H5];
    [repeat split; auto; discriminate |].
  repeat split; try discriminate; congruence.
Qed.

Lemma parsed_class_bamboo :
  let class := g_key_file_get_string bamboo_file DEVICE_GROUP "Class" in
  (libwacom_get_class bamboo = WCLASS_INTUOS3 <-> class = Some "Intuos3")
  /\ (libwacom_get_class bamboo = WCLASS_INTUOS4 <-> class = Some "Intuos4")
  /\ (libwacom_get_class bamboo = WCLASS_CINTIQ <-> class = Some "Cintiq")
  /\ (libwacom_get_class bamboo = WCLASS_BAMBOO <-> class = Some "Bamboo")
  /\ (libwacom_get_class bamboo = WCLASS_GRAPHIRE <-> class = Some "Graphire").
Proof.
  apply (parsed_class "bamboo.tablet" bamboo_file [] [] bamboo).
  vm_compute. reflexivity.
Defined.

(** ** Resolver: the ids of a Bluetooth tablet *)

Lemma dec_digit_is_hex (c : ascii) :
  Libc.is_digit 10 c = true -> Libc.is_digit 16 c = true.
Proof.
  unfold Libc.is_digit. destruct (Libc.digit_val c) as [d |]; [| discriminate].
  intros H. apply Z.ltb_lt in H. apply Z.ltb_lt. lia.
Qed.

Lemma scan_d_app (n rest : string) :
  dec_number n ->
  match rest with
  | EmptyString => True
  | String c _ => Libc.is_digit 10 c = false
  end ->
  exists v, LibcScan.scan_d (n +:+ rest) = Some (v, rest).
Proof.
  intros [Hne Hall] Hrest.
  destruct n as [| c n']; [congruence |].
  assert (Hc : Libc.is_digit 10 c = true).
  { cbn in Hall. apply andb_true_iff in Hall as [Hc _]. exact Hc. }
  destruct (hex_digit_facts c (dec_digit_is_hex c Hc))
    as (Hsp & Hplus & Hminus & _).
  destruct (take_digits_app 10 rest Hrest (String c n') Hall)
    as (l & Hl & Hnil & _).
  unfold LibcScan.scan_d. rewrite append_cons.
  rewrite (skip_space_nonspace _ _ Hsp), (scan_sign_plain _ _ Hplus Hminus).
  rewrite <- append_cons, Hl.
  destruct l; [discriminate (Hnil eq_refl) | eauto].
Qed.

(** The [PRODUCT] property in the form [<n>/<vendor-hex>/<product-hex>/<n>]
    scans into four fields and gives the two ids. *)
Lemma sscanf_product (n1 nv np n2 : string) (v p : Z) :
  dec_number n1 -> hex_number nv v -> hex_number np p -> dec_number n2 ->
  LibcScan.sscanf_d_x_x_d (n1 +:+ "/" +:+ nv +:+ "/" +:+ np +:+ "/" +:+ n2)
  = (4, Some (to_int32 v), Some (to_int32 p)).
Proof.
  intros H1 Hv Hp H2.
  assert (Hslash : forall r, stops_number (String "/" r)).
  { intros r. repeat split; discriminate. }
  change (n1 +:+ "/" +:+ nv +:+ "/" +:+ np +:+ "/" +:+ n2)
    with (n1 +:+ String "/" (nv +:+ String "/" (np +:+ String "/" n2))).
  destruct (scan_d_app n1 (String "/" (nv +:+ String "/" (np +:+ String "/" n2)))
              H1 eq_refl) as (g1 & Hg1).
  destruct (scan_d_app n2 "" H2 I) as (g2 & Hg2).
  rewrite append_nil_r in Hg2.
  unfold LibcScan.sscanf_d_x_x_d. rewrite Hg1.
  destruct H1 as [Hne1 Hall1]. destruct n1 as [| c n1']; [congruence |].
  cbn in Hall1. apply andb_true_iff in Hall1 as [Hc _].
  destruct (hex_digit_facts c (dec_digit_is_hex c Hc)) as (Hsp & _).
  rewrite append_cons, (skip_space_nonspace _ _ Hsp).
  cbn [LibcScan.expect_slash Ascii.eqb Bool.eqb].
  rewrite (scan_x_app nv v _ Hv (Hslash _)).
  cbn [LibcScan.expect_slash Ascii.eqb Bool.eqb].
  rewrite (scan_x_app np p _ Hp (Hslash _)).
  cbn [LibcScan.expect_slash Ascii.eqb Bool.eqb].
  rewrite Hg2. reflexivity.
Qed.

(** X21: a tablet for which udev gives no bus is taken for a Bluetooth
    tablet and its ids are read from the [PRODUCT] property of its parent:
    for a property of the form [<n>/<vendor-hex>/<product-hex>/<n>] the
    vendor and product ids are the two hexadecimal numbers; the properties
    of the device itself are not looked at. Without a parent, or without
    that property on it, the lookup faults. *)
Theorem get_device_info_bluetooth (udev : string -> option GUdevDevice)
    (path : string) (dev : GUdevDevice) (e : option WacomError)
    (Hdev : udev path = Some dev)
    (Htablet : g_udev_device_get_property_as_boolean (Some dev) "ID_INPUT_TABLET"
               = true)
    (Hbus : g_udev_device_get_property (Some dev) "ID_BUS" = None) :
  (g_udev_device_get_property (g_udev_device_get_parent dev) "PRODUCT" = None ->
   get_device_info udev path e = Fault)
  /\ forall n1 nv np n2 v p,
       g_udev_device_get_property (g_udev_device_get_parent dev) "PRODUCT"
       = Some (n1 +:+ "/" +:+ nv +:+ "/" +:+ np +:+ "/" +:+ n2) ->
       dec_number n1 -> hex_number nv v -> hex_number np p -> dec_number n2 ->
       get_device_info udev path e
       = Ok (Some (to_int32 v, to_int32 p, WBUSTYPE_BLUETOOTH), e).
Proof.
  unfold get_device_info. rewrite Hdev, Htablet, Hbus. cbn [negb].
  cbn [bus_from_str String.eqb Ascii.eqb Bool.eqb mbind outcome_bind].
  split.
  - intros Hnone. rewrite Hnone. reflexivity.
  - intros n1 nv np n2 v p Hprod H1 Hv Hp H2. rewrite Hprod.
    rewrite (sscanf_product _ _ _ _ _ _ H1 Hv Hp H2). reflexivity.
Qed.

Lemma get_device_info_bluetooth_parent :
  (g_udev_device_get_property
     (g_udev_device_get_parent bluetooth_tablet) "PRODUCT" = None ->
   get_device_info (fun _ => Some bluetooth_tablet) "/dev/input/event7" None
   = Fault)
  /\ forall n1 nv np n2 v p,
       g_udev_device_get_property
         (g_udev_device_get_parent bluetooth_tablet) "PRODUCT"
       = Some (n1 +:+ "/" +:+ nv +:+ "/" +:+ np +:+ "/" +:+ n2) ->
       dec_number n1 -> hex_number nv v -> hex_number np p -> dec_number n2 ->
       get_device_info (fun _ => Some bluetooth_tablet) "/dev/input/event7" None
       = Ok (Some (to_int32 v, to_int32 p, WBUSTYPE_BLUETOOTH), None).
Proof.
  apply (get_device_info_bluetooth (fun _ => Some bluetooth_tablet)
           "/dev/input/event7" bluetooth_tablet None); reflexivity.
Defined.

(** The example of the source: [PRODUCT=5/56a/81/100] gives vendor 0x56a
    and product 0x81. *)
Example bluetooth_product_example :
  get_device_info (fun _ => Some bluetooth_tablet) "/dev/input/event7" None
  = Ok (Some (1386, 129, WBUSTYPE_BLUETOOTH), None).
Proof. vm_compute. reflexivity. Qed.

(** ** Instances *)

Lemma database_new_nothing_selected_no_tablet :
  exists db,
    libwacom_database_new datadir_no_tablet [] = Ok (db, [])
    /\ stylus_ht db = None
    /\ (forall k, libwacom_get_device db k = None)
    /\ (forall id, libwacom_stylus_get_for_id db id = None).
Proof.
  apply (database_new_nothing_selected datadir_no_tablet []).
  intros names H. inversion H; subst names.
  repeat constructor.
Defined.

Lemma device_table_keys_twice :
  exists db log',
    libwacom_database_new datadir_twice [] = Ok (db, log')
    /\ libwacom_get_match earlier_device = Some "usb:0x56a:0xb9"
    /\ key_of_device "usb:0x56a:0xb9" earlier_device
    /\ exists d_name,
         d_name ∈ (scandir datadir_twice).2
         /\ parsed_tablet datadir_twice d_name = Some earlier_device.
Proof.
  eexists ?[db], ?[log].
  assert (Hrun : libwacom_database_new datadir_twice [] = Ok (?db, ?log))
    by (vm_compute; reflexivity).
  split; [exact Hrun |].
  apply (device_table_keys datadir_twice [] _ _ "usb:0x56a:0xb9" earlier_device
           Hrun).
  vm_compute. reflexivity.
Defined.

Lemma parsed_features_accessors_bamboo :
  let flag key :=
    if g_key_file_get_boolean bamboo_file FEATURE_GROUP key then 1 else 0 in
  libwacom_has_stylus bamboo = flag "Stylus"
  /\ libwacom_has_touch bamboo = flag "Touch"
  /\ libwacom_has_ring bamboo = flag "Ring"
  /\ libwacom_has_ring2 bamboo = flag "Ring2"
  /\ libwacom_has_vstrip bamboo = flag "VStrip"
  /\ libwacom_has_hstrip bamboo = flag "HStrip"
  /\ libwacom_is_builtin bamboo = flag "BuiltIn"
  /\ libwacom_is_reversible bamboo = flag "Reversible".
Proof.
  apply (parsed_features_accessors "bamboo.tablet" bamboo_file [] [] bamboo).
  vm_compute. reflexivity.
Defined.

Lemma parsed_device_copy_bamboo :
  let ids :=
    match g_key_file_get_string_list bamboo_file DEVICE_GROUP "Styli" with
    | Some l => map (fun s => to_int32 (Libc.strtol s 0)) l
    | None => []
    end in
  libwacom_get_supported_styli bamboo
  = (match ids with [] => None | _ => Some ids end, Z.of_nat (length ids))
  /\ libwacom_copy bamboo = bamboo.
Proof.
  apply (parsed_device_copy "bamboo.tablet" bamboo_file [] [] bamboo).
  vm_compute. reflexivity.
Defined.

Lemma catalog_stylus_num_buttons_grip_pen :
  exists ht log',
    libwacom_parse_stylus_keyfile ∅ (Some stylus_file) [] = Ok (ht, log')
    /\ exists group n log1,
         group ∈ g_key_file_get_groups stylus_file
         /\ stylus_group_id group = 2050
         /\ libwacom_stylus_get_num_buttons grip_pen [] = Ok (n, log1)
         /\ n = (if g_key_file_get_boolean stylus_file group "IsEraser" then 0
                 else
                   let '(b, error) :=
                     g_key_file_get_integer_err stylus_file group "Buttons" in
                   if error || (b =? -1) then 2 else b).
Proof.
  eexists ?[ht], ?[log].
  assert (Hrun : libwacom_parse_stylus_keyfile ∅ (Some stylus_file) []
                 = Ok (?ht, ?log)) by (vm_compute; reflexivity).
  split; [exact Hrun |].
  apply (catalog_stylus_num_buttons stylus_file [] _ _ 2050 grip_pen [] Hrun).
  vm_compute. reflexivity.
Defined.

Lemma catalog_stylus_type_grip_pen :
  exists ht log',
    libwacom_parse_stylus_keyfile ∅ (Some stylus_file) [] = Ok (ht, log')
    /\ exists group t log1,
         group ∈ g_key_file_get_groups stylus_file
         /\ stylus_group_id group = 2050
         /\ libwacom_stylus_get_type grip_pen [] = Ok (t, log1)
         /\ t <> WSTYLUS_UNKNOWN
         /\ (t = WSTYLUS_INKING <->
             g_key_file_get_string stylus_file group "Type" = Some "Inking")
         /\ (t = WSTYLUS_AIRBRUSH <->
             g_key_file_get_string stylus_file group "Type" = Some "Airbrush")
         /\ (t = WSTYLUS_CLASSIC <->
             g_key_file_get_string stylus_file group "Type" = Some "Classic")
         /\ (t = WSTYLUS_MARKER <->
             g_key_file_get_string stylus_file group "Type" = Some "Marker").
Proof.
  eexists ?[ht], ?[log].
  assert (Hrun : libwacom_parse_stylus_keyfile ∅ (Some stylus_file) []
                 = Ok (?ht, ?log)) by (vm_compute; reflexivity).
  split; [exact Hrun |].
  apply (catalog_stylus_type stylus_file [] _ _ 2050 grip_pen [] Hrun).
  vm_compute. reflexivity.
Defined.

Lemma match_key_print_then_parse_usb :
  libwacom_matchstr_to_ints (Some (printf_match "usb" 1386 185))
    0 0 WBUSTYPE_UNKNOWN
  = Ok (1, (to_uint32 1386, to_uint32 185, WBUSTYPE_USB)).
Proof.
  apply (match_key_print_then_parse WBUSTYPE_USB "usb" 1386 185 0 0
           WBUSTYPE_UNKNOWN).
  reflexivity.
Defined.

Lemma match_key_injective_wrapped :
  "usb" = "usb"
  /\ to_uint32 1386 = to_uint32 (1386 + 2 ^ 32)
  /\ to_uint32 185 = to_uint32 185
  /\ (WBUSTYPE_USB = WBUSTYPE_USB <-> WBUSTYPE_USB = WBUSTYPE_USB).
Proof.
  apply (match_key_injective WBUSTYPE_USB WBUSTYPE_USB "usb" "usb"
           1386 185 (1386 + 2 ^ 32) 185).
  - reflexivity.
  - reflexivity.
  - vm_compute. reflexivity.
Defined.

Lemma usbid_after_load_twice :
  exists db log',
    libwacom_database_new datadir_twice [] = Ok (db, log')
    /\ exists r,
         libwacom_new_from_usbid (Some db) 1386 185 None = Ok r
         /\ match r.1 with
            | Some dev =>
                r.2 = None
                /\ libwacom_get_bustype dev = WBUSTYPE_USB
                /\ libwacom_get_vendor_id dev = to_int32 1386
                /\ libwacom_get_product_id dev = to_int32 185
                /\ libwacom_get_match dev = Some (printf_match "usb" 1386 185)
                /\ libwacom_get_match dev <> Some GENERIC_DEVICE_MATCH
            | None =>
                r.2 = libwacom_error_set None WERROR_UNKNOWN_MODEL None
                /\ libwacom_get_device db (printf_match "usb" 1386 185) = None
            end.
Proof.
  eexists ?[db], ?[log].
  assert (Hrun : libwacom_database_new datadir_twice [] = Ok (?db, ?log))
    by (vm_compute; reflexivity).
  split; [exact Hrun |].
  exact (usbid_after_load datadir_twice [] _ _ 1386 185 None Hrun).
Defined.

Lemma usb_descriptor_reachable_later :
  exists db log',
    libwacom_database_new datadir_twice [] = Ok (db, log')
    /\ exists dev,
         libwacom_new_from_usbid (Some db) (libwacom_get_vendor_id later_device)
           (libwacom_get_product_id later_device) None
         = Ok (Some dev, None)
         /\ libwacom_get_match dev = libwacom_get_match later_device
         /\ libwacom_get_bustype dev = WBUSTYPE_USB
         /\ libwacom_get_vendor_id dev = libwacom_get_vendor_id later_device
         /\ libwacom_get_product_id dev = libwacom_get_product_id later_device
         /\ exists d',
              libwacom_get_device db
                (printf_match "usb" (libwacom_get_vendor_id later_device)
                   (libwacom_get_product_id later_device)) = Some d'
              /\ deep_copy dev d'.
Proof.
  eexists ?[db], ?[log].
  assert (Hrun : libwacom_database_new datadir_twice [] = Ok (?db, ?log))
    by (vm_compute; reflexivity).
  split; [exact Hrun |].
  apply (usb_descriptor_reachable datadir_twice [] _ _ "b.tablet" later_device
           None Hrun).
  - vm_compute. right. left.
  - vm_compute. reflexivity.
  - reflexivity.
Defined.

Lemma new_from_name_finds_intuos :
  let r := libwacom_new_from_name values_by_key (Some nameless_db)
             (Some "Intuos4 6x9") None in
  (forall dev,
      r.1 = Some dev ->
      libwacom_get_product dev = Some "Intuos4 6x9" /\ r.2 = None
      /\ exists l1 d l2,
           values_by_key (device_ht nameless_db) = (l1 ++ d :: l2)%list
           /\ dev = libwacom_copy d
           /\ Forall (fun d' => product d' <> Some "Intuos4 6x9") l1)
  /\ (r.1 = None <->
      forall k d,
        device_ht nameless_db !! k = Some d -> product d <> Some "Intuos4 6x9")
  /\ (r.1 = None -> r.2 = libwacom_error_set None WERROR_UNKNOWN_MODEL None).
Proof.
  exact (new_from_name_finds values_by_key values_by_key_spec nameless_db
           "Intuos4 6x9" None).
Defined.

Lemma new_from_path_fallback_generic :
  exists busname r,
    bus_to_str WBUSTYPE_USB = Ok busname
    /\ libwacom_new_from_path (usb_tablet "056a" "00d1") (Some nameless_db)
         (Some "/dev/input/event5") 1 None = Ok r
    /\ match r.1 with
       | Some dev =>
           r.2 = None
           /\ exists d,
                deep_copy dev d
                /\ (libwacom_get_device nameless_db
                      (printf_match busname 1386 209) = Some d
                    \/ (libwacom_get_device nameless_db
                          (printf_match busname 1386 209) = None
                        /\ 1 <> 0
                        /\ libwacom_get_device nameless_db GENERIC_DEVICE_MATCH
                           = Some d))
       | None =>
           r.2 = libwacom_error_set None WERROR_UNKNOWN_MODEL None
           /\ libwacom_get_device nameless_db
                (printf_match busname 1386 209) = None
           /\ (1 = 0
               \/ libwacom_get_device nameless_db GENERIC_DEVICE_MATCH = None)
       end.
Proof.
  apply (new_from_path_fallback (usb_tablet "056a" "00d1") nameless_db
           "/dev/input/event5" 1 None None 1386 209 WBUSTYPE_USB).
  vm_compute. reflexivity.
Defined.

Lemma new_from_path_null_db_event5 :
  libwacom_new_from_path (usb_tablet "056a" "00d1") None
    (Some "/dev/input/event5") 1 (Some stale_error)
  = if 1 =? 0
    then Ok (None, Some {| code := WERROR_UNKNOWN_MODEL;
                           msg := Some "db is NULL" |})
    else Fault.
Proof.
  apply (new_from_path_null_db (usb_tablet "056a" "00d1") "/dev/input/event5"
           1 stale_error (Some stale_error) 1386 209 WBUSTYPE_USB).
  vm_compute. reflexivity.
Defined.

Lemma path_usb_after_load_twice :
  exists db log',
    libwacom_database_new datadir_twice [] = Ok (db, log')
    /\ get_device_info (usb_tablet "056a" "00b9") "/dev/input/event5" None
       = Ok (Some (to_int32 (Libc.strtol "056a" 16),
                   to_int32 (Libc.strtol "00b9" 16), WBUSTYPE_USB), None)
    /\ exists r,
         libwacom_new_from_path (usb_tablet "056a" "00b9") (Some db)
           (Some "/dev/input/event5") 0 None = Ok r
         /\ forall d,
              r.1 = Some d ->
              r.2 = None
              /\ ((libwacom_get_bustype d = WBUSTYPE_USB
                   /\ libwacom_get_vendor_id d = to_int32 (Libc.strtol "056a" 16)
                   /\ libwacom_get_product_id d
                      = to_int32 (Libc.strtol "00b9" 16))
                  \/ (0 <> 0
                      /\ libwacom_get_match d = Some GENERIC_DEVICE_MATCH)).
Proof.
  eexists ?[db], ?[log].
  assert (Hrun : libwacom_database_new datadir_twice [] = Ok (?db, ?log))
    by (vm_compute; reflexivity).
  split; [exact Hrun |].
  apply (path_usb_after_load datadir_twice [] _ _ (usb_tablet "056a" "00b9")
           "/dev/input/event5"
           (mkGUdevDevice
              [("ID_INPUT_TABLET", "1"); ("ID_BUS", "usb");
               ("ID_VENDOR_ID", "056a"); ("ID_MODEL_ID", "00b9")] None)
           "056a" "00b9" 0 None Hrun); reflexivity.
Defined.
